(** * AppDemonstrator: the self-healing bring-up engine of [src/agent/app_demonstrator.py]

    A shallow embedding of the class [AppDemonstrator] and a verification of
    its retry coordinator, health probes, error fixers, smoke test and cleanup.

    Modelling conventions.
    - Python [int] is [Z]; [str] is [string]; [set] of strings is [gset string];
      [os.environ] is a [gmap string string].
    - Every call that leaves the interpreter (subprocess, HTTP, psutil, the
      file system, [time.sleep], [print], the browser) is answered by an
      [Environment] oracle that sees the history of earlier calls, and is
      appended to the [trace] of the world, newest event first.
    - A method is a state transformer over the instance and the world that
      either returns a value or raises an exception ([outcome]).
    - The [while] loop of [_retry_with_fixes] need not terminate, so it takes
      fuel and answers [None] when the fuel runs out.
    - Assumptions on the libraries: a request either yields a response or
      raises [requests.RequestException]; [Popen.terminate] does not raise;
      [subprocess.run], [subprocess.Popen], the psutil calls and the file
      operations may raise anything. Text is ASCII ([lower], [title]) and
      paths are joined the POSIX way. *)

From Stdlib Require Import Ascii.
From stdpp Require Import gmap strings list pretty.

Local Open Scope Z_scope.

(** ** Python string operations *)

Definition nl : string := String "010"%char EmptyString.

(** [s.startswith(p)] *)
Fixpoint starts_with (p s : string) : bool :=
  match p, s with
  | EmptyString, _ => true
  | String a p', String b s' => if Ascii.eqb a b then starts_with p' s' else false
  | String _ _, EmptyString => false
  end.

(** [needle in hay] on strings: substring test. *)
Fixpoint py_in (needle hay : string) : bool :=
  starts_with needle hay ||
  match hay with
  | EmptyString => false
  | String _ t => py_in needle t
  end.

(** [s.endswith(c)] for a single character. *)
Fixpoint ends_with_char (c : ascii) (s : string) : bool :=
  match s with
  | EmptyString => false
  | String a EmptyString => Ascii.eqb a c
  | String _ t => ends_with_char c t
  end.

Definition is_upper (c : ascii) : bool :=
  let n := N_of_ascii c in (65 <=? n)%N && (n <=? 90)%N.

Definition is_lower (c : ascii) : bool :=
  let n := N_of_ascii c in (97 <=? n)%N && (n <=? 122)%N.

Definition lower_char (c : ascii) : ascii :=
  if is_upper c then ascii_of_N (N_of_ascii c + 32) else c.

Definition upper_char (c : ascii) : ascii :=
  if is_lower c then ascii_of_N (N_of_ascii c - 32) else c.

(** [s.lower()], on ASCII text. *)
Fixpoint py_lower (s : string) : string :=
  match s with
  | EmptyString => EmptyString
  | String c t => String (lower_char c) (py_lower t)
  end.

(** [s.title()], on ASCII text: a letter that follows a letter is lowered,
    any other letter is raised. *)
Fixpoint title_from (after_letter : bool) (s : string) : string :=
  match s with
  | EmptyString => EmptyString
  | String c t =>
      let letter := is_upper c || is_lower c in
      String (if after_letter then lower_char c else upper_char c)
             (title_from letter t)
  end.

Definition py_title (s : string) : string := title_from false s.

(** [s.split(sep)] for a one-character separator. *)
Fixpoint py_split (sep : ascii) (s : string) : list string :=
  match s with
  | EmptyString => [EmptyString]
  | String c t =>
      if Ascii.eqb c sep then EmptyString :: py_split sep t
      else match py_split sep t with
           | h :: r => String c h :: r
           | [] => [String c EmptyString]
           end
  end.

(** ["\n".join(lines)] *)
Fixpoint py_join (sep : string) (l : list string) : string :=
  match l with
  | [] => EmptyString
  | [x] => x
  | x :: r => x +:+ sep +:+ py_join sep r
  end.

(** [str(n)] for an integer. *)
Definition py_str (n : Z) : string := pretty n.
Arguments py_str : simpl never.

(** [os.path.join(a, b)] with POSIX separators. *)
Definition os_path_join (a b : string) : string :=
  if starts_with "/" b then b
  else if String.eqb a "" || ends_with_char "/" a then a +:+ b
  else a +:+ "/" +:+ b.

(** ** Exceptions and outcomes *)

Inductive exc_class :=
| CalledProcessError   (* subprocess.run(check=True) on a non-zero exit *)
| RequestException     (* any failure raised by requests *)
| IndexError
| NoSuchProcess        (* psutil *)
| OSError.             (* FileNotFoundError, PermissionError, ... *)

(** Every class above derives from [Exception]; [exc_str] is [str(e)]. *)
Record exception := Exc { exc_type : exc_class; exc_str : string }.

Inductive outcome (A : Type) :=
| Returned (a : A)
| Raised (e : exception).
Arguments Returned {A} a.
Arguments Raised {A} e.

#[global] Instance exc_class_eq_dec : EqDecision exc_class.
Proof. solve_decision. Defined.

(** ** The outside world *)

Inductive http_reply :=
| Response (code : Z)
| RequestFailed (msg : string).   (* raises RequestException *)

Inductive event :=
| EvPrint (text : string)
| EvLogError (text : string)
| EvPathExists (path : string) (r : bool)
| EvRun (cmd : list string) (cwd : option string) (r : option exception)
| EvPopen (cmd : list string) (cwd : string) (penv : gmap string string)
          (r : exception + Z)
| EvGet (url : string) (timeout : option Z) (r : http_reply)
| EvPost (url : string) (timeout : option Z) (r : http_reply)
| EvSleep (secs : Z)
| EvChildren (pid : Z) (r : exception + list Z)
| EvPsTerminate (pid : Z) (r : option exception)
| EvPopenTerminate (pid : Z)
| EvCreatePackageJson (frontend_dir : string) (r : option exception)
| EvWriteFile (path content : string) (r : option exception)
| EvBrowser (url : string).

(** The environment answers each external call from the history so far. *)
Record Environment := {
  sys_executable : string;
  sys_platform : string;
  os_path_exists : list event -> string -> bool;
  subprocess_run_reply : list event -> list string -> option string -> option exception;
  subprocess_Popen_reply :
    list event -> list string -> string -> gmap string string -> exception + Z;
  requests_get_reply : list event -> string -> http_reply;
  requests_post_reply : list event -> string -> http_reply;
  psutil_children_reply : list event -> Z -> exception + list Z;
  psutil_terminate_reply : list event -> Z -> option exception;
  create_package_json_reply : list event -> string -> option exception;
  write_file_reply : list event -> string -> string -> option exception
}.

Record World := {
  env : Environment;
  os_environ : gmap string string;
  trace : list event
}.

Definition log (e : event) (w : World) : World :=
  {| env := env w; os_environ := os_environ w; trace := e :: trace w |}.

Definition set_environ (k v : string) (w : World) : World :=
  {| env := env w; os_environ := <[k := v]> (os_environ w); trace := trace w |}.

(** ** The instance *)

(** [self._fix_attempts]: a dict that is only ever created with the three
    keys ['backend'], ['frontend'], ['dependencies'], in this order. *)
Record FixAttempts := {
  fa_backend : list string;
  fa_frontend : list string;
  fa_dependencies : list string
}.

Record AppDemonstrator := {
  project_dir : string;
  backend_process : option Z;     (* the pid of the Popen handle, or None *)
  frontend_process : option Z;
  backend_port : Z;
  frontend_port : Z;
  backend_url : string;
  frontend_url : string;
  _fix_attempts : option FixAttempts   (* None: the attribute does not exist *)
}.

(** [__init__] *)
Definition init (dir : string) : AppDemonstrator :=
  {| project_dir := dir;
     backend_process := None;
     frontend_process := None;
     backend_port := 5000;
     frontend_port := 3000;
     backend_url := "http://localhost:" +:+ py_str 5000;
     frontend_url := "http://localhost:" +:+ py_str 3000;
     _fix_attempts := None |}.

Definition set_backend_process (p : option Z) (d : AppDemonstrator) :=
  {| project_dir := project_dir d; backend_process := p;
     frontend_process := frontend_process d; backend_port := backend_port d;
     frontend_port := frontend_port d; backend_url := backend_url d;
     frontend_url := frontend_url d; _fix_attempts := _fix_attempts d |}.

Definition set_frontend_process (p : option Z) (d : AppDemonstrator) :=
  {| project_dir := project_dir d; backend_process := backend_process d;
     frontend_process := p; backend_port := backend_port d;
     frontend_port := frontend_port d; backend_url := backend_url d;
     frontend_url := frontend_url d; _fix_attempts := _fix_attempts d |}.

Definition set_backend_port (p : Z) (d : AppDemonstrator) :=
  {| project_dir := project_dir d; backend_process := backend_process d;
     frontend_process := frontend_process d; backend_port := p;
     frontend_port := frontend_port d; backend_url := backend_url d;
     frontend_url := frontend_url d; _fix_attempts := _fix_attempts d |}.

Definition set_frontend_port (p : Z) (d : AppDemonstrator) :=
  {| project_dir := project_dir d; backend_process := backend_process d;
     frontend_process := frontend_process d; backend_port := backend_port d;
     frontend_port := p; backend_url := backend_url d;
     frontend_url := frontend_url d; _fix_attempts := _fix_attempts d |}.

Definition set_backend_url (u : string) (d : AppDemonstrator) :=
  {| project_dir := project_dir d; backend_process := backend_process d;
     frontend_process := frontend_process d; backend_port := backend_port d;
     frontend_port := frontend_port d; backend_url := u;
     frontend_url := frontend_url d; _fix_attempts := _fix_attempts d |}.

Definition set_frontend_url (u : string) (d : AppDemonstrator) :=
  {| project_dir := project_dir d; backend_process := backend_process d;
     frontend_process := frontend_process d; backend_port := backend_port d;
     frontend_port := frontend_port d; backend_url := backend_url d;
     frontend_url := u; _fix_attempts := _fix_attempts d |}.

Definition set_fix_attempts (f : option FixAttempts) (d : AppDemonstrator) :=
  {| project_dir := project_dir d; backend_process := backend_process d;
     frontend_process := frontend_process d; backend_port := backend_port d;
     frontend_port := frontend_port d; backend_url := backend_url d;
     frontend_url := frontend_url d; _fix_attempts := f |}.

(** ** Methods as state transformers *)

Definition State : Type := AppDemonstrator * World.

Definition M (A : Type) : Type := State -> outcome A * State.

Definition ret {A} (a : A) : M A := fun s => (Returned a, s).

Definition raise {A} (e : exception) : M A := fun s => (Raised e, s).

Definition bind {A B} (m : M A) (k : A -> M B) : M B :=
  fun s =>
    match m s with
    | (Returned a, s') => k a s'
    | (Raised e, s') => (Raised e, s')
    end.

Notation "'let*' x ':=' c 'in' k" := (bind c (fun x => k))
  (at level 10, x pattern, c at level 100, k at level 200).
Notation "c >> k" := (bind c (fun _ => k))
  (at level 100, k at level 200, right associativity).

(** [try: body  except cls: handler]; the handler sees the exception. *)
Definition try_except {A} (handles : exc_class -> bool)
    (body : M A) (handler : exception -> M A) : M A :=
  fun s =>
    match body s with
    | (Returned a, s') => (Returned a, s')
    | (Raised e, s') => if handles (exc_type e) then handler e s' else (Raised e, s')
    end.

(** [except Exception] *)
Definition any_exception (c : exc_class) : bool := true.
Definition only (c0 c : exc_class) : bool := bool_decide (c = c0).

Definition self : M AppDemonstrator := fun s => (Returned (fst s), s).
Definition world : M World := fun s => (Returned (snd s), s).
Definition update_self (f : AppDemonstrator -> AppDemonstrator) : M unit :=
  fun s => (Returned tt, (f (fst s), snd s)).
Definition update_world (f : World -> World) : M unit :=
  fun s => (Returned tt, (fst s, f (snd s))).

(** [for _ in range(n): body] where the body may [return]; [after] is the code
    that follows the loop. *)
Fixpoint for_range {A} (n : nat) (body : M (option A)) (after : M A) : M A :=
  match n with
  | O => after
  | S n' =>
      let* r := body in
      match r with
      | Some a => ret a
      | None => for_range n' body after
      end
  end.

(** [for x in xs: body x] *)
Fixpoint for_each {X} (xs : list X) (body : X -> M unit) : M unit :=
  match xs with
  | [] => ret tt
  | x :: r => body x >> for_each r body
  end.

(** ** External calls *)

Definition print (text : string) : M unit := update_world (log (EvPrint text)).

(** [logger.error(text)] *)
Definition logger_error (text : string) : M unit := update_world (log (EvLogError text)).

(** [os.path.exists(path)] *)
Definition path_exists (path : string) : M bool :=
  fun s =>
    let w := snd s in
    let r := os_path_exists (env w) (trace w) path in
    (Returned r, (fst s, log (EvPathExists path r) w)).

(** [subprocess.run(cmd, cwd=cwd, check=True)] *)
Definition subprocess_run (cmd : list string) (cwd : option string) : M unit :=
  fun s =>
    let w := snd s in
    let r := subprocess_run_reply (env w) (trace w) cmd cwd in
    let s' := (fst s, log (EvRun cmd cwd r) w) in
    match r with
    | None => (Returned tt, s')
    | Some e => (Raised e, s')
    end.

(** [subprocess.Popen(cmd, cwd=cwd, env=penv, stdout=PIPE, stderr=PIPE)];
    the handle is represented by the pid of the child. *)
Definition subprocess_Popen (cmd : list string) (cwd : string)
    (penv : gmap string string) : M Z :=
  fun s =>
    let w := snd s in
    let r := subprocess_Popen_reply (env w) (trace w) cmd cwd penv in
    let s' := (fst s, log (EvPopen cmd cwd penv r) w) in
    match r with
    | inr pid => (Returned pid, s')
    | inl e => (Raised e, s')
    end.

(** [requests.get(url)]: no [timeout] argument is passed, so the request runs
    with [timeout=None]. The result is [response.status_code]. *)
Definition requests_get (url : string) : M Z :=
  fun s =>
    let w := snd s in
    let r := requests_get_reply (env w) (trace w) url in
    let s' := (fst s, log (EvGet url None r) w) in
    match r with
    | Response code => (Returned code, s')
    | RequestFailed msg => (Raised (Exc RequestException msg), s')
    end.

(** [requests.post(url, json={})], again without a [timeout]. *)
Definition requests_post (url : string) : M Z :=
  fun s =>
    let w := snd s in
    let r := requests_post_reply (env w) (trace w) url in
    let s' := (fst s, log (EvPost url None r) w) in
    match r with
    | Response code => (Returned code, s')
    | RequestFailed msg => (Raised (Exc RequestException msg), s')
    end.

Definition time_sleep (secs : Z) : M unit := update_world (log (EvSleep secs)).

(** [psutil.Process(pid).children(recursive=True)] *)
Definition psutil_children (pid : Z) : M (list Z) :=
  fun s =>
    let w := snd s in
    let r := psutil_children_reply (env w) (trace w) pid in
    let s' := (fst s, log (EvChildren pid r) w) in
    match r with
    | inr l => (Returned l, s')
    | inl e => (Raised e, s')
    end.

(** [child.terminate()] on a psutil process *)
Definition psutil_terminate (pid : Z) : M unit :=
  fun s =>
    let w := snd s in
    let r := psutil_terminate_reply (env w) (trace w) pid in
    let s' := (fst s, log (EvPsTerminate pid r) w) in
    match r with
    | None => (Returned tt, s')
    | Some e => (Raised e, s')
    end.

(** [Popen.terminate()]: a no-op on a child that has already been reaped,
    a SIGTERM otherwise. *)
Definition popen_terminate (pid : Z) : M unit :=
  update_world (log (EvPopenTerminate pid)).

(** [with open(path, 'w') as f: f.write(...)], as one fallible step carrying
    everything written. *)
Definition write_file (path content : string) : M unit :=
  fun s =>
    let w := snd s in
    let r := write_file_reply (env w) (trace w) path content in
    let s' := (fst s, log (EvWriteFile path content r) w) in
    match r with
    | None => (Returned tt, s')
    | Some e => (Raised e, s')
    end.

Definition webbrowser_open (url : string) : M unit :=
  update_world (log (EvBrowser url)).

(** ** [_install_dependencies] *)

Definition _install_dependencies : M (bool * string) :=
  try_except (only CalledProcessError)
    (let* d := self in
     let* w := world in
     let backend_dir := os_path_join (project_dir d) "backend" in
     let* has_requirements :=
       path_exists (os_path_join backend_dir "requirements.txt") in
     (if has_requirements
      then subprocess_run
             [sys_executable (env w); "-m"; "pip"; "install"; "-r"; "requirements.txt"]
             (Some backend_dir)
      else ret tt) >>
     let frontend_dir := os_path_join (project_dir d) "frontend" in
     let* has_package := path_exists (os_path_join frontend_dir "package.json") in
     (if has_package
      then subprocess_run ["npm"; "install"] (Some frontend_dir)
      else ret tt) >>
     ret (true, "Dependencies installed successfully"))
    (fun e => ret (false, "Failed to install dependencies: " +:+ exc_str e)).

(** ** [_start_backend] and [_start_frontend] *)

(** One turn of the backend wait loop: [Some r] is [return r]. *)
Definition backend_probe : M (option (bool * string)) :=
  try_except (only RequestException)
    (let* d := self in
     let* code := requests_get (backend_url d +:+ "/health") in
     if code =? 200 then ret (Some (true, "Backend started successfully"))
     else ret None)
    (fun _ => time_sleep 1 >> ret None).

Definition _start_backend : M (bool * string) :=
  try_except any_exception
    (let* d := self in
     let* w := world in
     let backend_dir := os_path_join (project_dir d) "backend" in
     let penv := <["FLASK_ENV" := "development"]>
                   (<["FLASK_APP" := "app"]> (os_environ w)) in
     let* p := subprocess_Popen [sys_executable (env w); "-m"; "flask"; "run"]
                                backend_dir penv in
     update_self (set_backend_process (Some p)) >>
     for_range 30 backend_probe
       (ret (false, "Backend failed to start within timeout")))
    (fun e => ret (false, "Failed to start backend: " +:+ exc_str e)).

Definition frontend_probe : M (option (bool * string)) :=
  try_except (only RequestException)
    (let* d := self in
     let* code := requests_get (frontend_url d) in
     if code =? 200 then ret (Some (true, "Frontend started successfully"))
     else ret None)
    (fun _ => time_sleep 1 >> ret None).

Definition _start_frontend : M (bool * string) :=
  try_except any_exception
    (let* d := self in
     let* w := world in
     let frontend_dir := os_path_join (project_dir d) "frontend" in
     (* {'PORT': str(self.frontend_port), **os.environ}: os.environ wins *)
     let penv := os_environ w ∪ {["PORT" := py_str (frontend_port d)]} in
     let* p := subprocess_Popen ["npm"; "start"] frontend_dir penv in
     update_self (set_frontend_process (Some p)) >>
     for_range 60 frontend_probe
       (ret (false, "Frontend failed to start within timeout")))
    (fun e => ret (false, "Failed to start frontend: " +:+ exc_str e)).

(** ** [_verify_api_endpoints] *)

(** One entry of the result list: a dict with the keys ['endpoint'],
    ['method'], ['status'] and either ['status_code'] or ['error']. *)
Record api_result := {
  endpoint : string;
  method : string;
  status : string;
  status_code : option string;
  error : option string
}.

Definition endpoints : list (string * string) :=
  [ ("/api/health", "GET");
    ("/api/auth/register", "POST");
    ("/api/auth/login", "POST");
    ("/api/users/profile", "GET") ].

(** The body of the loop over [endpoints]; the value is the dict appended. *)
Definition verify_endpoint (ep : string * string) : M api_result :=
  try_except (only RequestException)
    (let* d := self in
     let* code :=
       (if String.eqb (snd ep) "GET"
        then requests_get (backend_url d +:+ fst ep)
        else requests_post (backend_url d +:+ fst ep)) in
     ret {| endpoint := fst ep; method := snd ep;
            status := if code <? 500 then "Success" else "Failed";
            status_code := Some (py_str code); error := None |})
    (fun e =>
     ret {| endpoint := fst ep; method := snd ep; status := "Failed";
            status_code := None; error := Some (exc_str e) |}).

Fixpoint verify_loop (eps : list (string * string)) (results : list api_result)
    : M (list api_result) :=
  match eps with
  | [] => ret results
  | ep :: rest =>
      let* r := verify_endpoint ep in
      verify_loop rest (results ++ [r])
  end.

Definition _verify_api_endpoints : M (list api_result) := verify_loop endpoints [].

(** ** [_generate_demo_report] *)

Definition report_row (result : api_result) : string :=
  "| " +:+ endpoint result +:+ " | " +:+ method result +:+ " | " +:+
  status result +:+ " | " +:+ default "N/A" (status_code result) +:+ " |".

Definition _generate_demo_report (d : AppDemonstrator)
    (api_results : list api_result) : string :=
  py_join nl
    ([ "# Web Application Demonstration Report" +:+ nl;
       "## API Endpoint Status" +:+ nl;
       "| Endpoint | Method | Status | Status Code |";
       "|----------|---------|---------|-------------|" ]
     ++ map report_row api_results
     ++ [ nl +:+ "## Application URLs";
          "- Frontend: " +:+ frontend_url d;
          "- Backend API: " +:+ backend_url d;
          nl +:+ "## Next Steps";
          "1. Open the frontend URL in your browser";
          "2. Try registering a new user";
          "3. Test the login functionality";
          "4. Explore the application features" ]).

(** ** [_cleanup] *)

(** The block guarded by [if self.<x>_process:]. *)
Definition terminate_tree (pid : Z) : M unit :=
  let* children := psutil_children pid in
  for_each children psutil_terminate >>
  popen_terminate pid.

Definition _cleanup : M unit :=
  try_except any_exception
    (let* d := self in
     (match backend_process d with
      | Some pid => terminate_tree pid
      | None => ret tt
      end) >>
     (match frontend_process d with
      | Some pid => terminate_tree pid
      | None => ret tt
      end))
    (fun e => logger_error ("Error during cleanup: " +:+ exc_str e)).

(** ** The fixers *)

Definition empty_fix_attempts : FixAttempts :=
  {| fa_backend := []; fa_frontend := []; fa_dependencies := [] |}.

(** [if not hasattr(self, '_fix_attempts'): self._fix_attempts = {...}] *)
Definition ensure_fix_attempts : M unit :=
  update_self (fun d =>
    match _fix_attempts d with
    | Some _ => d
    | None => set_fix_attempts (Some empty_fix_attempts) d
    end).

(** [self._fix_attempts[component].append(fix_applied)] *)
Definition record_fix (component fix_applied : string) : M unit :=
  update_self (fun d =>
    set_fix_attempts
      ((fun fa =>
          if String.eqb component "backend" then
            {| fa_backend := fa_backend fa ++ [fix_applied];
               fa_frontend := fa_frontend fa;
               fa_dependencies := fa_dependencies fa |}
          else if String.eqb component "frontend" then
            {| fa_backend := fa_backend fa;
               fa_frontend := fa_frontend fa ++ [fix_applied];
               fa_dependencies := fa_dependencies fa |}
          else
            {| fa_backend := fa_backend fa;
               fa_frontend := fa_frontend fa;
               fa_dependencies := fa_dependencies fa ++ [fix_applied] |})
       <$> _fix_attempts d) d).

(** [l[i]] *)
Definition list_index (l : list string) (i : nat) : M string :=
  match l !! i with
  | Some x => ret x
  | None => raise (Exc IndexError "list index out of range")
  end.

(** The tail shared by the three fixers: [if fix_applied: ... return True, ...]
    and the fall-through [return False, ...]. Every description assigned to
    [fix_applied] is a non-empty string, hence truthy. *)
Definition conclude_fix (component : string) (fix_applied : option string)
    : M (bool * string) :=
  match fix_applied with
  | Some description =>
      record_fix component description >> ret (true, description)
  | None =>
      ret (false, "Unable to automatically fix this " +:+ component +:+ " error")
  end.

Definition _fix_backend_error (error : string) : M (bool * string) :=
  let* d0 := self in
  let backend_dir := os_path_join (project_dir d0) "backend" in
  ensure_fix_attempts >>
  try_except any_exception
    (let* w := world in
     let* fix_applied :=
       (if py_in "ModuleNotFoundError" error then
          let* module_name := list_index (py_split "'" error) 1 in
          subprocess_run [sys_executable (env w); "-m"; "pip"; "install"; module_name]
                         (Some backend_dir) >>
          ret (Some ("Installed missing module: " +:+ module_name))
        else if py_in "Address already in use" error then
          update_self (fun d => set_backend_port (backend_port d + 1) d) >>
          update_self (fun d =>
            set_backend_url ("http://localhost:" +:+ py_str (backend_port d)) d) >>
          let* d := self in
          ret (Some ("Changed backend port to " +:+ py_str (backend_port d)))
        else if py_in "No module named 'flask'" error then
          subprocess_run [sys_executable (env w); "-m"; "pip"; "install"; "flask"]
                         (Some backend_dir) >>
          ret (Some "Installed Flask")
        else if py_in "SQLAlchemy" error then
          for_each [ "pip install sqlalchemy";
                     "pip install psycopg2-binary";
                     "pip install flask-sqlalchemy" ]
                   (fun fix_cmd => subprocess_run (py_split " " fix_cmd) (Some backend_dir)) >>
          ret (Some "Installed database dependencies")
        else ret None) in
     conclude_fix "backend" fix_applied)
    (fun e => ret (false, "Backend fix failed: " +:+ exc_str e)).

(** [_create_basic_package_json]: [os.makedirs] and the dump of the fixed
    manifest, as one fallible step. *)
Definition _create_basic_package_json (frontend_dir : string) : M unit :=
  fun s =>
    let w := snd s in
    let r := create_package_json_reply (env w) (trace w) frontend_dir in
    let s' := (fst s, log (EvCreatePackageJson frontend_dir r) w) in
    match r with
    | None => (Returned tt, s')
    | Some e => (Raised e, s')
    end.

Definition _fix_frontend_error (error : string) : M (bool * string) :=
  let* d0 := self in
  let frontend_dir := os_path_join (project_dir d0) "frontend" in
  ensure_fix_attempts >>
  try_except any_exception
    (let* fix_applied :=
       (if py_in "ENOENT" error && py_in "package.json" error then
          _create_basic_package_json frontend_dir >>
          ret (Some "Created basic package.json")
        else if py_in "react-scripts" error then
          subprocess_run ["npm"; "install"; "react-scripts"; "--save-dev"]
                         (Some frontend_dir) >>
          ret (Some "Installed react-scripts")
        else if py_in "EADDRINUSE" error then
          update_self (fun d => set_frontend_port (frontend_port d + 1) d) >>
          (let* d := self in
           update_world (set_environ "PORT" (py_str (frontend_port d)))) >>
          update_self (fun d =>
            set_frontend_url ("http://localhost:" +:+ py_str (frontend_port d)) d) >>
          let* d := self in
          ret (Some ("Changed frontend port to " +:+ py_str (frontend_port d)))
        else ret None) in
     conclude_fix "frontend" fix_applied)
    (fun e => ret (false, "Frontend fix failed: " +:+ exc_str e)).

Definition _fix_dependency_error (error : string) : M (bool * string) :=
  ensure_fix_attempts >>
  try_except any_exception
    (let* w := world in
     let* fix_applied :=
       (if py_in "npm" (py_lower error) then
          (if String.eqb (sys_platform (env w)) "win32"
           then subprocess_run ["npm"; "install"; "-g"; "npm"] None
           else subprocess_run ["sudo"; "npm"; "install"; "-g"; "npm"] None) >>
          ret (Some "Updated npm installation")
        else if py_in "python" (py_lower error) || py_in "pip" (py_lower error) then
          subprocess_run [sys_executable (env w); "-m"; "pip"; "install"; "--upgrade"; "pip"]
                         None >>
          ret (Some "Updated pip installation")
        else ret None) in
     conclude_fix "dependencies" fix_applied)
    (fun e => ret (false, "Dependency fix failed: " +:+ exc_str e)).

(** ** [_analyze_and_fix_error] *)

Definition _analyze_and_fix_error (error component : string) : M (bool * string) :=
  try_except any_exception
    (if String.eqb component "backend" then _fix_backend_error error
     else if String.eqb component "frontend" then _fix_frontend_error error
     else if String.eqb component "dependencies" then _fix_dependency_error error
     else ret (false, "Unknown component: " +:+ component))
    (fun e => ret (false, "Error fixing failed: " +:+ exc_str e)).

(** ** [_retry_with_fixes] *)

(** The local variables of the loop. *)
Record locals := {
  attempt : Z;
  last_error : string;
  errors_seen : gset string
}.

Definition failure_message (component : string) (max_attempts : Z)
    (last : string) : string :=
  "Failed to fix " +:+ component +:+ " after " +:+ py_str max_attempts +:+
  " attempts. Last error: " +:+ last.

(** One execution of the loop body: [inl l] is the state of the locals at the
    next test of the loop condition, [inr r] is [return r]. *)
Definition retry_body (operation component : string) (func : M (bool * string))
    (max_attempts : Z) (l : locals) : M (locals + bool * string) :=
  print (nl +:+ "Attempt " +:+ py_str (attempt l) +:+ "/" +:+ py_str max_attempts +:+
         " to fix " +:+ component +:+ " error:") >>
  print ("Error: " +:+ last_error l) >>
  if bool_decide (last_error l ∈ errors_seen l) then
    print "This error was seen before, trying different fix strategy..." >>
    ret (inl {| attempt := attempt l + 1; last_error := last_error l;
                errors_seen := errors_seen l |})
  else
    let seen := {[ last_error l ]} ∪ errors_seen l in
    let* fx := _analyze_and_fix_error (last_error l) component in
    if fst fx then
      print ("Fix applied: " +:+ snd fx) >>
      let* res := func in
      if fst res then
        print (nl +:+ operation +:+ " successful after fixes!") >>
        ret (inr (true, snd res))
      else
        ret (inl {| attempt := attempt l; last_error := snd res;
                    errors_seen := seen |})
    else
      print ("Unable to fix error: " +:+ snd fx) >>
      ret (inl {| attempt := attempt l + 1; last_error := last_error l;
                  errors_seen := seen |}).

(** Computations that may run out of fuel. *)
Definition Mf (A : Type) : Type := State -> option (outcome A * State).

(** [while attempt <= max_attempts: body] followed by the final [return]. *)
Fixpoint retry_loop (fuel : nat) (operation component : string)
    (func : M (bool * string)) (max_attempts : Z) (l : locals)
    : Mf (bool * string) :=
  fun s =>
    match fuel with
    | O => None
    | S fuel' =>
        if attempt l <=? max_attempts then
          match retry_body operation component func max_attempts l s with
          | (Returned (inl l'), s') =>
              retry_loop fuel' operation component func max_attempts l' s'
          | (Returned (inr r), s') => Some (Returned r, s')
          | (Raised e, s') => Some (Raised e, s')
          end
        else
          Some (Returned (false, failure_message component max_attempts (last_error l)), s)
    end.

Definition _retry_with_fixes (fuel : nat) (operation error_msg component : string)
    (func : M (bool * string)) (max_attempts : Z) : Mf (bool * string) :=
  retry_loop fuel operation component func max_attempts
    {| attempt := 1; last_error := error_msg; errors_seen := ∅ |}.

(** ** [demonstrate] *)

Definition retf {A} (a : A) : Mf A := fun s => Some (Returned a, s).

Definition lift {A} (m : M A) : Mf A := fun s => Some (m s).

Definition bindf {A B} (m : Mf A) (k : A -> Mf B) : Mf B :=
  fun s =>
    match m s with
    | None => None
    | Some (Returned a, s') => k a s'
    | Some (Raised e, s') => Some (Raised e, s')
    end.

Notation "'let+' x ':=' c 'in' k" := (bindf c (fun x => k))
  (at level 10, x pattern, c at level 100, k at level 200).

(** The block repeated for stages 1 to 3:
    [success, message = func()] and, when that failed,
    [success, message = self._retry_with_fixes(operation, message, component, func)]
    with the default [max_attempts = 5]. *)
Definition stage (fuel : nat) (operation component : string)
    (func : M (bool * string)) : Mf (bool * string) :=
  let+ first := lift func in
  if fst first then retf first
  else _retry_with_fixes fuel operation (snd first) component func 5.

(** What is written to [demo_report.md] after the report itself. *)
Definition fix_section (component : string) (attempts : list string) : string :=
  nl +:+ "### " +:+ py_title component +:+ " Fixes" +:+ nl +:+
  foldr (fun a rest => "- " +:+ a +:+ nl +:+ rest) "" attempts.

Definition fix_summary (d : AppDemonstrator) : string :=
  nl +:+ nl +:+ "## Fix Attempts Summary" +:+ nl +:+
  match _fix_attempts d with
  | Some fa =>
      fix_section "backend" (fa_backend fa) +:+
      fix_section "frontend" (fa_frontend fa) +:+
      fix_section "dependencies" (fa_dependencies fa)
  | None => "No fixes were needed during demonstration." +:+ nl
  end.

Definition report_t : Type := bool * string * option string.

(** The [try] block, cut at the banners of its stages. Stage 4 and what
    follows it: *)
Definition verification_onwards : Mf report_t :=
  let+ _ := lift (print (nl +:+ "[4/4] Verifying API endpoints...")) in
  let+ api_results := lift _verify_api_endpoints in
  let+ d := lift self in
  let report := _generate_demo_report d api_results in
  let report_path := os_path_join (project_dir d) "demo_report.md" in
  let+ _ := lift (write_file report_path (report +:+ fix_summary d)) in
  let+ _ := lift (webbrowser_open (frontend_url d)) in
  retf (true, "Demonstration completed successfully", Some report).

Definition frontend_onwards (fuel : nat) : Mf report_t :=
  let+ _ := lift (print (nl +:+ "[3/4] Starting frontend server...")) in
  let+ r3 := stage fuel "Frontend startup" "frontend" _start_frontend in
  if negb (fst r3) then retf (false, snd r3, None) else
  verification_onwards.

Definition backend_onwards (fuel : nat) : Mf report_t :=
  let+ _ := lift (print (nl +:+ "[2/4] Starting backend server...")) in
  let+ r2 := stage fuel "Backend startup" "backend" _start_backend in
  if negb (fst r2) then retf (false, snd r2, None) else
  frontend_onwards fuel.

Definition demonstrate_try (fuel : nat) : Mf report_t :=
  let+ _ := lift (print (nl +:+ "Starting Web Application Demonstration...")) in
  let+ _ := lift (print (nl +:+ "[1/4] Installing dependencies...")) in
  let+ r1 := stage fuel "Dependency installation" "dependencies" _install_dependencies in
  if negb (fst r1) then retf (false, snd r1, None) else
  backend_onwards fuel.

(** [try: body  except Exception as e: return False, ..., None
    finally: self._cleanup()] *)
Definition try_finally_cleanup (body : Mf report_t) : Mf report_t :=
  fun s =>
    match body s with
    | None => None
    | Some (res, s') =>
        let result :=
          match res with
          | Returned r => r
          | Raised e => (false, "Demonstration failed: " +:+ exc_str e, None)
          end in
        match _cleanup s' with
        | (Returned _, s'') => Some (Returned result, s'')
        | (Raised e, s'') => Some (Raised e, s'')
        end
    end.

Definition demonstrate (fuel : nat) : Mf report_t :=
  try_finally_cleanup (demonstrate_try fuel).

(** ** Reading a trace *)

(** Pids of the processes started with [subprocess.Popen]. *)
Definition launched (t : list event) : list Z :=
  omap (fun e => match e with EvPopen _ _ _ (inr pid) => Some pid | _ => None end) t.

(** Pids on which a terminate call was made and did not raise. *)
Definition terminated (t : list event) : list Z :=
  omap (fun e => match e with
                 | EvPopenTerminate pid => Some pid
                 | EvPsTerminate pid None => Some pid
                 | _ => None
                 end) t.

(** Urls of the GET requests. *)
Definition gets (t : list event) : list string :=
  omap (fun e => match e with EvGet url _ _ => Some url | _ => None end) t.

(** ** Concrete environments *)

(** Nothing is installed or listening: no manifest exists, every command
    succeeds, every spawn succeeds with a fresh pid, every request is
    refused, no process has children. *)
Definition quiet_env : Environment :=
  {| sys_executable := "/usr/bin/python3";
     sys_platform := "linux";
     os_path_exists := fun _ _ => false;
     subprocess_run_reply := fun _ _ _ => None;
     subprocess_Popen_reply := fun t _ _ _ => inr (100 + Z.of_nat (length (launched t)));
     requests_get_reply := fun _ _ => RequestFailed "Connection refused";
     requests_post_reply := fun _ _ => RequestFailed "Connection refused";
     psutil_children_reply := fun _ _ => inr [];
     psutil_terminate_reply := fun _ _ => None;
     create_package_json_reply := fun _ _ => None;
     write_file_reply := fun _ _ _ => None |}.

Definition with_get (f : list event -> string -> http_reply) (e : Environment) :=
  {| sys_executable := sys_executable e; sys_platform := sys_platform e;
     os_path_exists := os_path_exists e;
     subprocess_run_reply := subprocess_run_reply e;
     subprocess_Popen_reply := subprocess_Popen_reply e;
     requests_get_reply := f;
     requests_post_reply := requests_post_reply e;
     psutil_children_reply := psutil_children_reply e;
     psutil_terminate_reply := psutil_terminate_reply e;
     create_package_json_reply := create_package_json_reply e;
     write_file_reply := write_file_reply e |}.

Definition with_post (f : list event -> string -> http_reply) (e : Environment) :=
  {| sys_executable := sys_executable e; sys_platform := sys_platform e;
     os_path_exists := os_path_exists e;
     subprocess_run_reply := subprocess_run_reply e;
     subprocess_Popen_reply := subprocess_Popen_reply e;
     requests_get_reply := requests_get_reply e;
     requests_post_reply := f;
     psutil_children_reply := psutil_children_reply e;
     psutil_terminate_reply := psutil_terminate_reply e;
     create_package_json_reply := create_package_json_reply e;
     write_file_reply := write_file_reply e |}.

Definition with_run
    (f : list event -> list string -> option string -> option exception)
    (e : Environment) :=
  {| sys_executable := sys_executable e; sys_platform := sys_platform e;
     os_path_exists := os_path_exists e;
     subprocess_run_reply := f;
     subprocess_Popen_reply := subprocess_Popen_reply e;
     requests_get_reply := requests_get_reply e;
     requests_post_reply := requests_post_reply e;
     psutil_children_reply := psutil_children_reply e;
     psutil_terminate_reply := psutil_terminate_reply e;
     create_package_json_reply := create_package_json_reply e;
     write_file_reply := write_file_reply e |}.

Definition with_exists (f : list event -> string -> bool) (e : Environment) :=
  {| sys_executable := sys_executable e; sys_platform := sys_platform e;
     os_path_exists := f;
     subprocess_run_reply := subprocess_run_reply e;
     subprocess_Popen_reply := subprocess_Popen_reply e;
     requests_get_reply := requests_get_reply e;
     requests_post_reply := requests_post_reply e;
     psutil_children_reply := psutil_children_reply e;
     psutil_terminate_reply := psutil_terminate_reply e;
     create_package_json_reply := create_package_json_reply e;
     write_file_reply := write_file_reply e |}.

Definition with_psutil (ch : list event -> Z -> exception + list Z)
    (tm : list event -> Z -> option exception) (e : Environment) :=
  {| sys_executable := sys_executable e; sys_platform := sys_platform e;
     os_path_exists := os_path_exists e;
     subprocess_run_reply := subprocess_run_reply e;
     subprocess_Popen_reply := subprocess_Popen_reply e;
     requests_get_reply := requests_get_reply e;
     requests_post_reply := requests_post_reply e;
     psutil_children_reply := ch;
     psutil_terminate_reply := tm;
     create_package_json_reply := create_package_json_reply e;
     write_file_reply := write_file_reply e |}.

Definition world_of (e : Environment) : World :=
  {| env := e; os_environ := ∅; trace := [] |}.

Definition fresh (e : Environment) : State := (init "/srv/app", world_of e).

(** Every server answers 200 to everything. *)
Definition healthy_env : Environment :=
  with_post (fun _ _ => Response 200)
    (with_get (fun _ _ => Response 200) quiet_env).

(** The servers are up but answer 503 to every GET. *)
Definition unavailable_env : Environment :=
  with_get (fun _ _ => Response 503) quiet_env.

(** The backend answers on its third probe. *)
Definition slow_backend_env : Environment :=
  with_get (fun t _ => if (length (gets t) <? 2)%nat
                       then RequestFailed "Connection refused"
                       else Response 200) quiet_env.

(** The backend is healthy, the frontend never answers. *)
Definition no_frontend_env : Environment :=
  with_get (fun _ url => if String.eqb url "http://localhost:5000/health"
                         then Response 200
                         else RequestFailed "Connection refused") quiet_env.

(** The frontend dev server can only listen on port 3001. *)
Definition port_3001_env : Environment :=
  with_get (fun _ url => if String.eqb url "http://localhost:3001"
                         then Response 200
                         else RequestFailed "Connection refused") quiet_env.

Definition eaddrinuse : string :=
  "Failed to start frontend: Error: listen EADDRINUSE: address already in use :::3000".

Fixpoint cmd_eqb (a b : list string) : bool :=
  match a, b with
  | [], [] => true
  | x :: a', y :: b' => String.eqb x y && cmd_eqb a' b'
  | _, _ => false
  end.

(** [npm install] fails every time, each time with another exit status (the
    number of external calls made so far); everything else succeeds, also
    the self-update of npm. *)
Definition npm_exit_status (k : nat) : string :=
  "Command '['npm', 'install']' returned non-zero exit status " +:+ pretty k +:+ ".".

Definition flaky_npm_env : Environment :=
  with_exists (fun _ path => String.eqb path "/srv/app/frontend/package.json")
    (with_run (fun t cmd _ =>
                 if cmd_eqb cmd ["npm"; "install"]
                 then Some (Exc CalledProcessError (npm_exit_status (length t)))
                 else None) quiet_env).

(** [npm install] fails every time with the same message. *)
Definition broken_npm_env : Environment :=
  with_exists (fun _ path => String.eqb path "/srv/app/frontend/package.json")
    (with_run (fun t cmd _ =>
                 if cmd_eqb cmd ["npm"; "install"]
                 then Some (Exc CalledProcessError (npm_exit_status 1))
                 else None) quiet_env).

(** Everything is healthy; the backend (pid 100) has one child (pid 200)
    which is gone by the time cleanup signals it. *)
Definition race_env : Environment :=
  with_psutil
    (fun _ pid => if pid =? 100 then inr [200] else inr [])
    (fun _ pid => if pid =? 200
                  then Some (Exc NoSuchProcess "process no longer exists (pid=200)")
                  else None)
    healthy_env.

(** Every installer call fails. *)
Definition offline_env : Environment :=
  with_run (fun _ _ _ =>
              Some (Exc CalledProcessError "Command returned non-zero exit status 1."))
    quiet_env.

(** ** Specifications read off a trace *)

(** The events a computation added, in the order they happened. *)
Definition added (s s' : State) : list event :=
  drop (length (trace (snd s))) (rev (trace (snd s'))).

(** Appending events in the order given. *)
Definition log_all (evs : list event) (w : World) : World :=
  foldl (fun w e => log e w) w evs.
Arguments log_all : simpl never.

(** Replies to the GET requests of a trace. *)
Definition get_replies (t : list event) : list http_reply :=
  omap (fun e => match e with EvGet _ _ r => Some r | _ => None end) t.

(** What one probe leaves in the trace: the request and, when it was
    refused, the sleep. *)
Definition probe_events (url : string) (r : http_reply) : list event :=
  match r with
  | Response _ => [EvGet url None r]
  | RequestFailed _ => [EvGet url None r; EvSleep 1]
  end.

Definition is_200 (r : http_reply) : bool :=
  match r with Response c => c =? 200 | RequestFailed _ => false end.

(** The three ways a start method can end, in terms of the replies its GET
    requests received: the spawn failed and nothing was probed; the last
    probe was the first to answer 200; or [cap] probes went by without a 200. *)
Definition start_spec (cap : nat) (ok timeout failed : string)
    (replies : list http_reply) (r : outcome (bool * string)) : Prop :=
  (∃ e, r = Returned (false, failed +:+ exc_str e) ∧ replies = [])
  ∨ (r = Returned (true, ok) ∧
     ∃ pre, replies = pre ++ [Response 200] ∧
            forallb (fun x => negb (is_200 x)) pre = true ∧
            (length pre < cap)%nat)
  ∨ (r = Returned (false, timeout) ∧ length replies = cap ∧
     forallb (fun x => negb (is_200 x)) replies = true).

Definition is_popen (e : event) : bool :=
  match e with EvPopen _ _ _ _ => true | _ => false end.

(** Pacing of probes, as properties of a chronological list of events:
    a sleep of one second lies between any two GET requests; every GET
    carries a finite timeout; a sleep of one second follows each GET that
    was refused; no GET carries a timeout. *)
Definition sleeps_between_gets (evs : list event) : Prop :=
  forall (i j : nat) url1 to1 r1 url2 to2 r2,
    (i < j)%nat ->
    evs !! i = Some (EvGet url1 to1 r1) ->
    evs !! j = Some (EvGet url2 to2 r2) ->
    exists k : nat, (i < k < j)%nat ∧ evs !! k = Some (EvSleep 1).

Definition gets_have_timeouts (evs : list event) : Prop :=
  forall url to r, EvGet url to r ∈ evs -> is_Some to.

Definition sleeps_after_refused_gets (evs : list event) : Prop :=
  forall (i : nat) url to msg,
    evs !! i = Some (EvGet url to (RequestFailed msg)) ->
    evs !! S i = Some (EvSleep 1).

Definition gets_without_timeout (evs : list event) : Prop :=
  forall url to r, EvGet url to r ∈ evs -> to = None.

(** The request made for an endpoint of the smoke test. *)
Definition request_event (base : string) (ep : string * string)
    (reply : http_reply) : event :=
  if String.eqb (snd ep) "GET" then EvGet (base +:+ fst ep) None reply
  else EvPost (base +:+ fst ep) None reply.

(** What the result dict [x] must say for endpoint [ep] answered by [reply]. *)
Definition records (x : api_result) (ep : string * string) (reply : http_reply) : Prop :=
  endpoint x = fst ep ∧ method x = snd ep ∧
  (status x = "Success" <-> exists c, reply = Response c ∧ c < 500) ∧
  (status x = "Failed" <->
     (exists c, reply = Response c ∧ 500 <= c) ∨ (exists m, reply = RequestFailed m)) ∧
  (forall c, reply = Response c -> status_code x = Some (py_str c)).

(** ** The classifier as a signature table *)

(** This table follows the wording of the specification (an ordered list of
    signatures per component, first match wins); the fixers above follow the
    source. Each signature is paired with the text that starts the
    description of its fix. *)
Definition signature_table (component : string) : list ((string -> bool) * string) :=
  if String.eqb component "backend" then
    [ (py_in "ModuleNotFoundError", "Installed missing module: ");
      (py_in "Address already in use", "Changed backend port to ");
      (py_in "No module named 'flask'", "Installed Flask");
      (py_in "SQLAlchemy", "Installed database dependencies") ]
  else if String.eqb component "frontend" then
    [ (fun e => py_in "ENOENT" e && py_in "package.json" e, "Created basic package.json");
      (py_in "react-scripts", "Installed react-scripts");
      (py_in "EADDRINUSE", "Changed frontend port to ") ]
  else if String.eqb component "dependencies" then
    [ (fun e => py_in "npm" (py_lower e), "Updated npm installation");
      (fun e => py_in "python" (py_lower e) || py_in "pip" (py_lower e),
       "Updated pip installation") ]
  else [].

Fixpoint first_match (table : list ((string -> bool) * string)) (error : string)
    : option string :=
  match table with
  | [] => None
  | (matches, fix_text) :: rest =>
      if matches error then Some fix_text else first_match rest error
  end.

(** The message of a fix whose action raised. *)
Definition fix_failed (component : string) : string :=
  if String.eqb component "backend" then "Backend fix failed: "
  else if String.eqb component "frontend" then "Frontend fix failed: "
  else "Dependency fix failed: ".

(** The exception an external action of a fixer ended with, if any. *)
Definition raised_by (e : event) : option exception :=
  match e with
  | EvRun _ _ (Some x) => Some x
  | EvCreatePackageJson _ (Some x) => Some x
  | _ => None
  end.

(** What a fixer does on [error], given the first matching signature. *)
Definition fixer_spec (component error : string) (s : State)
    (res : outcome (bool * string) * State) : Prop :=
  exists fixed msg evs,
    fst res = Returned (fixed, msg)
    ∧ trace (snd (snd res)) = rev evs ++ trace (snd s)
    ∧ match first_match (signature_table component) error with
      | Some fix_text =>
          (fixed = true ∧ starts_with fix_text msg = true ∧ Forall (fun ev => raised_by ev = None) evs)
          ∨ (fixed = false ∧ exists e, msg = fix_failed component +:+ exc_str e)
      | None =>
          fixed = false ∧ evs = []
          ∧ msg = "Unable to automatically fix this " +:+ component +:+ " error"
      end
    ∧ (forall ev e, ev ∈ evs -> raised_by ev = Some e ->
         fixed = false ∧ msg = fix_failed component +:+ exc_str e).

(** ** What the retry loop prints when it meets an error it has seen *)

Definition seen_before_prints (component : string) (max_attempts : Z)
    (e : string) (a : Z) : list event :=
  [ EvPrint (nl +:+ "Attempt " +:+ py_str a +:+ "/" +:+ py_str max_attempts +:+
             " to fix " +:+ component +:+ " error:");
    EvPrint ("Error: " +:+ e);
    EvPrint "This error was seen before, trying different fix strategy..." ].

(** The same for [n] iterations in a row, the first at attempt [a]. *)
Fixpoint give_up_prints (component : string) (max_attempts : Z)
    (e : string) (a : Z) (n : nat) : list event :=
  match n with
  | O => []
  | S n' => seen_before_prints component max_attempts e a ++
            give_up_prints component max_attempts e (a + 1) n'
  end.

Definition bump (l : locals) : locals :=
  {| attempt := attempt l + 1; last_error := last_error l;
     errors_seen := errors_seen l |}.

(** The message [_install_dependencies] returns in [flaky_npm_env] when
    [npm install] is the [k]-th external call. *)
Definition install_failure (k : nat) : string :=
  "Failed to install dependencies: " +:+ npm_exit_status k.

(** The state after [print(text)]. *)
Definition printed (text : string) (s : State) : State :=
  (fst s, log (EvPrint text) (snd s)).

(** ** Stage failure of a whole run *)

Definition is_cleanup_event (e : event) : bool :=
  match e with
  | EvChildren _ _ | EvPsTerminate _ _ | EvPopenTerminate _ | EvLogError _ => true
  | _ => false
  end.

(** In a run of [demonstrate] from [s], stage 1 succeeds and then stage 2, or
    stage 2 succeeds and then stage 3, ends in failure after its retries, with
    [message], leaving the state [s_fail]. *)
Definition stage_2_or_3_fails (fuel : nat) (s : State) (message : string)
    (s_fail : State) : Prop :=
  exists m1 s1,
    stage fuel "Dependency installation" "dependencies" _install_dependencies
      (printed (nl +:+ "[1/4] Installing dependencies...")
         (printed (nl +:+ "Starting Web Application Demonstration...") s)) =
      Some (Returned (true, m1), s1)
    ∧ (stage fuel "Backend startup" "backend" _start_backend
         (printed (nl +:+ "[2/4] Starting backend server...") s1) =
         Some (Returned (false, message), s_fail)
       ∨ exists m2 s2,
           stage fuel "Backend startup" "backend" _start_backend
             (printed (nl +:+ "[2/4] Starting backend server...") s1) =
             Some (Returned (true, m2), s2)
           ∧ stage fuel "Frontend startup" "frontend" _start_frontend
               (printed (nl +:+ "[3/4] Starting frontend server...") s2) =
               Some (Returned (false, message), s_fail)).

Definition is_write_file (e : event) : bool :=
  match e with EvWriteFile _ _ _ => true | _ => false end.

(** The events of the termination of one process tree when nothing raises. *)
Definition tree_events (pid : Z) (children : list Z) : list event :=
  EvChildren pid (inr children)
  :: map (fun c => EvPsTerminate c None) children ++ [EvPopenTerminate pid].

(** Every request is answered with the same status code. *)
Definition constant_env (code : Z) : Environment :=
  with_post (fun _ _ => Response code)
    (with_get (fun _ _ => Response code) quiet_env).

(** The value a computation returned, if it did not raise. *)
Definition fst_returned {A} (r : outcome A * State) : option A :=
  match fst r with Returned a => Some a | Raised _ => None end.

(** ** Effects of a fix attempt *)

Definition is_fix_event (e : event) : bool :=
  match e with
  | EvRun _ _ _ | EvCreatePackageJson _ _ => true
  | _ => false
  end.

(** The ledger after [self._fix_attempts[component].append(fix_applied)]. *)
Definition append_fix (component fix_applied : string) (fa : FixAttempts) : FixAttempts :=
  if String.eqb component "backend" then
    {| fa_backend := fa_backend fa ++ [fix_applied];
       fa_frontend := fa_frontend fa;
       fa_dependencies := fa_dependencies fa |}
  else if String.eqb component "frontend" then
    {| fa_backend := fa_backend fa;
       fa_frontend := fa_frontend fa ++ [fix_applied];
       fa_dependencies := fa_dependencies fa |}
  else
    {| fa_backend := fa_backend fa;
       fa_frontend := fa_frontend fa;
       fa_dependencies := fa_dependencies fa ++ [fix_applied] |}.

(** Each advertised url is the one built from the port of its server. *)
Definition url_consistent (d : AppDemonstrator) : Prop :=
  backend_url d = "http://localhost:" +:+ py_str (backend_port d)
  ∧ frontend_url d = "http://localhost:" +:+ py_str (frontend_port d).

(** What a fixer of [component] may change of the instance [d] and the
    world [w]. *)
Definition fix_effects (component : string) (d : AppDemonstrator) (w : World)
    (res : outcome (bool * string) * State) : Prop :=
  exists fixed msg evs d' w',
    res = (Returned (fixed, msg), (d', w'))
    ∧ trace w' = rev evs ++ trace w
    ∧ forallb is_fix_event evs = true
    ∧ env w' = env w
    ∧ project_dir d' = project_dir d
    ∧ backend_process d' = backend_process d
    ∧ frontend_process d' = frontend_process d
    ∧ _fix_attempts d' =
        Some (let fa := default empty_fix_attempts (_fix_attempts d) in
              if fixed then append_fix component msg fa else fa)
    ∧ (url_consistent d -> url_consistent d').


Definition known_component (component : string) : bool :=
  String.eqb component "backend" || String.eqb component "frontend"
  || String.eqb component "dependencies".


(** ** The loop body by cases *)

Definition attempt_banner (component : string) (max_attempts : Z) (l : locals) : string :=
  nl +:+ "Attempt " +:+ py_str (attempt l) +:+ "/" +:+ py_str max_attempts +:+
  " to fix " +:+ component +:+ " error:".

(** The locals after an iteration that recorded the current error. *)
Definition remember_error (l : locals) (next_attempt : Z) (next_error : string) : locals :=
  {| attempt := next_attempt; last_error := next_error;
     errors_seen := {[ last_error l ]} ∪ errors_seen l |}.

(** [retry_body] with its binds spelled out as a case analysis on what the
    fixer and the operation returned. *)
Definition retry_body_by_cases (operation component : string) (func : M (bool * string))
    (max_attempts : Z) (l : locals) (s : State) : outcome (locals + bool * string) * State :=
  let s0 := printed ("Error: " +:+ last_error l)
              (printed (attempt_banner component max_attempts l) s) in
  if bool_decide (last_error l ∈ errors_seen l) then
    (Returned (inl (bump l)),
     printed "This error was seen before, trying different fix strategy..." s0)
  else
    match _analyze_and_fix_error (last_error l) component s0 with
    | (Raised e, s1) => (Raised e, s1)
    | (Returned (true, fix_message), s1) =>
        match func (printed ("Fix applied: " +:+ fix_message) s1) with
        | (Raised e, s2) => (Raised e, s2)
        | (Returned (true, message), s2) =>
            (Returned (inr (true, message)),
             printed (nl +:+ operation +:+ " successful after fixes!") s2)
        | (Returned (false, message), s2) =>
            (Returned (inl (remember_error l (attempt l) message)), s2)
        end
    | (Returned (false, fix_message), s1) =>
        (Returned (inl (remember_error l (attempt l + 1) (last_error l))),
         printed ("Unable to fix error: " +:+ fix_message) s1)
    end.


Definition is_print (e : event) : bool :=
  match e with EvPrint _ => true | _ => false end.

(** The instance once [_fix_attempts] exists. *)
Definition with_ledger (d : AppDemonstrator) : AppDemonstrator :=
  match _fix_attempts d with
  | Some _ => d
  | None => set_fix_attempts (Some empty_fix_attempts) d
  end.


(** What a retry session may report, in terms of what the operation [func]
    returned when it was called and of the error the session started from. *)
Definition reports_the_operation (operation component error : string)
    (func : M (bool * string)) (max_attempts : Z)
    (res : outcome (bool * string) * State) : Prop :=
  match res with
  | (Returned (true, message), s') =>
      exists s1 s2,
        func s1 = (Returned (true, message), s2)
        ∧ s' = printed (nl +:+ operation +:+ " successful after fixes!") s2
  | (Returned (false, message), _) =>
      exists e,
        message = failure_message component max_attempts e
        ∧ (e = error ∨ exists s1 s2, func s1 = (Returned (false, e), s2))
  | (Raised e, s') => exists s1, func s1 = (Raised e, s')
  end.


(** ** [_install_dependencies] by cases *)

(** What an exception of an installer run becomes: [CalledProcessError] is
    caught, anything else leaves the method. *)
Definition install_outcome (e : exception) : outcome (bool * string) :=
  if bool_decide (exc_type e = CalledProcessError)
  then Returned (false, "Failed to install dependencies: " +:+ exc_str e)
  else Raised e.

(** [_install_dependencies] spelled out on the replies of the environment:
    each installer runs only if its manifest exists and the one before it
    did not fail. *)
Definition install_by_cases (s : State) : outcome (bool * string) * State :=
  let d := fst s in
  let w := snd s in
  let backend_dir := os_path_join (project_dir d) "backend" in
  let frontend_dir := os_path_join (project_dir d) "frontend" in
  let requirements := os_path_join backend_dir "requirements.txt" in
  let package := os_path_join frontend_dir "package.json" in
  let pip := [sys_executable (env w); "-m"; "pip"; "install"; "-r"; "requirements.txt"] in
  let npm := ["npm"; "install"] in
  let has_requirements := os_path_exists (env w) (trace w) requirements in
  let w1 := log (EvPathExists requirements has_requirements) w in
  let pip_reply :=
    if has_requirements then subprocess_run_reply (env w) (trace w1) pip (Some backend_dir)
    else None in
  let w2 := if has_requirements then log (EvRun pip (Some backend_dir) pip_reply) w1 else w1 in
  match pip_reply with
  | Some e => (install_outcome e, (d, w2))
  | None =>
      let has_package := os_path_exists (env w) (trace w2) package in
      let w3 := log (EvPathExists package has_package) w2 in
      let npm_reply :=
        if has_package then subprocess_run_reply (env w) (trace w3) npm (Some frontend_dir)
        else None in
      let w4 := if has_package then log (EvRun npm (Some frontend_dir) npm_reply) w3 else w3 in
      match npm_reply with
      | Some e => (install_outcome e, (d, w4))
      | None => (Returned (true, "Dependencies installed successfully"), (d, w4))
      end
  end.

(** [c in s] for a single character. *)
Fixpoint has_char (c : ascii) (s : string) : bool :=
  match s with
  | EmptyString => false
  | String a t => Ascii.eqb a c || has_char c t
  end.

(** ** Relations kept by a whole run *)

(** Where a stage that succeeded got its success from: a call of [func] made
    in a state [s1] reached from [s], after which the stage printed at most
    the line announcing the success. *)
Definition succeeded_call (R : State -> State -> Prop) (operation : string)
    (func : M (bool * string)) (s : State)
    (res : outcome (bool * string) * State) : Prop :=
  match res with
  | (Returned (true, message), s') =>
      exists s1 s2,
        R s s1 ∧ func s1 = (Returned (true, message), s2)
        ∧ (s' = s2 ∨ s' = printed (nl +:+ operation +:+ " successful after fixes!") s2)
  | _ => True
  end.

(** How [demonstrate] goes on after a stage: on with [next] when the stage
    succeeded, out with [(False, message, None)] when it failed, out with
    the exception when it raised. *)
Definition after_stage (r : outcome (bool * string) * State)
    (res : outcome report_t * State) (next : State -> Prop) : Prop :=
  match r with
  | (Returned (true, _), s1) => next s1
  | (Returned (false, message), s1) => res = (Returned (false, message, None), s1)
  | (Raised e, s1) => res = (Raised e, s1)
  end.

(** [s'] is [s] after some more events, all of the kind [P]. *)
Definition extends_by (P : event -> bool) (s s' : State) : Prop :=
  exists evs, trace (snd s') = rev evs ++ trace (snd s) ∧ forallb P evs = true.

(** The events of the three start-up stages: printing, looking for a
    manifest, installer runs, the creation of the manifest, spawning a
    server, probing it and sleeping. *)
Definition is_stage_event (e : event) : bool :=
  match e with
  | EvPrint _ | EvPathExists _ _ | EvRun _ _ _ | EvCreatePackageJson _ _
  | EvPopen _ _ _ _ | EvGet _ _ _ | EvSleep _ => true
  | _ => false
  end.

(** The events of [_cleanup] on the instance [d]: the process trees looked up
    and the handles terminated are those of [d]. *)
Definition cleanup_event_of (d : AppDemonstrator) (e : event) : bool :=
  match e with
  | EvChildren pid _ | EvPopenTerminate pid =>
      bool_decide (backend_process d = Some pid ∨ frontend_process d = Some pid)
  | EvPsTerminate _ _ | EvLogError _ => true
  | _ => false
  end.

(** What stage 4 and the end of the [try] block log in the state [(d, w)]
    when the four requests are answered by [replies] and the write by
    [written]. *)
Definition verification_events (d : AppDemonstrator) (replies : list http_reply)
    (content : string) (written : option exception) : list event :=
  EvPrint (nl +:+ "[4/4] Verifying API endpoints...")
  :: zip_with (request_event (backend_url d)) endpoints replies
  ++ EvWriteFile (os_path_join (project_dir d) "demo_report.md") content written
  :: match written with
     | None => [EvBrowser (frontend_url d)]
     | Some _ => []
     end.

(** The spawn of the frontend server. *)
Definition is_npm_start (e : event) : bool :=
  match e with
  | EvPopen cmd _ _ _ => bool_decide (cmd = ["npm"; "start"])
  | _ => false
  end.

(** The events of stages 1 and 2: those of a stage, the spawn of the
    frontend apart. *)
Definition before_frontend (e : event) : bool :=
  is_stage_event e && negb (is_npm_start e).

(** The outcomes of the [try] block that end a run before stage 4. *)
Definition stopped_early (res : outcome report_t) : Prop :=
  (exists message, res = Returned (false, message, None)) ∨ (exists e, res = Raised e).

(** The events of everything a run does before [_cleanup]. *)
Definition is_body_event (e : event) : bool :=
  match e with
  | EvPost _ _ _ | EvWriteFile _ _ _ | EvBrowser _ => true
  | _ => is_stage_event e
  end.

Definition is_browser (e : event) : bool :=
  match e with EvBrowser _ => true | _ => false end.

Definition any_event (e : event) : bool := true.

Definition not_npm_start (e : event) : bool := negb (is_npm_start e).

(** The frontend is told the port it is probed at: the advertised url is the
    one built from [frontend_port], and [PORT], when it is set in
    [os.environ], is that port. *)
Definition frontend_agrees (s : State) : Prop :=
  frontend_url (fst s) = "http://localhost:" +:+ py_str (frontend_port (fst s))
  ∧ forall p, os_environ (snd s) !! "PORT" = Some p -> p = py_str (frontend_port (fst s)).

Definition keeps_frontend (s s' : State) : Prop :=
  (frontend_agrees s -> frontend_agrees s') ∧ extends_by any_event s s'.

(** Every description recorded in the fix ledger. *)
Definition all_fixes (fa : FixAttempts) : list string :=
  fa_backend fa ++ fa_frontend fa ++ fa_dependencies fa.

Definition same_env (s s' : State) : Prop := env (snd s') = env (snd s).

(** ** The wait loop against the environment *)

(** The HealthProber of the specification, run against the environment: the
    answers to a prober that requests [url] until the first answer with
    status 200, [cap] times at most, each probe leaving [probe_events] in the
    trace. This definition follows the words of the specification (the loop
    terminates early on success, or expires after a fixed number of
    iterations); [_start_backend] and [_start_frontend] follow the source. *)
Fixpoint probe_until_ready (cap : nat) (url : string) (w : World) : list http_reply :=
  match cap with
  | O => []
  | S cap' =>
      let r := requests_get_reply (env w) (trace w) url in
      r :: (if is_200 r then []
            else probe_until_ready cap' url (log_all (probe_events url r) w))
  end.

(** What a start method returns and leaves in the world, given the reply
    [spawn] to its [Popen] and the world [w1] right after the spawn: when the
    spawn failed, the failure of the spawn and no probe; otherwise the probes
    of [probe_until_ready], success if one of them was answered with 200 and
    the timeout failure if none was. *)
Definition waits_until_ready (cap : nat) (ok timeout failed url : string)
    (spawn : exception + Z) (w1 : World)
    (res : outcome (bool * string) * State) : Prop :=
  match spawn with
  | inl e =>
      fst res = Returned (false, failed +:+ exc_str e) ∧ snd (snd res) = w1
  | inr _ =>
      let answers := probe_until_ready cap url w1 in
      fst res = Returned (if existsb is_200 answers then (true, ok) else (false, timeout))
      ∧ snd (snd res) = log_all (concat (map (probe_events url) answers)) w1
  end.

(** The answers end with the first 200, fewer than [cap] answers before it,
    or there are [cap] of them and none is a 200. *)
Definition stops_at_first_200_or_cap (cap : nat) (answers : list http_reply) : Prop :=
  (existsb is_200 answers = true
   ∧ exists pre, answers = pre ++ [Response 200]
                 ∧ forallb (fun x => negb (is_200 x)) pre = true
                 ∧ (length pre < cap)%nat)
  ∨ (existsb is_200 answers = false
     ∧ length answers = cap
     ∧ forallb (fun x => negb (is_200 x)) answers = true).

(** ** The classifier and the remediator of the specification *)

(** The definitions of this section follow the words of the specification:
    an ordered table of signatures per component maps an error to a
    category, the first matching signature wins and no match is
    [Unclassified]; each category has one remedy; a remedy that fails is
    caught and reported as not applied. The fixers above follow the source;
    the two are compared in the verification part. *)

Inductive toolchain := Flask | Database.
Inductive package_manager := Npm | Pip.

Inductive ErrorCategory :=
| MissingDependency (name : option string)   (* the first quoted token, if there is one *)
| PortInUse
| MissingToolchain (family : toolchain)
| MissingManifest
| MissingBuildTool
| PackageManagerBroken (manager : package_manager)
| Unclassified.

Definition classifier_table (component error : string)
    : list ((string -> bool) * ErrorCategory) :=
  if String.eqb component "backend" then
    [ (py_in "ModuleNotFoundError", MissingDependency (py_split "'" error !! 1%nat));
      (py_in "Address already in use", PortInUse);
      (py_in "No module named 'flask'", MissingToolchain Flask);
      (py_in "SQLAlchemy", MissingToolchain Database) ]
  else if String.eqb component "frontend" then
    [ (fun e => py_in "ENOENT" e && py_in "package.json" e, MissingManifest);
      (py_in "react-scripts", MissingBuildTool);
      (py_in "EADDRINUSE", PortInUse) ]
  else if String.eqb component "dependencies" then
    [ (fun e => py_in "npm" (py_lower e), PackageManagerBroken Npm);
      (fun e => py_in "python" (py_lower e) || py_in "pip" (py_lower e),
       PackageManagerBroken Pip) ]
  else [].

(** First matching signature wins; no match yields [Unclassified]. *)
Fixpoint first_category (table : list ((string -> bool) * ErrorCategory))
    (error : string) : ErrorCategory :=
  match table with
  | [] => Unclassified
  | (matches, category) :: rest =>
      if matches error then category else first_category rest error
  end.

Definition classify (error component : string) : ErrorCategory :=
  first_category (classifier_table component error) error.

(** The external actions of a remedy. *)
Inductive action :=
| Install (cmd : list string) (cwd : option string)
| CreateManifest (frontend_dir : string).

Definition perform (a : action) : M unit :=
  match a with
  | Install cmd cwd => subprocess_run cmd cwd
  | CreateManifest frontend_dir => _create_basic_package_json frontend_dir
  end.

(** The edits of the runtime state a remedy makes. *)
Inductive port_move := KeepPorts | NextBackendPort | NextFrontendPort.

Definition move_port (p : port_move) : M unit :=
  match p with
  | KeepPorts => ret tt
  | NextBackendPort =>
      update_self (fun d => set_backend_port (backend_port d + 1) d) >>
      update_self (fun d =>
        set_backend_url ("http://localhost:" +:+ py_str (backend_port d)) d)
  | NextFrontendPort =>
      update_self (fun d => set_frontend_port (frontend_port d + 1) d) >>
      (let* d := self in
       update_world (set_environ "PORT" (py_str (frontend_port d)))) >>
      update_self (fun d =>
        set_frontend_url ("http://localhost:" +:+ py_str (frontend_port d)) d)
  end.

(** A remedy: the actions it makes, in order (or the exception that stops it
    before any action), its edit of the ports, and its description. *)
Record Remedy := {
  actions : exception + list action;
  port : port_move;
  description : string
}.

(** The one remedy of each category, for the instance [d] in the world [w];
    [Unclassified] has none. *)
Definition remedy (component : string) (category : ErrorCategory)
    (d : AppDemonstrator) (w : World) : option Remedy :=
  let backend_dir := Some (os_path_join (project_dir d) "backend") in
  let frontend_dir := os_path_join (project_dir d) "frontend" in
  let pip := [sys_executable (env w); "-m"; "pip"; "install"] in
  match category with
  | MissingDependency None =>
      Some {| actions := inl (Exc IndexError "list index out of range");
              port := KeepPorts; description := "" |}
  | MissingDependency (Some name) =>
      Some {| actions := inr [Install (pip ++ [name]) backend_dir];
              port := KeepPorts;
              description := "Installed missing module: " +:+ name |}
  | PortInUse =>
      if String.eqb component "backend" then
        Some {| actions := inr []; port := NextBackendPort;
                description := "Changed backend port to " +:+ py_str (backend_port d + 1) |}
      else
        Some {| actions := inr []; port := NextFrontendPort;
                description := "Changed frontend port to " +:+ py_str (frontend_port d + 1) |}
  | MissingToolchain Flask =>
      Some {| actions := inr [Install (pip ++ ["flask"]) backend_dir];
              port := KeepPorts; description := "Installed Flask" |}
  | MissingToolchain Database =>
      Some {| actions := inr [ Install ["pip"; "install"; "sqlalchemy"] backend_dir;
                               Install ["pip"; "install"; "psycopg2-binary"] backend_dir;
                               Install ["pip"; "install"; "flask-sqlalchemy"] backend_dir ];
              port := KeepPorts; description := "Installed database dependencies" |}
  | MissingManifest =>
      Some {| actions := inr [CreateManifest frontend_dir];
              port := KeepPorts; description := "Created basic package.json" |}
  | MissingBuildTool =>
      Some {| actions := inr [Install ["npm"; "install"; "react-scripts"; "--save-dev"]
                                      (Some frontend_dir)];
              port := KeepPorts; description := "Installed react-scripts" |}
  | PackageManagerBroken Npm =>
      Some {| actions := inr [Install (if String.eqb (sys_platform (env w)) "win32"
                                       then ["npm"; "install"; "-g"; "npm"]
                                       else ["sudo"; "npm"; "install"; "-g"; "npm"]) None];
              port := KeepPorts; description := "Updated npm installation" |}
  | PackageManagerBroken Pip =>
      Some {| actions := inr [Install (pip ++ ["--upgrade"; "pip"]) None];
              port := KeepPorts; description := "Updated pip installation" |}
  | Unclassified => None
  end.

(** Attempting the fix: without a remedy nothing is done and the error is
    reported as not fixable; otherwise the actions run in order, then the
    ports are edited, the description is appended to the ledger of the
    component and the fix is reported as applied; an exception on the way
    stops the remedy and is reported as a failed fix. *)
Definition attempt_fix (component : string) (r : option Remedy) : M (bool * string) :=
  match r with
  | None => ret (false, "Unable to automatically fix this " +:+ component +:+ " error")
  | Some r =>
      try_except any_exception
        ((match actions r with
          | inl e => raise e
          | inr steps => for_each steps perform
          end) >>
         move_port (port r) >>
         record_fix component (description r) >>
         ret (true, description r))
        (fun e => ret (false, fix_failed component +:+ exc_str e))
  end.

(** Classifying and attempting the fix, for one of the three components;
    any other component is refused. *)
Definition classify_and_fix (error component : string) : M (bool * string) :=
  if known_component component then
    ensure_fix_attempts >>
    let* d := self in
    let* w := world in
    attempt_fix component (remedy component (classify error component) d w)
  else ret (false, "Unknown component: " +:+ component).

(** How many times [text] was printed. *)
Definition times_printed (text : string) (evs : list event) : nat :=
  length (List.filter (fun e => match e with
                                | EvPrint t => String.eqb t text
                                | _ => false
                                end) evs).

(** How many times [cmd] was run. *)
Definition times_run (cmd : list string) (evs : list event) : nat :=
  length (List.filter (fun e => match e with
                                | EvRun c _ _ => cmd_eqb c cmd
                                | _ => false
                                end) evs).

(** * Verification *)

(** ** Traces *)

Lemma log_all_cons e evs w : log_all (e :: evs) w = log_all evs (log e w).
Proof. done. Qed.

Lemma trace_log_all evs w : trace (log_all evs w) = rev evs ++ trace w.
Proof.
  revert w. induction evs as [|e evs IH]; intros w; [done|].
  rewrite log_all_cons, IH. cbn. by rewrite <- app_assoc.
Qed.

Lemma env_log_all evs w : env (log_all evs w) = env w.
Proof.
  revert w. induction evs as [|e evs IH]; intros w; [done|].
  by rewrite log_all_cons, IH.
Qed.

Lemma log_all_app evs1 evs2 w : log_all (evs1 ++ evs2) w = log_all evs2 (log_all evs1 w).
Proof. apply foldl_app. Qed.

Lemma added_log_all d d' w evs : added (d, w) (d', log_all evs w) = evs.
Proof.
  unfold added. cbn. rewrite trace_log_all, rev_app_distr, rev_involutive.
  rewrite <- (length_rev (trace w)). by rewrite drop_app_length.
Qed.

Lemma get_replies_app t1 t2 : get_replies (t1 ++ t2) = get_replies t1 ++ get_replies t2.
Proof. apply omap_app. Qed.

Lemma get_replies_probes url replies :
  get_replies (concat (map (probe_events url) replies)) = replies.
Proof.
  induction replies as [|r rs IH]; [done|].
  cbn [map concat]. rewrite get_replies_app, IH. by destruct r.
Qed.

(** ** The wait loops *)

Section ProbeLoop.
Context {A : Type} (body : M (option A)) (hit : A).
Context (url_of : AppDemonstrator -> string).

Hypothesis body_spec : forall s,
  let r := requests_get_reply (env (snd s)) (trace (snd s)) (url_of (fst s)) in
  body s = (Returned (if is_200 r then Some hit else None),
            (fst s, log_all (probe_events (url_of (fst s)) r) (snd s))).

Lemma for_range_probe n (after : M A) d w :
  exists replies,
    let w' := log_all (concat (map (probe_events (url_of d)) replies)) w in
    (for_range n body after (d, w) = (Returned hit, (d, w')) ∧
     exists pre, replies = pre ++ [Response 200] ∧
                 forallb (fun x => negb (is_200 x)) pre = true ∧
                 (length pre < n)%nat)
    ∨ (for_range n body after (d, w) = after (d, w') ∧
       length replies = n ∧
       forallb (fun x => negb (is_200 x)) replies = true).
Proof.
  revert w. induction n as [|n IH]; intros w.
  - exists []. right. done.
  - pose proof (body_spec (d, w)) as Hb. cbn in Hb.
    destruct (is_200 (requests_get_reply (env w) (trace w) (url_of d))) eqn:E200.
    + exists [requests_get_reply (env w) (trace w) (url_of d)]. left. split.
      * cbn. unfold bind. rewrite Hb. cbn. by rewrite app_nil_r.
      * exists []. split; [|split; [done | cbn; lia]].
        destruct (requests_get_reply _ _ _) as [c|]; [|done].
        cbn in E200. apply Z.eqb_eq in E200. by subst.
    + set (r := requests_get_reply (env w) (trace w) (url_of d)) in *.
      assert (Hstep : for_range (S n) body after (d, w) =
                      for_range n body after (d, log_all (probe_events (url_of d) r) w)).
      { cbn [for_range]. unfold bind. by rewrite Hb. }
      destruct (IH (log_all (probe_events (url_of d) r) w)) as [rs Hrs].
      exists (r :: rs). cbn [map concat]. rewrite log_all_app, Hstep.
      destruct Hrs as [[Hrun (pre & -> & Hpre & Hlen)] | [Hrun [Hlen Hall]]].
      * left. split; [exact Hrun|]. exists (r :: pre). split; [done|].
        split; [cbn; by rewrite E200 | cbn; lia].
      * right. split; [exact Hrun|]. split; [cbn; lia | cbn; by rewrite E200].
Qed.
End ProbeLoop.

Lemma backend_probe_spec s :
  let url := backend_url (fst s) +:+ "/health" in
  let r := requests_get_reply (env (snd s)) (trace (snd s)) url in
  backend_probe s = (Returned (if is_200 r then Some (true, "Backend started successfully") else None),
                     (fst s, log_all (probe_events url r) (snd s))).
Proof.
  destruct s as [d w]. cbn. unfold backend_probe, try_except, bind, self, requests_get. cbn.
  destruct (requests_get_reply (env w) (trace w) _) as [c|m]; cbn; [|done].
  by destruct (c =? 200).
Qed.

Lemma frontend_probe_spec s :
  let url := frontend_url (fst s) in
  let r := requests_get_reply (env (snd s)) (trace (snd s)) url in
  frontend_probe s = (Returned (if is_200 r then Some (true, "Frontend started successfully") else None),
                     (fst s, log_all (probe_events url r) (snd s))).
Proof.
  destruct s as [d w]. cbn. unfold frontend_probe, try_except, bind, self, requests_get. cbn.
  destruct (requests_get_reply (env w) (trace w) _) as [c|m]; cbn; [|done].
  by destruct (c =? 200).
Qed.

Lemma start_backend_shape d w :
  exists r d' pe replies,
    _start_backend (d, w) =
      (r, (d', log_all (concat (map (probe_events (backend_url d +:+ "/health")) replies)) (log pe w)))
    ∧ is_popen pe = true
    ∧ start_spec 30 "Backend started successfully"
        "Backend failed to start within timeout" "Failed to start backend: " replies r.
Proof.
  unfold _start_backend.
  remember (for_range 30 backend_probe _) as loop eqn:Hloop.
  unfold try_except, bind, self, world, subprocess_Popen, update_self. cbn.
  match goal with |- context [subprocess_Popen_reply ?e ?t ?c ?cw ?pv] =>
    set (cmd := c); set (cwd := cw); set (penv := pv) end.
  destruct (subprocess_Popen_reply (env w) (trace w) cmd cwd penv) as [e0|pid] eqn:Hp.
  - eexists _, d, (EvPopen cmd cwd penv (inl e0)), []. cbn.
    split; [reflexivity|]. split; [done|]. left. by exists e0.
  - destruct (for_range_probe backend_probe (true, "Backend started successfully")
                (fun d => backend_url d +:+ "/health") backend_probe_spec 30
                (ret (false, "Backend failed to start within timeout"))
                (set_backend_process (Some pid) d)
                (log (EvPopen cmd cwd penv (inr pid)) w)) as [replies Hr].
    cbn zeta in Hr. rewrite <- Hloop in Hr.
    cbn [fst snd]. destruct Hr as [[Hrun Hpre] | [Hrun [Hlen Hall]]]; rewrite Hrun; cbn.
    + eexists _, _, (EvPopen cmd cwd penv (inr pid)), replies.
      split; [reflexivity|]. split; [done|]. right. left. done.
    + eexists _, _, (EvPopen cmd cwd penv (inr pid)), replies.
      split; [reflexivity|]. split; [done|]. right. right. done.
Qed.

Lemma start_frontend_shape d w :
  exists r d' pe replies,
    _start_frontend (d, w) =
      (r, (d', log_all (concat (map (probe_events (frontend_url d)) replies)) (log pe w)))
    ∧ is_popen pe = true
    ∧ start_spec 60 "Frontend started successfully"
        "Frontend failed to start within timeout" "Failed to start frontend: " replies r.
Proof.
  unfold _start_frontend.
  remember (for_range 60 frontend_probe _) as loop eqn:Hloop.
  unfold try_except, bind, self, world, subprocess_Popen, update_self. cbn.
  match goal with |- context [subprocess_Popen_reply ?e ?t ?c ?cw ?pv] =>
    set (cmd := c); set (cwd := cw); set (penv := pv) end.
  destruct (subprocess_Popen_reply (env w) (trace w) cmd cwd penv) as [e0|pid] eqn:Hp.
  - eexists _, d, (EvPopen cmd cwd penv (inl e0)), []. cbn.
    split; [reflexivity|]. split; [done|]. left. by exists e0.
  - destruct (for_range_probe frontend_probe (true, "Frontend started successfully")
                frontend_url frontend_probe_spec 60
                (ret (false, "Frontend failed to start within timeout"))
                (set_frontend_process (Some pid) d)
                (log (EvPopen cmd cwd penv (inr pid)) w)) as [replies Hr].
    cbn zeta in Hr. rewrite <- Hloop in Hr.
    cbn [fst snd]. destruct Hr as [[Hrun Hpre] | [Hrun [Hlen Hall]]]; rewrite Hrun; cbn.
    + eexists _, _, (EvPopen cmd cwd penv (inr pid)), replies.
      split; [reflexivity|]. split; [done|]. right. left. done.
    + eexists _, _, (EvPopen cmd cwd penv (inr pid)), replies.
      split; [reflexivity|]. split; [done|]. right. right. done.
Qed.

Lemma get_replies_popen pe evs :
  is_popen pe = true -> get_replies (pe :: evs) = get_replies evs.
Proof. by destruct pe. Qed.

Lemma probe_until_ready_shape cap url w :
  stops_at_first_200_or_cap cap (probe_until_ready cap url w).
Proof.
  revert w. induction cap as [|cap IH]; intros w.
  - right. done.
  - cbn [probe_until_ready].
    set (r := requests_get_reply (env w) (trace w) url).
    destruct (is_200 r) eqn:E200.
    + left. split; [cbn [existsb]; by rewrite E200|].
      exists []. split; [|split; [done | cbn; lia]].
      destruct r as [c|m]; [|done]. cbn in E200. apply Z.eqb_eq in E200. by subst.
    + destruct (IH (log_all (probe_events url r) w))
        as [(Hex & pre & Hpre & Hall & Hlen) | (Hex & Hlen & Hall)].
      * left. split; [cbn [existsb]; by rewrite E200, Hex|].
        exists (r :: pre). rewrite Hpre. split; [done|].
        split; [cbn [forallb]; by rewrite E200, Hall | cbn [length]; lia].
      * right. split; [cbn [existsb]; by rewrite E200, Hex|].
        split; [cbn [length]; by rewrite Hlen | cbn [forallb]; by rewrite E200, Hall].
Qed.

Section WaitLoop.
Context {A : Type} (body : M (option A)) (hit : A).
Context (url_of : AppDemonstrator -> string).

Hypothesis body_spec : forall s,
  let r := requests_get_reply (env (snd s)) (trace (snd s)) (url_of (fst s)) in
  body s = (Returned (if is_200 r then Some hit else None),
            (fst s, log_all (probe_events (url_of (fst s)) r) (snd s))).

(** The loop makes the probes of [probe_until_ready], returns [hit] when one
    of them was answered with 200 and goes on with [after] otherwise. *)
Lemma for_range_until_ready n (after : M A) d w :
  let answers := probe_until_ready n (url_of d) w in
  let w' := log_all (concat (map (probe_events (url_of d)) answers)) w in
  for_range n body after (d, w) =
    if existsb is_200 answers then (Returned hit, (d, w')) else after (d, w').
Proof.
  revert w. induction n as [|n IH]; intros w; [done|].
  pose proof (body_spec (d, w)) as Hb. cbn [fst snd] in Hb. cbn zeta in Hb.
  cbn [probe_until_ready for_range]. unfold bind at 1. rewrite Hb.
  destruct (is_200 (requests_get_reply (env w) (trace w) (url_of d))) eqn:E200.
  - cbn [existsb map concat]. rewrite E200. cbn [orb]. by rewrite app_nil_r.
  - cbn [existsb map concat]. rewrite E200. cbn [orb].
    rewrite log_all_app. apply IH.
Qed.

End WaitLoop.

Lemma start_backend_waits d w :
  let cmd := [sys_executable (env w); "-m"; "flask"; "run"] in
  let cwd := os_path_join (project_dir d) "backend" in
  let penv := <["FLASK_ENV" := "development"]> (<["FLASK_APP" := "app"]> (os_environ w)) in
  let spawn := subprocess_Popen_reply (env w) (trace w) cmd cwd penv in
  waits_until_ready 30 "Backend started successfully"
    "Backend failed to start within timeout" "Failed to start backend: "
    (backend_url d +:+ "/health") spawn (log (EvPopen cmd cwd penv spawn) w)
    (_start_backend (d, w)).
Proof.
  cbn zeta. unfold _start_backend.
  remember (for_range 30 backend_probe _) as loop eqn:Hloop.
  unfold try_except, bind, self, world, subprocess_Popen, update_self.
  cbn -[os_path_join].
  match goal with |- context [subprocess_Popen_reply ?e ?t ?c ?cw ?pv] =>
    set (cmd := c); set (cwd := cw); set (penv := pv) end.
  destruct (subprocess_Popen_reply (env w) (trace w) cmd cwd penv) as [e0|pid] eqn:Hp.
  - done.
  - pose proof (for_range_until_ready backend_probe (true, "Backend started successfully")
                  (fun d => backend_url d +:+ "/health") backend_probe_spec 30
                  (ret (false, "Backend failed to start within timeout"))
                  (set_backend_process (Some pid) d)
                  (log (EvPopen cmd cwd penv (inr pid)) w)) as Hr.
    cbn zeta in Hr. rewrite <- Hloop in Hr. cbn [fst snd]. rewrite Hr.
    unfold waits_until_ready. cbn zeta. cbn [backend_url set_backend_process].
    by destruct (existsb is_200 _).
Qed.

Lemma start_frontend_waits d w :
  let cmd := ["npm"; "start"] in
  let cwd := os_path_join (project_dir d) "frontend" in
  let penv := os_environ w ∪ {["PORT" := py_str (frontend_port d)]} in
  let spawn := subprocess_Popen_reply (env w) (trace w) cmd cwd penv in
  waits_until_ready 60 "Frontend started successfully"
    "Frontend failed to start within timeout" "Failed to start frontend: "
    (frontend_url d) spawn (log (EvPopen cmd cwd penv spawn) w)
    (_start_frontend (d, w)).
Proof.
  cbn zeta. unfold _start_frontend.
  remember (for_range 60 frontend_probe _) as loop eqn:Hloop.
  unfold try_except, bind, self, world, subprocess_Popen, update_self.
  cbn -[os_path_join].
  match goal with |- context [subprocess_Popen_reply ?e ?t ?c ?cw ?pv] =>
    set (cmd := c); set (cwd := cw); set (penv := pv) end.
  destruct (subprocess_Popen_reply (env w) (trace w) cmd cwd penv) as [e0|pid] eqn:Hp.
  - done.
  - pose proof (for_range_until_ready frontend_probe (true, "Frontend started successfully")
                  frontend_url frontend_probe_spec 60
                  (ret (false, "Frontend failed to start within timeout"))
                  (set_frontend_process (Some pid) d)
                  (log (EvPopen cmd cwd penv (inr pid)) w)) as Hr.
    cbn zeta in Hr. rewrite <- Hloop in Hr. cbn [fst snd]. rewrite Hr.
    unfold waits_until_ready. cbn zeta. cbn [frontend_url set_frontend_process].
    by destruct (existsb is_200 _).
Qed.

Lemma start_methods_end_as_start_spec s :
  start_spec 30 "Backend started successfully"
    "Backend failed to start within timeout" "Failed to start backend: "
    (get_replies (added s (snd (_start_backend s)))) (fst (_start_backend s))
  ∧ start_spec 60 "Frontend started successfully"
    "Frontend failed to start within timeout" "Failed to start frontend: "
    (get_replies (added s (snd (_start_frontend s)))) (fst (_start_frontend s)).
Proof.
  destruct s as [d w]. split.
  - destruct (start_backend_shape d w) as (r & d' & pe & replies & -> & Hpe & Hspec).
    cbn [fst snd]. rewrite <- log_all_cons, added_log_all.
    by rewrite get_replies_popen, get_replies_probes.
  - destruct (start_frontend_shape d w) as (r & d' & pe & replies & -> & Hpe & Hspec).
    cbn [fst snd]. rewrite <- log_all_cons, added_log_all.
    by rewrite get_replies_popen, get_replies_probes.
Qed.

(** C6. A start method spawns its server and, when the spawn succeeded,
    makes the probes of the specified prober against the environment: it
    requests the health url until the first answer with status 200 and
    returns success right then, without a further probe, and it returns the
    timeout failure exactly when the full number of probes (30 for the
    backend, 60 for the frontend) went by without a 200. When the spawn
    failed it makes no probe and returns the failure of the spawn. *)
Theorem probe_loop_stops_at_first_200_or_cap (d : AppDemonstrator) (w : World) :
  let flask := [sys_executable (env w); "-m"; "flask"; "run"] in
  let backend_dir := os_path_join (project_dir d) "backend" in
  let flask_env :=
    <["FLASK_ENV" := "development"]> (<["FLASK_APP" := "app"]> (os_environ w)) in
  let flask_spawn := subprocess_Popen_reply (env w) (trace w) flask backend_dir flask_env in
  let npm := ["npm"; "start"] in
  let frontend_dir := os_path_join (project_dir d) "frontend" in
  let npm_env := os_environ w ∪ {["PORT" := py_str (frontend_port d)]} in
  let npm_spawn := subprocess_Popen_reply (env w) (trace w) npm frontend_dir npm_env in
  waits_until_ready 30 "Backend started successfully"
    "Backend failed to start within timeout" "Failed to start backend: "
    (backend_url d +:+ "/health") flask_spawn
    (log (EvPopen flask backend_dir flask_env flask_spawn) w) (_start_backend (d, w))
  ∧ waits_until_ready 60 "Frontend started successfully"
      "Frontend failed to start within timeout" "Failed to start frontend: "
      (frontend_url d) npm_spawn
      (log (EvPopen npm frontend_dir npm_env npm_spawn) w) (_start_frontend (d, w))
  ∧ (forall cap url w1, stops_at_first_200_or_cap cap (probe_until_ready cap url w1))
  ∧ start_spec 30 "Backend started successfully"
      "Backend failed to start within timeout" "Failed to start backend: "
      (get_replies (added (d, w) (snd (_start_backend (d, w)))))
      (fst (_start_backend (d, w)))
  ∧ start_spec 60 "Frontend started successfully"
      "Frontend failed to start within timeout" "Failed to start frontend: "
      (get_replies (added (d, w) (snd (_start_frontend (d, w)))))
      (fst (_start_frontend (d, w))).
Proof.
  cbn zeta. split; [apply start_backend_waits|].
  split; [apply start_frontend_waits|].
  split; [apply probe_until_ready_shape|].
  apply start_methods_end_as_start_spec.
Qed.

(** ** Pacing of the probes *)

Lemma probes_sleep_after_refused url replies :
  sleeps_after_refused_gets (concat (map (probe_events url) replies)).
Proof.
  induction replies as [|r rs IH]; intros i u to msg Hi; [done|].
  cbn [map concat] in *. destruct r as [c|m]; cbn [probe_events app] in *.
  - destruct i as [|i]; [done|]. exact (IH i u to msg Hi).
  - destruct i as [|[|i]]; [done|done|]. exact (IH i u to msg Hi).
Qed.

Lemma probes_without_timeout url replies :
  gets_without_timeout (concat (map (probe_events url) replies)).
Proof.
  induction replies as [|r rs IH]; intros u to r' Hin; [by apply elem_of_nil in Hin|].
  cbn [map concat] in Hin. apply elem_of_app in Hin as [Hin|Hin]; [|by eapply IH].
  destruct r; cbn [probe_events] in Hin;
    repeat (apply elem_of_cons in Hin as [Hin|Hin]; [by simplify_eq|]);
    by apply elem_of_nil in Hin.
Qed.

Lemma popen_then_probes_paced pe url replies :
  is_popen pe = true ->
  let evs := pe :: concat (map (probe_events url) replies) in
  sleeps_after_refused_gets evs ∧ gets_without_timeout evs.
Proof.
  intros Hpe evs. split.
  - intros [|i] u to msg Hi; [destruct pe; cbn in Hi; by simplify_eq|].
    exact (probes_sleep_after_refused url replies i u to msg Hi).
  - intros u to r Hin. apply elem_of_cons in Hin as [Heq|Hin]; [by subst pe|].
    by eapply probes_without_timeout.
Qed.

(** C7, as amended. In the wait loop of either start method a sleep of one
    second follows every GET that failed with a network error, and every GET
    is issued without a timeout of its own. *)
Theorem probes_sleep_after_network_error_and_have_no_timeout (s : State) :
  (sleeps_after_refused_gets (added s (snd (_start_backend s)))
   ∧ gets_without_timeout (added s (snd (_start_backend s))))
  ∧ (sleeps_after_refused_gets (added s (snd (_start_frontend s)))
     ∧ gets_without_timeout (added s (snd (_start_frontend s)))).
Proof.
  destruct s as [d w]. split.
  - destruct (start_backend_shape d w) as (r & d' & pe & replies & -> & Hpe & _).
    cbn [fst snd]. rewrite <- log_all_cons, added_log_all.
    by apply popen_then_probes_paced.
  - destruct (start_frontend_shape d w) as (r & d' & pe & replies & -> & Hpe & _).
    cbn [fst snd]. rewrite <- log_all_cons, added_log_all.
    by apply popen_then_probes_paced.
Qed.

(** C7 as stated fails when the server answers 503: the 30 probes of the
    backend follow one another without any sleep, and none has a timeout. *)
Lemma probes_not_paced_on_503 :
  let evs := added (fresh unavailable_env) (snd (_start_backend (fresh unavailable_env))) in
  ~ sleeps_between_gets evs ∧ ~ gets_have_timeouts evs.
Proof.
  cbn zeta.
  assert (Hev : exists p rest,
    added (fresh unavailable_env) (snd (_start_backend (fresh unavailable_env))) =
    p :: EvGet "http://localhost:5000/health" None (Response 503)
      :: EvGet "http://localhost:5000/health" None (Response 503) :: rest).
  { eexists _, _. vm_compute. reflexivity. }
  destruct Hev as (p & rest & ->). split.
  - intros H.
    destruct (H 1%nat 2%nat _ _ _ _ _ _ ltac:(lia) eq_refl eq_refl) as (k & Hk & _). lia.
  - intros H.
    destruct (H "http://localhost:5000/health" None (Response 503)) as [t Ht]; [|done].
    apply elem_of_cons. right. apply elem_of_cons. by left.
Qed.

(** ** The smoke test *)

Lemma verify_endpoint_spec ep d w :
  exists x reply,
    verify_endpoint ep (d, w) =
      (Returned x, (d, log (request_event (backend_url d) ep reply) w))
    ∧ records x ep reply.
Proof.
  unfold verify_endpoint, try_except, bind, self, request_event.
  destruct ep as [path meth]. cbn [fst snd].
  destruct (String.eqb meth "GET").
  - unfold requests_get. cbn [fst snd].
    destruct (requests_get_reply (env w) (trace w) (backend_url d +:+ path)) as [c|m] eqn:E.
    + eexists _, (Response c). split; [reflexivity|].
      repeat split; cbn; try done.
      * destruct (c <? 500) eqn:Hc; [|done]. intros _. exists c. split; [done|lia].
      * intros (c' & [= <-] & Hlt). apply Z.ltb_lt in Hlt. by rewrite Hlt.
      * destruct (c <? 500) eqn:Hc; [done|]. intros _. left. exists c. split; [done|lia].
      * intros [(c' & [= <-] & Hge) | (m & [=])].
        assert ((c <? 500) = false) as -> by lia. done.
      * by intros c' [= <-].
    + eexists _, (RequestFailed m). split; [reflexivity|].
      repeat split; cbn; try done.
      * by intros (c' & [=] & _).
      * intros _. right. by exists m.
  - unfold requests_post. cbn [fst snd].
    destruct (requests_post_reply (env w) (trace w) (backend_url d +:+ path)) as [c|m] eqn:E.
    + eexists _, (Response c). split; [reflexivity|].
      repeat split; cbn; try done.
      * destruct (c <? 500) eqn:Hc; [|done]. intros _. exists c. split; [done|lia].
      * intros (c' & [= <-] & Hlt). apply Z.ltb_lt in Hlt. by rewrite Hlt.
      * destruct (c <? 500) eqn:Hc; [done|]. intros _. left. exists c. split; [done|lia].
      * intros [(c' & [= <-] & Hge) | (m & [=])].
        assert ((c <? 500) = false) as -> by lia. done.
      * by intros c' [= <-].
    + eexists _, (RequestFailed m). split; [reflexivity|].
      repeat split; cbn; try done.
      * by intros (c' & [=] & _).
      * intros _. right. by exists m.
Qed.

Lemma verify_loop_spec eps acc d w :
  exists xs replies,
    verify_loop eps acc (d, w) =
      (Returned (acc ++ xs),
       (d, log_all (zip_with (request_event (backend_url d)) eps replies) w))
    ∧ length replies = length eps
    ∧ Forall2 (fun x p => records x (fst p) (snd p)) xs (zip eps replies).
Proof.
  revert acc w. induction eps as [|ep eps IH]; intros acc w.
  - exists [], []. cbn. by rewrite app_nil_r.
  - destruct (verify_endpoint_spec ep d w) as (x & reply & Hx & Hrec).
    destruct (IH (acc ++ [x]) (log (request_event (backend_url d) ep reply) w))
      as (xs & replies & Hrun & Hlen & Hall).
    exists (x :: xs), (reply :: replies).
    cbn [verify_loop]. unfold bind at 1. rewrite Hx, Hrun.
    rewrite <- app_assoc. cbn [zip_with length]. rewrite log_all_cons.
    split; [done|]. split; [by rewrite Hlen|]. by constructor.
Qed.


(** ** The fixers *)

Section Fixers.

#[local] Arguments starts_with : simpl never.

Ltac run_reply :=
  match goal with
  | |- context [subprocess_run_reply ?e ?t ?c ?cw] =>
      destruct (subprocess_run_reply e t c cw) as [?ex|] eqn:?
  | |- context [create_package_json_reply ?e ?t ?c] =>
      destruct (create_package_json_reply e t c) as [?ex|] eqn:?
  end.

(** The events consed on top of [base] in the trace [t], oldest first. *)
Ltac events_above t base acc :=
  lazymatch t with
  | base => acc
  | ?e :: ?t' => events_above t' base (e :: acc)
  end.

Ltac member_cases Hin Hr :=
  repeat (apply elem_of_cons in Hin as [->|Hin];
          [cbn in Hr; simplify_eq; done|]);
  by apply elem_of_nil in Hin.

Ltac fixer_leaf w :=
  lazymatch goal with
  | |- exists fixed msg evs, _ ∧ ?t = _ ∧ _ =>
      let evs := events_above t (trace w) (@nil event) in
      eexists _, _, evs;
      split; [reflexivity|];
      split; [reflexivity|];
      split;
      [ first [ left; split; [reflexivity|]; split; [reflexivity | by repeat constructor]
              | right; split; [reflexivity|];
                first [ by eexists | by exists (Exc IndexError "list index out of range") ]
              | by repeat split ]
      | let ev := fresh "ev" in let e := fresh "e" in
        let Hin := fresh "Hin" in let Hr := fresh "Hr" in
        intros ev e Hin Hr; member_cases Hin Hr ]
  end.

Lemma fix_backend_spec error d w :
  fixer_spec "backend" error (d, w) (_fix_backend_error error (d, w)).
Proof.
  unfold fixer_spec, _fix_backend_error, ensure_fix_attempts, conclude_fix, record_fix,
    try_except, bind, self, world, update_self, subprocess_run, list_index, ret, raise.
  cbn.
  destruct (py_in "ModuleNotFoundError" error) eqn:E1.
  { destruct (py_split "'" error !! 1%nat) as [m|] eqn:Em; cbn.
    - run_reply; cbn; fixer_leaf w.
    - fixer_leaf w. }
  destruct (py_in "Address already in use" error) eqn:E2; [cbn; fixer_leaf w|].
  destruct (py_in "No module named 'flask'" error) eqn:E3.
  { run_reply; cbn; fixer_leaf w. }
  destruct (py_in "SQLAlchemy" error) eqn:E4; [|cbn; fixer_leaf w].
  cbn. unfold bind, subprocess_run, ret. cbn.
  run_reply; cbn; [fixer_leaf w|].
  run_reply; cbn; [fixer_leaf w|].
  run_reply; cbn; fixer_leaf w.
Qed.

Lemma fix_frontend_spec error d w :
  fixer_spec "frontend" error (d, w) (_fix_frontend_error error (d, w)).
Proof.
  unfold fixer_spec, _fix_frontend_error, ensure_fix_attempts, conclude_fix, record_fix,
    _create_basic_package_json, try_except, bind, self, world, update_self, update_world,
    subprocess_run, ret, raise.
  cbn.
  destruct (py_in "ENOENT" error && py_in "package.json" error) eqn:E1.
  { run_reply; cbn; fixer_leaf w. }
  destruct (py_in "react-scripts" error) eqn:E2.
  { run_reply; cbn; fixer_leaf w. }
  destruct (py_in "EADDRINUSE" error) eqn:E3; cbn; fixer_leaf w.
Qed.

Lemma fix_dependency_spec error d w :
  fixer_spec "dependencies" error (d, w) (_fix_dependency_error error (d, w)).
Proof.
  unfold fixer_spec, _fix_dependency_error, ensure_fix_attempts, conclude_fix, record_fix,
    try_except, bind, self, world, update_self, subprocess_run, ret, raise.
  cbn.
  destruct (py_in "npm" (py_lower error)) eqn:E1.
  { destruct (String.eqb (sys_platform (env w)) "win32"); run_reply; cbn; fixer_leaf w. }
  destruct (py_in "python" (py_lower error) || py_in "pip" (py_lower error)) eqn:E2.
  { run_reply; cbn; fixer_leaf w. }
  cbn; fixer_leaf w.
Qed.

End Fixers.

Lemma added_of_trace d w d' w' evs :
  trace w' = rev evs ++ trace w -> added (d, w) (d', w') = evs.
Proof.
  intros H. unfold added. cbn [snd]. rewrite H, rev_app_distr, rev_involutive.
  rewrite <- (length_rev (trace w)). by rewrite drop_app_length.
Qed.

Lemma try_except_returned {A} handles (body : M A) handler s a :
  fst (body s) = Returned a -> try_except handles body handler s = body s.
Proof. unfold try_except. destruct (body s) as [[x|e] s']; cbn; [done|discriminate]. Qed.

(** [_analyze_and_fix_error] on one of the three components is the fixer of
    that component; on anything else it changes nothing. *)
Lemma analyze_dispatch error component s :
  fixer_spec component error s (_analyze_and_fix_error error component s)
  ∨ (signature_table component = []
     ∧ _analyze_and_fix_error error component s =
         (Returned (false, "Unknown component: " +:+ component), s)).
Proof.
  destruct s as [d w]. unfold _analyze_and_fix_error, signature_table.
  destruct (String.eqb component "backend") eqn:Eb.
  { apply String.eqb_eq in Eb as ->. left.
    pose proof (fix_backend_spec error d w) as H.
    destruct H as (f & m & evs & Hres & Hrest).
    rewrite (try_except_returned _ _ _ _ _ Hres). by exists f, m, evs. }
  destruct (String.eqb component "frontend") eqn:Ef.
  { apply String.eqb_eq in Ef as ->. left.
    pose proof (fix_frontend_spec error d w) as H.
    destruct H as (f & m & evs & Hres & Hrest).
    rewrite (try_except_returned _ _ _ _ _ Hres). by exists f, m, evs. }
  destruct (String.eqb component "dependencies") eqn:Ed.
  { apply String.eqb_eq in Ed as ->. left.
    pose proof (fix_dependency_spec error d w) as H.
    destruct H as (f & m & evs & Hres & Hrest).
    rewrite (try_except_returned _ _ _ _ _ Hres). by exists f, m, evs. }
  right. done.
Qed.

(** *** The fixers against the classifier and remediator of the specification *)

Ltac unfold_fixing :=
  unfold classify_and_fix, attempt_fix, classify, classifier_table, remedy, move_port,
    perform, ensure_fix_attempts, conclude_fix, record_fix, _create_basic_package_json,
    try_except, bind, self, world, update_self, update_world, subprocess_run,
    list_index, ret, raise, known_component.

(** Both sides by cases on the signatures that match and on the replies of
    the environment. *)
Ltac fixing_cases :=
  cbn -[os_path_join];
  repeat (first
    [ reflexivity
    | match goal with
      | |- context [py_split ?sep ?e !! ?i] => destruct (py_split sep e !! i) eqn:?
      | |- context [if ?b then _ else _] => destruct b eqn:?
      | |- context [subprocess_run_reply ?e ?t ?c ?cw] =>
          destruct (subprocess_run_reply e t c cw) eqn:?
      | |- context [create_package_json_reply ?e ?t ?c] =>
          destruct (create_package_json_reply e t c) eqn:?
      end;
      cbn -[os_path_join];
      unfold bind, subprocess_run, _create_basic_package_json, ret;
      cbn -[os_path_join] ]).

Lemma fix_backend_as_specified error s :
  _fix_backend_error error s = classify_and_fix error "backend" s.
Proof.
  destruct s as [d w]. destruct d as [pd bp fp bport fport burl furl [fa|]];
    unfold _fix_backend_error; unfold_fixing; fixing_cases.
Qed.

Lemma fix_frontend_as_specified error s :
  _fix_frontend_error error s = classify_and_fix error "frontend" s.
Proof.
  destruct s as [d w]. destruct d as [pd bp fp bport fport burl furl [fa|]];
    unfold _fix_frontend_error; unfold_fixing; fixing_cases.
Qed.

Lemma fix_dependency_as_specified error s :
  _fix_dependency_error error s = classify_and_fix error "dependencies" s.
Proof.
  destruct s as [d w]. destruct d as [pd bp fp bport fport burl furl [fa|]];
    unfold _fix_dependency_error; unfold_fixing; fixing_cases.
Qed.

Lemma analyze_as_specified error component s :
  _analyze_and_fix_error error component s = classify_and_fix error component s.
Proof.
  destruct s as [d w]. unfold _analyze_and_fix_error.
  destruct (String.eqb component "backend") eqn:Eb.
  { apply String.eqb_eq in Eb as ->.
    destruct (fix_backend_spec error d w) as (f & m & ev & Hf & _).
    rewrite (try_except_returned _ _ _ _ _ Hf). apply fix_backend_as_specified. }
  destruct (String.eqb component "frontend") eqn:Ef.
  { apply String.eqb_eq in Ef as ->.
    destruct (fix_frontend_spec error d w) as (f & m & ev & Hf & _).
    rewrite (try_except_returned _ _ _ _ _ Hf). apply fix_frontend_as_specified. }
  destruct (String.eqb component "dependencies") eqn:Ed.
  { apply String.eqb_eq in Ed as ->.
    destruct (fix_dependency_spec error d w) as (f & m & ev & Hf & _).
    rewrite (try_except_returned _ _ _ _ _ Hf). apply fix_dependency_as_specified. }
  unfold classify_and_fix, known_component. by rewrite Eb, Ef, Ed.
Qed.

(** The categories of the specification and the signature table select alike:
    an error is [Unclassified] exactly when no signature matches it. *)
Lemma unclassified_iff_no_signature error component :
  classify error component = Unclassified <->
  first_match (signature_table component) error = None.
Proof.
  unfold classify, classifier_table, signature_table.
  destruct (String.eqb component "backend").
  { cbn. repeat match goal with |- context [if ?b then _ else _] => destruct b end;
      split; congruence. }
  destruct (String.eqb component "frontend").
  { cbn. repeat match goal with |- context [if ?b then _ else _] => destruct b end;
      split; congruence. }
  destruct (String.eqb component "dependencies").
  { cbn. repeat match goal with |- context [if ?b then _ else _] => destruct b end;
      split; congruence. }
  done.
Qed.

Lemma analyze_returns_first_match (error component : string) (s : State) :
  exists fixed msg s',
    _analyze_and_fix_error error component s = (Returned (fixed, msg), s')
    ∧ match first_match (signature_table component) error with
      | Some fix_text =>
          (fixed = true ∧ starts_with fix_text msg = true)
          ∨ (fixed = false ∧ exists e, msg = fix_failed component +:+ exc_str e)
      | None =>
          fixed = false ∧ trace (snd s') = trace (snd s)
          ∧ (msg = "Unable to automatically fix this " +:+ component +:+ " error"
             ∨ msg = "Unknown component: " +:+ component)
      end.
Proof.
  destruct (analyze_dispatch error component s) as [H | [Htab Hrun]].
  - destruct H as (fixed & msg & evs & Hres & Htr & Hmatch & _).
    destruct (_analyze_and_fix_error error component s) as [r s'] eqn:E.
    cbn [fst snd] in *. subst r. exists fixed, msg, s'. split; [done|].
    destruct (first_match (signature_table component) error) as [fix_text|].
    + destruct Hmatch as [(-> & Hst & _) | Hfail]; [by left | by right].
    + destruct Hmatch as (-> & -> & ->). rewrite Htr. split; [done|]. split; [done|by left].
  - rewrite Hrun, Htab. exists false, ("Unknown component: " +:+ component), s. cbn. split; [done|]. split; [done|]. split; [done|by right].
Qed.

(** C8. For every error string, component and state, the attempt to fix is
    the classifier and remediator of the specification: for one of the three
    components the error is classified by the first signature of the
    component's ordered table that matches it, the one remedy of that
    category is attempted (its actions in order, its edit of the ports, its
    entry in the ledger), an exception of the remedy is caught and reported
    as a failed fix, and an error that matches no signature is
    [Unclassified]: nothing is done and the answer is that no automatic fix
    exists; for any other component the answer is that the component is
    unknown. The call therefore always returns a pair and never raises, and
    being a function of its arguments, its result is the same whenever they
    are. *)
Theorem analyze_and_fix_is_total_and_first_match (error component : string) (s : State) :
  _analyze_and_fix_error error component s = classify_and_fix error component s
  ∧ (classify error component = Unclassified <->
     first_match (signature_table component) error = None)
  ∧ (classify error component = Unclassified ->
     _analyze_and_fix_error error component s =
       if known_component component
       then (Returned (false, "Unable to automatically fix this " +:+ component +:+ " error"),
             (with_ledger (fst s), snd s))
       else (Returned (false, "Unknown component: " +:+ component), s))
  ∧ exists fixed msg s',
      _analyze_and_fix_error error component s = (Returned (fixed, msg), s')
      ∧ match first_match (signature_table component) error with
        | Some fix_text =>
            (fixed = true ∧ starts_with fix_text msg = true)
            ∨ (fixed = false ∧ exists e, msg = fix_failed component +:+ exc_str e)
        | None =>
            fixed = false ∧ trace (snd s') = trace (snd s)
            ∧ (msg = "Unable to automatically fix this " +:+ component +:+ " error"
               ∨ msg = "Unknown component: " +:+ component)
        end.
Proof.
  split; [apply analyze_as_specified|].
  split; [apply unclassified_iff_no_signature|].
  split; [|apply analyze_returns_first_match].
  intros Hu. rewrite analyze_as_specified. unfold classify_and_fix. rewrite Hu.
  destruct (known_component component); [|done].
  destruct s as [d w]. unfold ensure_fix_attempts, bind, update_self, self, world.
  cbn [fst snd remedy attempt_fix]. unfold ret, with_ledger. done.
Qed.

(** C9. An exception raised by a remediation action (an installer run or the
    creation of the manifest) does not leave the fix attempt: the attempt
    returns normally, with [False] and a message that carries the text
    of the exception. *)
Theorem failing_fix_action_is_reported_as_unfixed (error component : string) (s : State) :
  exists r s',
    _analyze_and_fix_error error component s = (Returned r, s')
    ∧ forall ev e, ev ∈ added s s' -> raised_by ev = Some e ->
        r = (false, fix_failed component +:+ exc_str e).
Proof.
  destruct (analyze_dispatch error component s) as [H | [Htab Hrun]].
  - destruct H as (fixed & msg & evs & Hres & Htr & _ & Hraised).
    destruct (_analyze_and_fix_error error component s) as [r s'] eqn:E.
    cbn [fst snd] in *. subst r. exists (fixed, msg), s'. split; [done|].
    destruct s as [d w], s' as [d' w']. cbn [snd] in Htr.
    rewrite (added_of_trace _ _ _ _ _ Htr). intros ev e Hin Hr.
    by destruct (Hraised ev e Hin Hr) as [-> ->].
  - rewrite Hrun. exists (false, "Unknown component: " +:+ component), s. split; [done|].
    destruct s as [d w]. rewrite (added_of_trace d w d w []); [|done].
    intros ev e Hin. by apply elem_of_nil in Hin.
Qed.

(** ** The retry loop *)

Lemma retry_body_seen_before operation component func max_attempts l s :
  last_error l ∈ errors_seen l ->
  retry_body operation component func max_attempts l s =
    (Returned (inl (bump l)),
     (fst s, log_all (seen_before_prints component max_attempts (last_error l) (attempt l))
                     (snd s))).
Proof.
  intros Hin. unfold retry_body. rewrite bool_decide_eq_true_2 by done.
  by destruct s.
Qed.

(** From a test of the loop condition where the current error is already in
    [errors_seen], every iteration only prints its three lines and increments
    [attempt]: neither the fixer nor the wrapped operation is called again,
    and the loop ends with the failure result carrying that error. *)
Lemma seen_error_is_never_fixed_again
    (operation component : string) (func : M (bool * string))
    (max_attempts : Z) (l : locals) (s : State) (fuel : nat) :
  last_error l ∈ errors_seen l ->
  attempt l <= max_attempts ->
  (Z.to_nat (max_attempts - attempt l + 1) < fuel)%nat ->
  retry_body operation component func max_attempts l s =
    (Returned (inl (bump l)),
     (fst s, log_all (seen_before_prints component max_attempts (last_error l) (attempt l))
                     (snd s)))
  ∧ retry_loop fuel operation component func max_attempts l s =
      Some (Returned (false, failure_message component max_attempts (last_error l)),
            (fst s,
             log_all (give_up_prints component max_attempts (last_error l) (attempt l)
                        (Z.to_nat (max_attempts - attempt l + 1)))
                     (snd s))).
Proof.
  intros Hin Hle Hfuel. split; [by apply retry_body_seen_before|].
  remember (Z.to_nat (max_attempts - attempt l + 1)) as n eqn:Hn.
  revert l s fuel Hin Hle Hfuel Hn.
  induction n as [|n IH]; intros l s fuel Hin Hle Hfuel Hn; [lia|].
  destruct fuel as [|fuel]; [lia|]. cbn [retry_loop].
  assert ((attempt l <=? max_attempts) = true) as -> by lia.
  rewrite retry_body_seen_before by done.
  cbn [give_up_prints]. rewrite log_all_app.
  destruct (decide (attempt l = max_attempts)) as [Heq|Hne].
  - assert (n = 0%nat) as -> by lia. cbn [give_up_prints].
    destruct fuel as [|fuel]; [lia|]. cbn [retry_loop bump attempt last_error].
    assert ((attempt l + 1 <=? max_attempts) = false) as -> by lia. done.
  - specialize (IH (bump l) (fst s, log_all (seen_before_prints component max_attempts (last_error l) (attempt l)) (snd s)) fuel).
    cbn [bump attempt last_error errors_seen fst snd] in IH.
    apply IH; [done | lia | lia | lia].
Qed.

(** C2, as amended. In an iteration that handles an error not seen before,
    the error is recorded in [errors_seen]; when the fix was applied and the
    retried operation fails with a string that is then in [errors_seen]
    (the same error again, or an earlier one), the session calls neither the
    fixer nor the operation any more: from the state [s2] the failed call
    left, each remaining iteration only prints its three lines and increments
    [attempt], and the session ends with the ordinary failure result
    carrying that string. *)
Theorem repeated_error_gives_up_without_fixing
    (operation component : string) (func : M (bool * string))
    (max_attempts : Z) (l : locals) (s : State) (fuel : nat)
    (fix_message again : string) (s1 s2 : State) :
  last_error l ∉ errors_seen l ->
  attempt l <= max_attempts ->
  _analyze_and_fix_error (last_error l) component
    (printed ("Error: " +:+ last_error l)
       (printed (nl +:+ "Attempt " +:+ py_str (attempt l) +:+ "/" +:+ py_str max_attempts +:+
                 " to fix " +:+ component +:+ " error:") s)) =
    (Returned (true, fix_message), s1) ->
  func (printed ("Fix applied: " +:+ fix_message) s1) = (Returned (false, again), s2) ->
  again ∈ {[ last_error l ]} ∪ errors_seen l ->
  (Z.to_nat (max_attempts - attempt l + 1) + 1 < fuel)%nat ->
  retry_body operation component func max_attempts l s =
    (Returned (inl {| attempt := attempt l; last_error := again;
                      errors_seen := {[ last_error l ]} ∪ errors_seen l |}), s2)
  ∧ retry_loop fuel operation component func max_attempts l s =
      Some (Returned (false, failure_message component max_attempts again),
            (fst s2,
             log_all (give_up_prints component max_attempts again (attempt l)
                        (Z.to_nat (max_attempts - attempt l + 1)))
                     (snd s2))).
Proof.
  intros Hnew Hle Hfix Hfunc Hagain Hfuel.
  assert (Hbody :
    retry_body operation component func max_attempts l s =
      (Returned (inl {| attempt := attempt l; last_error := again;
                        errors_seen := {[ last_error l ]} ∪ errors_seen l |}), s2)).
  { unfold retry_body. rewrite bool_decide_eq_false_2 by done.
    unfold bind at 1 2 3. unfold print at 1 2. unfold update_world. cbn [fst snd].
    unfold printed in Hfix. cbn [fst snd] in Hfix. rewrite Hfix. cbn [fst snd].
    unfold bind at 1. unfold print at 1. unfold update_world. cbn [fst snd].
    unfold bind at 1. unfold printed in Hfunc. rewrite Hfunc. done. }
  split; [exact Hbody|].
  destruct fuel as [|fuel]; [lia|]. cbn [retry_loop].
  assert ((attempt l <=? max_attempts) = true) as -> by lia.
  rewrite Hbody.
  apply (seen_error_is_never_fixed_again operation component func max_attempts
           {| attempt := attempt l; last_error := again;
              errors_seen := {[ last_error l ]} ∪ errors_seen l |} s2 fuel);
    cbn [attempt last_error errors_seen]; [done | done | lia].
Qed.

Lemma repeated_error_gives_up_witness :
  let l := {| attempt := 1; last_error := install_failure 1; errors_seen := ∅ |} in
  exists s2,
    retry_loop 7 "Dependency installation" "dependencies" _install_dependencies 5 l
      (fresh broken_npm_env) =
      Some (Returned (false, failure_message "dependencies" 5 (install_failure 1)),
            (fst s2,
             log_all (give_up_prints "dependencies" 5 (install_failure 1) 1 5) (snd s2))).
Proof.
  cbn zeta.
  set (l := {| attempt := 1; last_error := install_failure 1; errors_seen := ∅ |}).
  set (s0 := printed ("Error: " +:+ last_error l)
               (printed (nl +:+ "Attempt " +:+ py_str (attempt l) +:+ "/" +:+ py_str 5 +:+
                         " to fix " +:+ "dependencies" +:+ " error:")
                  (fresh broken_npm_env))).
  set (s1 := snd (_analyze_and_fix_error (last_error l) "dependencies" s0)).
  set (s2 := snd (_install_dependencies
                    (printed ("Fix applied: " +:+ "Updated npm installation") s1))).
  assert (H1 : last_error l ∉ errors_seen l) by apply not_elem_of_empty.
  assert (H2 : attempt l <= 5) by (cbn; lia).
  assert (H3 : _analyze_and_fix_error (last_error l) "dependencies" s0 =
               (Returned (true, "Updated npm installation"), s1)).
  { vm_compute. reflexivity. }
  assert (H4 : _install_dependencies
                 (printed ("Fix applied: " +:+ "Updated npm installation") s1) =
               (Returned (false, install_failure 1), s2)).
  { vm_compute. reflexivity. }
  assert (H5 : install_failure 1 ∈ ({[ last_error l ]} ∪ errors_seen l : gset string)).
  { apply elem_of_union_l, elem_of_singleton. reflexivity. }
  assert (H6 : (Z.to_nat (5 - attempt l + 1) + 1 < 7)%nat) by (cbn; lia).
  exists s2.
  exact (proj2 (repeated_error_gives_up_without_fixing
                  "Dependency installation" "dependencies" _install_dependencies 5 l
                  (fresh broken_npm_env) 7 "Updated npm installation" (install_failure 1)
                  s1 s2 H1 H2 H3 H4 H5 H6)).
Defined.

(** The claim as the specification words it does not hold: the second
    occurrence of an error ends nothing and there is no outcome of its own
    for it. In [broken_npm_env], where [npm install] fails with the same
    message after the one fix, the session goes on through all the attempts
    (the line about an error seen before is printed five times, up to attempt
    5 of 5, with one installer run in all) and returns the message of
    exhausted attempts. *)
Lemma repeated_error_ends_as_exhausted_attempts :
  exists s',
    _retry_with_fixes 7 "Dependency installation" (install_failure 1) "dependencies"
      _install_dependencies 5 (fresh broken_npm_env) =
      Some (Returned (false,
              "Failed to fix dependencies after 5 attempts. Last error: " +:+
              "Failed to install dependencies: " +:+
              "Command '['npm', 'install']' returned non-zero exit status 1."), s')
    ∧ times_run ["npm"; "install"] (trace (snd s')) = 1%nat
    ∧ times_printed "This error was seen before, trying different fix strategy..."
        (trace (snd s')) = 5%nat
    ∧ times_printed (nl +:+ "Attempt 5/5 to fix dependencies error:") (trace (snd s')) = 1%nat.
Proof.
  eexists. split; [vm_compute; reflexivity|].
  split; [vm_compute; reflexivity|].
  split; [vm_compute; reflexivity | vm_compute; reflexivity].
Qed.

(** ** A retry session that never ends *)

Lemma append_dot_inj (x y : string) : x +:+ "." = y +:+ "." -> x = y.
Proof.
  revert y. induction x as [|a x IH]; intros [|b y] H; cbn in H.
  - done.
  - destruct y; discriminate.
  - destruct x; discriminate.
  - injection H as -> H. f_equal. by apply IH.
Qed.

Lemma install_failure_inj j k : install_failure j = install_failure k -> j = k.
Proof.
  unfold install_failure, npm_exit_status. intros H.
  apply String.app_inj in H. apply String.app_inj in H.
  apply append_dot_inj in H. by apply pretty_nat_inj in H.
Qed.

Lemma install_failure_mentions_npm k :
  py_in "npm" (py_lower (install_failure k)) = true.
Proof. reflexivity. Qed.

Lemma flaky_iteration (l : locals) (d : AppDemonstrator) oe t :
  project_dir d = "/srv/app" ->
  last_error l ∉ errors_seen l ->
  py_in "npm" (py_lower (last_error l)) = true ->
  exists d' t' oe',
    retry_body "Dependency installation" "dependencies" _install_dependencies 5 l
      (d, {| env := flaky_npm_env; os_environ := oe; trace := t |}) =
      (Returned (inl {| attempt := attempt l;
                        last_error := install_failure (6 + length t);
                        errors_seen := {[ last_error l ]} ∪ errors_seen l |}),
       (d', {| env := flaky_npm_env; os_environ := oe'; trace := t' |}))
    ∧ project_dir d' = "/srv/app"
    ∧ (6 + length t < length t')%nat.
Proof.
  intros Hdir Hnew Hnpm.
  destruct d as [pd bp fp bport fport burl furl fa]. cbn in Hdir. subst pd.
  unfold retry_body.
  rewrite bool_decide_eq_false_2 by done.
  unfold _analyze_and_fix_error, _fix_dependency_error, _install_dependencies,
    ensure_fix_attempts, conclude_fix, record_fix, try_except, bind, self, world,
    update_self, update_world, subprocess_run, path_exists, print, ret, raise.
  cbn. rewrite Hnpm.
  destruct fa as [fa|];
    (eexists _, _, _; split;
     [ cbv -[py_str pretty npm_exit_status install_failure union singleton length];
       reflexivity
     | split; [reflexivity | cbn [length]; lia] ]).
Qed.

Lemma flaky_session_never_exits fuel : forall l d oe t k,
  project_dir d = "/srv/app" ->
  attempt l = 1 ->
  last_error l = install_failure k ->
  (k <= length t)%nat ->
  (forall x, x ∈ errors_seen l -> exists j, (j < k)%nat ∧ x = install_failure j) ->
  retry_loop fuel "Dependency installation" "dependencies" _install_dependencies 5 l
    (d, {| env := flaky_npm_env; os_environ := oe; trace := t |}) = None.
Proof.
  induction fuel as [|fuel IH]; intros l d oe t k Hdir Hatt Hlast Hk Hseen; [done|].
  cbn [retry_loop]. rewrite Hatt. cbn [Z.leb Z.compare Pos.compare].
  assert (Hnew : last_error l ∉ errors_seen l).
  { intros Hin. destruct (Hseen _ Hin) as (j & Hj & Heq).
    rewrite Hlast in Heq. apply install_failure_inj in Heq. lia. }
  assert (Hnpm : py_in "npm" (py_lower (last_error l)) = true).
  { rewrite Hlast. apply install_failure_mentions_npm. }
  destruct (flaky_iteration l d oe t Hdir Hnew Hnpm) as (d' & t' & oe' & -> & Hdir' & Hlen).
  apply (IH _ d' oe' t' (6 + length t)%nat); cbn [attempt last_error errors_seen].
  all: try done. all: try lia.
  intros x Hx. apply elem_of_union in Hx as [Hx|Hx].
  - apply elem_of_singleton in Hx as ->. exists k. split; [lia|done].
  - destruct (Hseen x Hx) as (j & Hj & ->). exists j. split; [lia|done].
Qed.

(** C1, at the input on which the code departs from it. In [flaky_npm_env]
    every failure of [npm install] carries a message not seen before and every
    fix (the self-update of npm) applies. The branch of the loop taken then
    leaves [attempt] at 1, so with [max_attempts = 5] the loop is still running
    after any number of iterations: no amount of fuel yields a result. *)
Theorem retry_never_returns_on_fresh_fixable_errors (fuel : nat) :
  _retry_with_fixes fuel "Dependency installation" (install_failure 0) "dependencies"
    _install_dependencies 5 (fresh flaky_npm_env) = None.
Proof.
  unfold _retry_with_fixes, fresh, world_of.
  by apply (flaky_session_never_exits fuel _ _ _ _ 0%nat).
Qed.

(** The same session inside [demonstrate]: stage 1 never completes. *)
Lemma demonstrate_never_returns_on_flaky_npm (fuel : nat) :
  demonstrate fuel (fresh flaky_npm_env) = None.
Proof.
  assert (Hfirst : exists d t oe,
    _install_dependencies
      (printed (nl +:+ "[1/4] Installing dependencies...")
         (printed (nl +:+ "Starting Web Application Demonstration...")
            (fresh flaky_npm_env))) =
    (Returned (false, install_failure 4),
     (d, {| env := flaky_npm_env; os_environ := oe; trace := t |}))
    ∧ project_dir d = "/srv/app" ∧ (4 <= length t)%nat).
  { eexists _, _, _. split; [vm_compute; reflexivity|]. split; [reflexivity|cbn; lia]. }
  destruct Hfirst as (d & t & oe & Hrun & Hdir & Hlen).
  unfold demonstrate, try_finally_cleanup.
  assert (demonstrate_try fuel (fresh flaky_npm_env) = None) as ->; [|done].
  unfold demonstrate_try, bindf at 1 2 3, lift, print, update_world. cbn [fst snd].
  unfold stage, bindf, lift. unfold printed in Hrun. cbn [fst snd] in Hrun.
  rewrite Hrun. cbn [fst snd]. unfold _retry_with_fixes.
  by rewrite (flaky_session_never_exits fuel _ d oe t 4%nat).
Qed.

(** What does hold of every iteration, whatever the operation: the set of
    errors seen only grows and [attempt] never decreases nor grows by more
    than one. *)
Lemma retry_body_invariants operation component func max_attempts l s l' s' :
  retry_body operation component func max_attempts l s = (Returned (inl l'), s') ->
  errors_seen l ⊆ errors_seen l' ∧ attempt l <= attempt l' <= attempt l + 1.
Proof.
  unfold retry_body. destruct (bool_decide (last_error l ∈ errors_seen l)).
  { unfold bind, print, update_world, ret. cbn. intros [= <- _]. cbn. split; [done|lia]. }
  unfold bind at 1 2. unfold print, update_world. cbn [fst snd].
  unfold bind at 1.
  destruct (_analyze_and_fix_error _ _ _) as [[[fixed msg]|e] s1]; [|discriminate].
  cbn [fst snd]. destruct fixed.
  - unfold bind, print, update_world, ret. cbn [fst snd].
    destruct (func _) as [[[ok m]|e] s2]; [|discriminate].
    cbn [fst snd]. destruct ok; [discriminate|].
    intros [= <- _]. cbn. split; [set_solver|lia].
  - unfold bind, print, update_world, ret. cbn [fst snd].
    intros [= <- _]. cbn. split; [set_solver|lia].
Qed.

(** ** Substrings of joined lines *)

Lemma starts_with_app x y : starts_with x (x +:+ y) = true.
Proof.
  induction x as [|a x IH]; [done|].
  change (String a x +:+ y) with (String a (x +:+ y)). cbn [starts_with].
  by rewrite Ascii.eqb_refl.
Qed.

Lemma starts_with_app_l x a b : starts_with x a = true -> starts_with x (a +:+ b) = true.
Proof.
  revert a. induction x as [|c x IH]; intros [|c' a] H; try done.
  change (String c' a +:+ b) with (String c' (a +:+ b)). cbn [starts_with] in *.
  destruct (Ascii.eqb c c'); [by apply IH|done].
Qed.

Lemma py_in_app_l x a b : py_in x a = true -> py_in x (a +:+ b) = true.
Proof.
  induction a as [|c a IH]; intros H.
  - cbn in H. rewrite orb_false_r in H. destruct x; [|done]. by destruct b.
  - cbn in H. apply orb_true_iff in H as [H|H].
    + change (String c a +:+ b) with (String c (a +:+ b)). cbn.
      apply orb_true_iff. left.
      by apply (starts_with_app_l x (String c a) b).
    + change (String c a +:+ b) with (String c (a +:+ b)). cbn.
      apply orb_true_iff. right. by apply IH.
Qed.

Lemma py_in_app_r x a b : py_in x b = true -> py_in x (a +:+ b) = true.
Proof.
  intros H. induction a as [|c a IH]; [done|].
  change (String c a +:+ b) with (String c (a +:+ b)). cbn.
  apply orb_true_iff. by right.
Qed.

Lemma py_in_self x y : py_in x (x +:+ y) = true.
Proof.
  destruct x as [|c x]; [by destruct y|].
  change (String c x +:+ y) with (String c (x +:+ y)). cbn [py_in].
  apply orb_true_iff. left. apply (starts_with_app (String c x) y).
Qed.

Lemma py_in_refl x : py_in x x = true.
Proof.
  assert (Hs : forall y, starts_with y y = true).
  { induction y as [|c y IH]; [done|]. cbn [starts_with]. by rewrite Ascii.eqb_refl. }
  destruct x as [|c x]; [done|]. cbn [py_in]. by rewrite Hs.
Qed.

Lemma py_in_join x sep (l : list string) : x ∈ l -> py_in x (py_join sep l) = true.
Proof.
  induction l as [|y l IH]; intros Hin; [by apply elem_of_nil in Hin|].
  apply elem_of_cons in Hin as [->|Hin].
  - destruct l as [|z l]; cbn [py_join].
    + apply py_in_refl.
    + apply py_in_self.
  - destruct l as [|z l]; [by apply elem_of_nil in Hin|].
    cbn [py_join]. apply py_in_app_r, py_in_app_r. by apply IH.
Qed.

Lemma report_shows_frontend_url d api_results :
  py_in ("- Frontend: " +:+ frontend_url d) (_generate_demo_report d api_results) = true.
Proof.
  unfold _generate_demo_report. apply py_in_join.
  apply elem_of_app. right. apply elem_of_app. right.
  apply elem_of_cons. right. apply elem_of_cons. by left.
Qed.

(** ** The port conflict of the frontend *)








(** ** Cleanup and the end of a run *)

Lemma for_each_terminate_spec pids d w :
  exists o evs,
    for_each pids psutil_terminate (d, w) = (o, (d, log_all evs w))
    ∧ forallb is_cleanup_event evs = true.
Proof.
  revert w. induction pids as [|pid pids IH]; intros w.
  - by exists (Returned tt), [].
  - cbn [for_each]. unfold bind, psutil_terminate at 1. cbn [fst snd].
    destruct (psutil_terminate_reply (env w) (trace w) pid) as [e|] eqn:E.
    + by exists (Raised e), [EvPsTerminate pid (Some e)].
    + destruct (IH (log (EvPsTerminate pid None) w)) as (o & evs & Hrun & Hall).
      exists o, (EvPsTerminate pid None :: evs). by rewrite Hrun.
Qed.

Lemma terminate_tree_spec pid d w :
  exists o evs,
    terminate_tree pid (d, w) = (o, (d, log_all evs w))
    ∧ forallb is_cleanup_event evs = true.
Proof.
  unfold terminate_tree, bind, psutil_children. cbn [fst snd].
  destruct (psutil_children_reply (env w) (trace w) pid) as [e|children] eqn:E.
  - by exists (Raised e), [EvChildren pid (inl e)].
  - destruct (for_each_terminate_spec children d (log (EvChildren pid (inr children)) w))
      as (o & evs & Hrun & Hall).
    rewrite Hrun. destruct o as [[]|e].
    + exists (Returned tt), (EvChildren pid (inr children) :: evs ++ [EvPopenTerminate pid]).
      split.
      * unfold popen_terminate, update_world. cbn [fst snd].
        by rewrite log_all_cons, log_all_app.
      * cbn. rewrite forallb_app, Hall. done.
    + by exists (Raised e), (EvChildren pid (inr children) :: evs).
Qed.

(** [_cleanup] never raises, leaves the instance as it is, and only makes
    psutil, terminate and logging calls. *)
Lemma cleanup_spec d w :
  exists evs,
    _cleanup (d, w) = (Returned tt, (d, log_all evs w))
    ∧ forallb is_cleanup_event evs = true.
Proof.
  assert (Hopt : forall p w0, exists o evs,
    match p with Some pid => terminate_tree pid | None => ret tt end (d, w0) =
      (o, (d, log_all evs w0)) ∧ forallb is_cleanup_event evs = true).
  { intros [pid|] w0; [apply terminate_tree_spec|]. by exists (Returned tt), []. }
  unfold _cleanup, try_except, bind, self. cbn [fst snd].
  destruct (Hopt (backend_process d) w) as (o1 & evs1 & -> & Hall1).
  destruct o1 as [[]|e1].
  - destruct (Hopt (frontend_process d) (log_all evs1 w)) as (o2 & evs2 & -> & Hall2).
    destruct o2 as [[]|e2].
    + exists (evs1 ++ evs2). rewrite log_all_app, forallb_app, Hall1, Hall2. done.
    + exists (evs1 ++ evs2 ++ [EvLogError ("Error during cleanup: " +:+ exc_str e2)]).
      rewrite !log_all_app, !forallb_app, Hall1, Hall2. done.
  - exists (evs1 ++ [EvLogError ("Error during cleanup: " +:+ exc_str e1)]).
    rewrite !log_all_app, !forallb_app, Hall1. done.
Qed.

Lemma bindf_print {B} text (k : unit -> Mf B) s :
  bindf (lift (print text)) k s = k tt (printed text s).
Proof. done. Qed.

Lemma bindf_returned {A B} (m : Mf A) (k : A -> Mf B) s a s' :
  m s = Some (Returned a, s') -> bindf m k s = k a s'.
Proof. intros H. unfold bindf. by rewrite H. Qed.

(** C5, as amended. When stage 2 or stage 3 ends in failure after its
    retries, [demonstrate] runs nothing of the later stages: it goes straight
    to cleanup, whose psutil, terminate and logging calls are the only further
    events, and returns [(False, message, None)], where [message] is the
    failure message of the stage; the report component is [None]. *)
Theorem failed_stage_stops_the_run_and_cleans_up
    (fuel : nat) (s : State) (message : string) (s_fail : State) :
  stage_2_or_3_fails fuel s message s_fail ->
  exists s',
    demonstrate fuel s = Some (Returned (false, message, None), s')
    ∧ _cleanup s_fail = (Returned tt, s')
    ∧ forallb is_cleanup_event (added s_fail s') = true.
Proof.
  intros (m1 & s1 & H1 & H23).
  destruct s_fail as [df wf].
  destruct (cleanup_spec df wf) as (evs & Hclean & Hall).
  exists (df, log_all evs wf). split; [|split; [done | by rewrite added_log_all]].
  unfold demonstrate, try_finally_cleanup.
  assert (demonstrate_try fuel s = Some (Returned (false, message, None), (df, wf))) as ->.
  { unfold demonstrate_try. rewrite !bindf_print, (bindf_returned _ _ _ _ _ H1).
    cbn [fst snd negb]. unfold backend_onwards. rewrite bindf_print.
    destruct H23 as [H2 | (m2 & s2 & H2 & H3)].
    - by rewrite (bindf_returned _ _ _ _ _ H2).
    - rewrite (bindf_returned _ _ _ _ _ H2). cbn [fst snd negb].
      unfold frontend_onwards. rewrite bindf_print.
      by rewrite (bindf_returned _ _ _ _ _ H3). }
  by rewrite Hclean.
Qed.

Lemma failed_stage_stops_the_run_witness :
  (exists s_fail,
     stage_2_or_3_fails 7 (fresh quiet_env)
       "Failed to fix backend after 5 attempts. Last error: Backend failed to start within timeout"
       s_fail
     ∧ exists s',
         demonstrate 7 (fresh quiet_env) =
           Some (Returned (false, "Failed to fix backend after 5 attempts. Last error: Backend failed to start within timeout", None), s')
         ∧ _cleanup s_fail = (Returned tt, s')
         ∧ forallb is_cleanup_event (added s_fail s') = true)
  ∧ (exists s_fail,
       stage_2_or_3_fails 7 (fresh no_frontend_env)
         "Failed to fix frontend after 5 attempts. Last error: Frontend failed to start within timeout"
         s_fail
       ∧ exists s',
           demonstrate 7 (fresh no_frontend_env) =
             Some (Returned (false, "Failed to fix frontend after 5 attempts. Last error: Frontend failed to start within timeout", None), s')
           ∧ _cleanup s_fail = (Returned tt, s')
           ∧ forallb is_cleanup_event (added s_fail s') = true).
Proof.
  split.
  - assert (H : exists s_fail,
      stage_2_or_3_fails 7 (fresh quiet_env)
        "Failed to fix backend after 5 attempts. Last error: Backend failed to start within timeout"
        s_fail).
    { eexists. eexists _, _. split; [vm_compute; reflexivity|].
      left. vm_compute. reflexivity. }
    destruct H as [s_fail H]. exists s_fail. split; [exact H|].
    exact (failed_stage_stops_the_run_and_cleans_up 7 (fresh quiet_env) _ s_fail H).
  - assert (H : exists s_fail,
      stage_2_or_3_fails 7 (fresh no_frontend_env)
        "Failed to fix frontend after 5 attempts. Last error: Frontend failed to start within timeout"
        s_fail).
    { eexists. eexists _, _. split; [vm_compute; reflexivity|].
      right. eexists _, _. split; [vm_compute; reflexivity | vm_compute; reflexivity]. }
    destruct H as [s_fail H]. exists s_fail. split; [exact H|].
    exact (failed_stage_stops_the_run_and_cleans_up 7 (fresh no_frontend_env) _ s_fail H).
Defined.

(** C5 as stated fails in its last part: after a permanent failure of the
    backend stage the third component of the result, the report, is [None],
    and no report file is written. *)
Lemma failed_backend_stage_returns_no_report :
  (exists s',
     demonstrate 7 (fresh quiet_env) =
       Some (Returned (false, "Failed to fix backend after 5 attempts. Last error: Backend failed to start within timeout", None), s')
     ∧ forallb (fun e => negb (is_write_file e)) (trace (snd s')) = true)
  ∧ ~ (exists ok message report s',
         demonstrate 7 (fresh quiet_env) = Some (Returned (ok, message, Some report), s')).
Proof.
  assert (H : exists s',
     demonstrate 7 (fresh quiet_env) =
       Some (Returned (false, "Failed to fix backend after 5 attempts. Last error: Backend failed to start within timeout", None), s')
     ∧ forallb (fun e => negb (is_write_file e)) (trace (snd s')) = true).
  { eexists. split; [vm_compute; reflexivity | vm_compute; reflexivity]. }
  split; [exact H|].
  destruct H as (s' & Hrun & _). intros (ok & message & report & s'' & Hrun').
  rewrite Hrun in Hrun'. discriminate Hrun'.
Qed.

(** ** What cleanup reaches *)

Lemma for_each_terminate_ok pids d w :
  (forall t pid, psutil_terminate_reply (env w) t pid = None) ->
  for_each pids psutil_terminate (d, w) =
    (Returned tt, (d, log_all (map (fun c => EvPsTerminate c None) pids) w)).
Proof.
  intros Hok. revert w Hok. induction pids as [|pid pids IH]; intros w Hok; [done|].
  cbn [for_each map]. unfold bind, psutil_terminate at 1. cbn [fst snd].
  rewrite Hok. rewrite log_all_cons. apply IH. intros t p. apply Hok.
Qed.

Lemma terminate_tree_ok pid children d w :
  psutil_children_reply (env w) (trace w) pid = inr children ->
  (forall t p, psutil_terminate_reply (env w) t p = None) ->
  terminate_tree pid (d, w) = (Returned tt, (d, log_all (tree_events pid children) w)).
Proof.
  intros Hch Hok. unfold terminate_tree, bind, psutil_children. cbn [fst snd].
  rewrite Hch. rewrite for_each_terminate_ok by (intros t p; apply Hok).
  unfold popen_terminate, update_world, tree_events. cbn [fst snd].
  by rewrite log_all_cons, log_all_app.
Qed.

Lemma terminated_app t1 t2 : terminated (t1 ++ t2) = terminated t1 ++ terminated t2.
Proof. apply omap_app. Qed.

Lemma terminated_children cs :
  terminated (map (fun c => EvPsTerminate c None) cs) = cs.
Proof. induction cs as [|c cs IH]; [done|]. cbn. f_equal. exact IH. Qed.

Lemma tree_events_terminated pid children :
  terminated (tree_events pid children) = children ++ [pid].
Proof.
  unfold tree_events.
  change (terminated (?e :: ?l)) with (terminated ([e] ++ l)).
  by rewrite !terminated_app, terminated_children.
Qed.

(** Where no psutil call raises, cleanup signals the process of each handle
    the instance holds, and every descendant psutil lists for it. *)
Lemma cleanup_terminates_handles d w :
  (forall t pid, exists l, psutil_children_reply (env w) t pid = inr l) ->
  (forall t pid, psutil_terminate_reply (env w) t pid = None) ->
  exists evs,
    _cleanup (d, w) = (Returned tt, (d, log_all evs w))
    ∧ forall pid, backend_process d = Some pid ∨ frontend_process d = Some pid ->
        exists children,
          EvChildren pid (inr children) ∈ evs
          ∧ pid ∈ terminated evs
          ∧ forall c, c ∈ children -> c ∈ terminated evs.
Proof.
  intros Hch Hok.
  assert (Htree : forall p w0, env w0 = env w -> exists evs,
    match p with Some pid => terminate_tree pid | None => ret tt end (d, w0) =
      (Returned tt, (d, log_all evs w0))
    ∧ forall pid, p = Some pid -> exists children,
        evs = tree_events pid children).
  { intros [pid|] w0 Henv.
    - destruct (Hch (trace w0) pid) as [l Hl]. exists (tree_events pid l). split.
      + apply terminate_tree_ok; rewrite Henv; [done | apply Hok].
      + intros p [= <-]. by exists l.
    - exists []. split; [done|]. by intros pid [=]. }
  unfold _cleanup, try_except, bind, self. cbn [fst snd].
  destruct (Htree (backend_process d) w eq_refl) as (evs1 & -> & Hb).
  destruct (Htree (frontend_process d) (log_all evs1 w) (env_log_all _ _)) as (evs2 & -> & Hf).
  exists (evs1 ++ evs2). split; [by rewrite log_all_app|].
  intros pid [Hp|Hp].
  - destruct (Hb pid Hp) as [children ->]. exists children.
    rewrite terminated_app, tree_events_terminated. split; [|split].
    + apply elem_of_app. left. apply elem_of_cons. by left.
    + set_solver.
    + set_solver.
  - destruct (Hf pid Hp) as [children ->]. exists children.
    rewrite terminated_app, tree_events_terminated. split; [|split].
    + apply elem_of_app. right. apply elem_of_cons. by left.
    + set_solver.
    + set_solver.
Qed.

(** C3, at the input on which the code departs from it. Both servers come up
    and the run succeeds; during cleanup the only child of the backend
    (pid 200) is already gone, [child.terminate()] raises, and the single
    [try] of [_cleanup] is left: neither the backend (pid 100) nor the
    frontend (pid 101) receives a terminate call. *)
Theorem cleanup_abandons_remaining_processes_when_a_terminate_raises :
  exists report s',
    demonstrate 7 (fresh race_env) =
      Some (Returned (true, "Demonstration completed successfully", Some report), s')
    ∧ launched (trace (snd s')) = [101; 100]
    ∧ terminated (trace (snd s')) = []
    ∧ hd_error (trace (snd s')) =
        Some (EvLogError "Error during cleanup: process no longer exists (pid=200)").
Proof.
  eexists _, _. split; [vm_compute; reflexivity|].
  split; [|split]; vm_compute; reflexivity.
Qed.

(** ** Worked runs *)

Example backend_ready_on_third_probe :
  let r := _start_backend (fresh slow_backend_env) in
  fst r = Returned (true, "Backend started successfully")
  ∧ get_replies (added (fresh slow_backend_env) (snd r)) =
      [RequestFailed "Connection refused"; RequestFailed "Connection refused"; Response 200].
Proof. cbn zeta. split; vm_compute; reflexivity. Qed.

Example backend_times_out_after_30_probes :
  let r := _start_backend (fresh quiet_env) in
  fst r = Returned (false, "Backend failed to start within timeout")
  ∧ length (gets (trace (snd (snd r)))) = 30%nat.
Proof. cbn zeta. split; vm_compute; reflexivity. Qed.

Example frontend_times_out_after_60_probes :
  let r := _start_frontend (fresh quiet_env) in
  fst r = Returned (false, "Frontend failed to start within timeout")
  ∧ length (gets (trace (snd (snd r)))) = 60%nat.
Proof. cbn zeta. split; vm_compute; reflexivity. Qed.

Example first_backend_signature_wins :
  fst (_analyze_and_fix_error "ModuleNotFoundError: No module named 'flask'" "backend"
         (fresh quiet_env)) =
    Returned (true, "Installed missing module: flask").
Proof. vm_compute. reflexivity. Qed.

Example module_error_without_quotes_is_contained :
  fst (_analyze_and_fix_error "ModuleNotFoundError" "backend" (fresh quiet_env)) =
    Returned (false, "Backend fix failed: list index out of range").
Proof. vm_compute. reflexivity. Qed.

Example failed_installer_is_contained :
  fst (_analyze_and_fix_error "No module named 'flask'" "backend" (fresh offline_env)) =
    Returned (false, "Backend fix failed: Command returned non-zero exit status 1.").
Proof. vm_compute. reflexivity. Qed.

Example unknown_component_is_not_fixed :
  _analyze_and_fix_error "Address already in use" "database" (fresh quiet_env) =
    (Returned (false, "Unknown component: database"), fresh quiet_env).
Proof. vm_compute. reflexivity. Qed.

(** In [broken_npm_env] the same failure comes back after the one fix: the
    session makes a single fix and gives up. *)
Example same_npm_failure_is_fixed_once :
  exists s',
    _retry_with_fixes 7 "Dependency installation" (install_failure 1) "dependencies"
      _install_dependencies 5 (fresh broken_npm_env) =
      Some (Returned (false, failure_message "dependencies" 5 (install_failure 1)), s')
    ∧ _fix_attempts (fst s') =
        Some {| fa_backend := []; fa_frontend := [];
                fa_dependencies := ["Updated npm installation"] |}.
Proof. eexists. split; [vm_compute; reflexivity | vm_compute; reflexivity]. Qed.

Example smoke_test_counts_404_as_success :
  fst (_verify_api_endpoints (fresh (constant_env 404))) =
    Returned
      [ {| endpoint := "/api/health"; method := "GET"; status := "Success";
           status_code := Some "404"; error := None |};
        {| endpoint := "/api/auth/register"; method := "POST"; status := "Success";
           status_code := Some "404"; error := None |};
        {| endpoint := "/api/auth/login"; method := "POST"; status := "Success";
           status_code := Some "404"; error := None |};
        {| endpoint := "/api/users/profile"; method := "GET"; status := "Success";
           status_code := Some "404"; error := None |} ].
Proof. vm_compute. reflexivity. Qed.

Example smoke_test_counts_500_as_failed :
  map status <$> fst_returned (_verify_api_endpoints (fresh (constant_env 500))) =
    Some ["Failed"; "Failed"; "Failed"; "Failed"].
Proof. vm_compute. reflexivity. Qed.

Example smoke_test_records_refused_requests :
  map (fun x => (status x, status_code x, error x)) <$>
    fst_returned (_verify_api_endpoints (fresh quiet_env)) =
    Some (replicate 4 ("Failed", None, Some "Connection refused")).
Proof. vm_compute. reflexivity. Qed.

Example healthy_run_terminates_both_servers :
  exists report s',
    demonstrate 7 (fresh healthy_env) =
      Some (Returned (true, "Demonstration completed successfully", Some report), s')
    ∧ launched (trace (snd s')) = [101; 100]
    ∧ terminated (trace (snd s')) = [101; 100].
Proof.
  eexists _, _. split; [vm_compute; reflexivity|].
  split; vm_compute; reflexivity.
Qed.

(** An error no signature matches uses up the five attempts without calling
    the operation: five iterations and the final test of the condition. *)
Example unfixable_error_exhausts_five_attempts :
  _retry_with_fixes 5 "Backend startup" "Backend failed to start within timeout" "backend"
    _start_backend 5 (fresh healthy_env) = None
  ∧ exists s',
      _retry_with_fixes 6 "Backend startup" "Backend failed to start within timeout" "backend"
        _start_backend 5 (fresh healthy_env) =
        Some (Returned (false, "Failed to fix backend after 5 attempts. Last error: Backend failed to start within timeout"), s')
      ∧ launched (trace (snd s')) = [] ∧ gets (trace (snd s')) = [].
Proof.
  split; [vm_compute; reflexivity|].
  eexists. split; [vm_compute; reflexivity|]. split; vm_compute; reflexivity.
Qed.

(** * Further properties *)

(** ** What a fix attempt changes *)

Ltac reply_cases :=
  match goal with
  | |- context [subprocess_run_reply ?e ?t ?c ?cw] =>
      destruct (subprocess_run_reply e t c cw) as [?ex|] eqn:?
  | |- context [create_package_json_reply ?e ?t ?c] =>
      destruct (create_package_json_reply e t c) as [?ex|] eqn:?
  end.

(** The events consed on top of [base] in the trace [t], oldest first. *)
Ltac events_over t base acc :=
  lazymatch t with
  | base => acc
  | ?e :: ?t' => events_over t' base (e :: acc)
  end.

Ltac effects_leaf :=
  eexists _, _, _, _, _;
  split; [reflexivity|];
  split;
  [ cbn [trace log set_environ];
    lazymatch goal with
    | |- ?t = rev ?evs ++ ?base =>
        let l := events_over t base (@nil event) in unify evs l; reflexivity
    end
  | split; [reflexivity|];
    split; [reflexivity|];
    split; [reflexivity|];
    split; [reflexivity|];
    split; [reflexivity|];
    split; [reflexivity|];
    let H1 := fresh in let H2 := fresh in
    intros [H1 H2]; split; cbn in *; first [ exact H1 | exact H2 | reflexivity ] ].

Lemma fix_backend_effects error d w :
  fix_effects "backend" d w (_fix_backend_error error (d, w)).
Proof.
  destruct d as [pd bp fp bport fport burl furl fa].
  unfold fix_effects, _fix_backend_error, ensure_fix_attempts, conclude_fix, record_fix,
    try_except, bind, self, world, update_self, subprocess_run, list_index, ret, raise.
  cbn.
  destruct (py_in "ModuleNotFoundError" error) eqn:E1.
  { destruct (py_split "'" error !! 1%nat) as [m|] eqn:Em; cbn.
    - reply_cases; destruct fa; cbn; effects_leaf.
    - destruct fa; effects_leaf. }
  destruct (py_in "Address already in use" error) eqn:E2; [destruct fa; cbn; effects_leaf|].
  destruct (py_in "No module named 'flask'" error) eqn:E3.
  { reply_cases; destruct fa; cbn; effects_leaf. }
  destruct (py_in "SQLAlchemy" error) eqn:E4; [|destruct fa; cbn; effects_leaf].
  cbn. unfold bind, subprocess_run, ret. cbn.
  reply_cases; cbn; [destruct fa; effects_leaf|].
  reply_cases; cbn; [destruct fa; effects_leaf|].
  reply_cases; cbn; destruct fa; effects_leaf.
Qed.

Lemma fix_frontend_effects error d w :
  fix_effects "frontend" d w (_fix_frontend_error error (d, w)).
Proof.
  destruct d as [pd bp fp bport fport burl furl fa].
  unfold fix_effects, _fix_frontend_error, ensure_fix_attempts, conclude_fix, record_fix,
    _create_basic_package_json, try_except, bind, self, world, update_self, update_world,
    subprocess_run, ret, raise.
  cbn.
  destruct (py_in "ENOENT" error && py_in "package.json" error) eqn:E1.
  { reply_cases; destruct fa; cbn; effects_leaf. }
  destruct (py_in "react-scripts" error) eqn:E2.
  { reply_cases; destruct fa; cbn; effects_leaf. }
  destruct (py_in "EADDRINUSE" error) eqn:E3; destruct fa; cbn; effects_leaf.
Qed.

Lemma fix_dependency_effects error d w :
  fix_effects "dependencies" d w (_fix_dependency_error error (d, w)).
Proof.
  destruct d as [pd bp fp bport fport burl furl fa].
  unfold fix_effects, _fix_dependency_error, ensure_fix_attempts, conclude_fix, record_fix,
    try_except, bind, self, world, update_self, subprocess_run, ret, raise.
  cbn.
  destruct (py_in "npm" (py_lower error)) eqn:E1.
  { destruct (String.eqb (sys_platform (env w)) "win32");
      reply_cases; destruct fa; cbn; effects_leaf. }
  destruct (py_in "python" (py_lower error) || py_in "pip" (py_lower error)) eqn:E2.
  { reply_cases; destruct fa; cbn; effects_leaf. }
  destruct fa; cbn; effects_leaf.
Qed.

(** [_analyze_and_fix_error] has the effects of the fixer of its component,
    and none at all for any other component. *)
Lemma analyze_effects error component d w :
  (known_component component = true
   ∧ fix_effects component d w (_analyze_and_fix_error error component (d, w)))
  ∨ (known_component component = false
     ∧ _analyze_and_fix_error error component (d, w) =
         (Returned (false, "Unknown component: " +:+ component), (d, w))).
Proof.
  unfold _analyze_and_fix_error.
  destruct (String.eqb component "backend") eqn:Eb.
  { apply String.eqb_eq in Eb as ->. left.
    pose proof (fix_backend_effects error d w) as H.
    destruct H as (f & m & evs & d' & w' & Hres & Hrest).
    rewrite (try_except_returned _ _ _ _ (f, m)) by (by rewrite Hres).
    split; [done|]. by exists f, m, evs, d', w'. }
  destruct (String.eqb component "frontend") eqn:Ef.
  { apply String.eqb_eq in Ef as ->. left.
    pose proof (fix_frontend_effects error d w) as H.
    destruct H as (f & m & evs & d' & w' & Hres & Hrest).
    rewrite (try_except_returned _ _ _ _ (f, m)) by (by rewrite Hres).
    split; [done|]. by exists f, m, evs, d', w'. }
  destruct (String.eqb component "dependencies") eqn:Ed.
  { apply String.eqb_eq in Ed as ->. left.
    pose proof (fix_dependency_effects error d w) as H.
    destruct H as (f & m & evs & d' & w' & Hres & Hrest).
    rewrite (try_except_returned _ _ _ _ (f, m)) by (by rewrite Hres).
    split; [done|]. by exists f, m, evs, d', w'. }
  right. unfold known_component. by rewrite Eb, Ef, Ed.
Qed.

(** ** Reasoning about the retry loop *)

Lemma retry_body_cases operation component func max_attempts l s :
  retry_body operation component func max_attempts l s =
  retry_body_by_cases operation component func max_attempts l s.
Proof.
  unfold retry_body, retry_body_by_cases, attempt_banner, printed.
  destruct (bool_decide (last_error l ∈ errors_seen l)); [done|].
  unfold bind at 1 2 3. unfold print at 1 2. unfold update_world. cbn [fst snd].
  destruct (_analyze_and_fix_error _ _ _) as [[[[] fm]|e] s1]; cbn [fst snd]; [| |done].
  - unfold bind at 1. unfold print at 1. unfold update_world. cbn [fst snd].
    unfold bind at 1. destruct (func _) as [[[[] m]|e] s2]; cbn [fst snd]; done.
  - done.
Qed.

(** Induction over the iterations of the loop: an invariant of the locals
    and the state that every iteration keeps gives a property of every
    result the loop can produce. *)
Lemma retry_loop_ind operation component func max_attempts
    (I : locals -> State -> Prop) (Q : outcome (bool * string) * State -> Prop) :
  (forall l s, I l s -> attempt l <= max_attempts ->
     match retry_body operation component func max_attempts l s with
     | (Returned (inl l'), s') => I l' s'
     | (Returned (inr r), s') => Q (Returned r, s')
     | (Raised e, s') => Q (Raised e, s')
     end) ->
  (forall l s, I l s -> max_attempts < attempt l ->
     Q (Returned (false, failure_message component max_attempts (last_error l)), s)) ->
  forall fuel l s res,
    I l s -> retry_loop fuel operation component func max_attempts l s = Some res -> Q res.
Proof.
  intros Hstep Hexit. induction fuel as [|fuel IH]; intros l s res HI Hrun; [done|].
  cbn [retry_loop] in Hrun.
  destruct (attempt l <=? max_attempts) eqn:Hle.
  - specialize (Hstep l s HI ltac:(lia)).
    destruct (retry_body _ _ _ _ _ _) as [[[l'|r]|e] s'].
    + by apply (IH l' s').
    + by injection Hrun as <-.
    + by injection Hrun as <-.
  - injection Hrun as <-. apply Hexit; [done|lia].
Qed.

(** ** Errors no signature matches *)

Lemma analyze_unclassified error component d w :
  first_match (signature_table component) error = None ->
  exists m,
    _analyze_and_fix_error error component (d, w) =
      (Returned (false, m),
       (if known_component component then with_ledger d else d, w)).
Proof.
  unfold signature_table, known_component, _analyze_and_fix_error.
  destruct (String.eqb component "backend") eqn:Eb.
  { cbn [first_match fst snd]. intros H.
    destruct (py_in "ModuleNotFoundError" error) eqn:E1; [done|].
    destruct (py_in "Address already in use" error) eqn:E2; [done|].
    destruct (py_in "No module named 'flask'" error) eqn:E3; [done|].
    destruct (py_in "SQLAlchemy" error) eqn:E4; [done|].
    unfold _fix_backend_error, ensure_fix_attempts, conclude_fix, try_except, bind, self,
      world, update_self, ret. cbn. rewrite E1, E2, E3, E4. cbn. by eexists. }
  destruct (String.eqb component "frontend") eqn:Ef.
  { cbn [first_match fst snd]. intros H.
    destruct (py_in "ENOENT" error && py_in "package.json" error) eqn:E1; [done|].
    destruct (py_in "react-scripts" error) eqn:E2; [done|].
    destruct (py_in "EADDRINUSE" error) eqn:E3; [done|].
    unfold _fix_frontend_error, ensure_fix_attempts, conclude_fix, try_except, bind, self,
      world, update_self, ret. cbn. rewrite E1, E2, E3. cbn. by eexists. }
  destruct (String.eqb component "dependencies") eqn:Ed.
  { cbn [first_match fst snd]. intros H.
    destruct (py_in "npm" (py_lower error)) eqn:E1; [done|].
    destruct (py_in "python" (py_lower error) || py_in "pip" (py_lower error)) eqn:E2; [done|].
    unfold _fix_dependency_error, ensure_fix_attempts, conclude_fix, try_except, bind, self,
      world, update_self, ret. cbn. rewrite E1, E2. cbn. by eexists. }
  intros _. cbn. by eexists.
Qed.

Lemma with_ledger_idem d : with_ledger (with_ledger d) = with_ledger d.
Proof. unfold with_ledger. by destruct (_fix_attempts d) eqn:E; cbn; rewrite ?E. Qed.

(** One iteration on an unclassified error: a line or two more are printed,
    the ledger exists afterwards, [attempt] is incremented and nothing else
    happens, whatever the operation is. *)
Lemma retry_body_unclassified operation component func max_attempts l d w :
  first_match (signature_table component) (last_error l) = None ->
  exists prints seen,
    retry_body operation component func max_attempts l (d, w) =
      (Returned (inl {| attempt := attempt l + 1; last_error := last_error l;
                        errors_seen := seen |}),
       (if known_component component then
          (if bool_decide (last_error l ∈ errors_seen l) then d else with_ledger d)
        else d,
        log_all prints w))
    ∧ forallb is_print prints = true
    ∧ length prints = 3%nat
    ∧ last_error l ∈ seen.
Proof.
  intros Hnone. rewrite retry_body_cases. unfold retry_body_by_cases, printed.
  cbn [fst snd].
  destruct (bool_decide (last_error l ∈ errors_seen l)) eqn:Hdup.
  - apply bool_decide_eq_true in Hdup.
    exists [EvPrint (attempt_banner component max_attempts l);
            EvPrint ("Error: " +:+ last_error l);
            EvPrint "This error was seen before, trying different fix strategy..."],
           (errors_seen l).
    split; [|done]. unfold bump. by destruct (known_component component).
  - destruct (analyze_unclassified (last_error l) component d
                (log (EvPrint ("Error: " +:+ last_error l))
                   (log (EvPrint (attempt_banner component max_attempts l)) w)) Hnone)
      as [m ->].
    exists [EvPrint (attempt_banner component max_attempts l);
            EvPrint ("Error: " +:+ last_error l);
            EvPrint ("Unable to fix error: " +:+ m)],
           ({[last_error l]} ∪ errors_seen l).
    split; [done|]. split; [done|]. split; [done|]. set_solver.
Qed.

Lemma retry_body_unclassified_any_operation operation component func func'
    max_attempts l s :
  first_match (signature_table component) (last_error l) = None ->
  retry_body operation component func max_attempts l s =
  retry_body operation component func' max_attempts l s.
Proof.
  intros Hnone. rewrite !retry_body_cases. unfold retry_body_by_cases.
  destruct (bool_decide (last_error l ∈ errors_seen l)); [done|].
  destruct s as [d w]. unfold printed. cbn [fst snd].
  by destruct (analyze_unclassified (last_error l) component d
                 (log (EvPrint ("Error: " +:+ last_error l))
                    (log (EvPrint (attempt_banner component max_attempts l)) w)) Hnone)
    as [m ->].
Qed.

Lemma retry_loop_unclassified_any_operation operation component func func'
    max_attempts fuel : forall l s,
  first_match (signature_table component) (last_error l) = None ->
  retry_loop fuel operation component func max_attempts l s =
  retry_loop fuel operation component func' max_attempts l s.
Proof.
  induction fuel as [|fuel IH]; intros l [d w] Hnone; [done|].
  cbn [retry_loop]. destruct (attempt l <=? max_attempts); [|done].
  rewrite (retry_body_unclassified_any_operation operation component func func') by done.
  destruct (retry_body_unclassified operation component func' max_attempts l d w Hnone)
    as (prints & seen & -> & _ & _ & _).
  by apply IH.
Qed.

Lemma retry_loop_unclassified operation component func max_attempts fuel :
  forall l d w,
    first_match (signature_table component) (last_error l) = None ->
    let n := Z.to_nat (max_attempts - attempt l + 1) in
    let upd := fun d => if known_component component then with_ledger d else d in
    ((fuel <= n)%nat ->
       retry_loop fuel operation component func max_attempts l (d, w) = None)
    ∧ ((n < fuel)%nat ->
       exists prints d',
         retry_loop fuel operation component func max_attempts l (d, w) =
           Some (Returned (false, failure_message component max_attempts (last_error l)),
                 (d', log_all prints w))
         ∧ forallb is_print prints = true
         ∧ length prints = (3 * n)%nat
         ∧ (d' = d ∨ d' = upd d)
         ∧ (last_error l ∉ errors_seen l -> (0 < n)%nat -> d' = upd d)).
Proof.
  induction fuel as [|fuel IH]; intros l d w Hnone n upd.
  { split; [done|lia]. }
  cbn [retry_loop].
  destruct (attempt l <=? max_attempts) eqn:Hle.
  - destruct (retry_body_unclassified operation component func max_attempts l d w Hnone)
      as (prints & seen & -> & Hprints & Hlen & Hseen).
    set (l1 := {| attempt := attempt l + 1; last_error := last_error l;
                  errors_seen := seen |}).
    set (d1 := if known_component component
               then if bool_decide (last_error l ∈ errors_seen l) then d else with_ledger d
               else d).
    destruct (IH l1 d1 (log_all prints w) Hnone) as [IHnone IHsome].
    cbn [attempt last_error errors_seen l1] in IHnone, IHsome.
    assert (Hn : n = S (Z.to_nat (max_attempts - (attempt l + 1) + 1))) by lia.
    split.
    + intros Hfuel. apply IHnone. lia.
    + intros Hfuel. destruct IHsome as (prints' & d' & -> & Hp' & Hl' & Hd' & _); [lia|].
      exists (prints ++ prints'), d'. rewrite log_all_app. split; [done|].
      split; [by rewrite forallb_app, Hprints, Hp'|].
      split; [rewrite length_app; lia|].
      assert (Hupd : upd (upd d) = upd d).
      { unfold upd. destruct (known_component component); [apply with_ledger_idem|done]. }
      change (d' = d1 ∨ d' = upd d1) in Hd'.
      destruct (bool_decide (last_error l ∈ errors_seen l)) eqn:Hdup.
      * apply bool_decide_eq_true in Hdup.
        assert (d1 = d) as -> by (unfold d1; by destruct (known_component component)).
        split; [exact Hd'|]. intros Hnot. by destruct Hnot.
      * assert (d1 = upd d) as -> by (unfold d1, upd; by destruct (known_component component)).
        rewrite Hupd in Hd'.
        assert (d' = upd d) as -> by (by destruct Hd').
        split; [by right|done].
  - assert (n = 0%nat) as Hn by lia. split; [lia|]. intros _.
    exists [], d. rewrite Hn. split; [done|]. split; [done|]. split; [done|].
    split; [by left|]. lia.
Qed.

(** X1. An error that no signature of the component matches is never
    retried. The session does not depend on the wrapped operation (it is not
    called), it takes exactly [max_attempts] iterations (none when
    [max_attempts <= 0]) and returns the failure message with the error it
    was given; all it does meanwhile is print three lines per iteration and
    create the empty fix ledger. *)
Theorem unclassified_error_uses_up_attempts_without_retrying
    (operation component error : string) (func func' : M (bool * string))
    (max_attempts : Z) (fuel : nat) (d : AppDemonstrator) (w : World) :
  first_match (signature_table component) error = None ->
  _retry_with_fixes fuel operation error component func max_attempts (d, w) =
  _retry_with_fixes fuel operation error component func' max_attempts (d, w)
  ∧ ((fuel <= Z.to_nat max_attempts)%nat ->
       _retry_with_fixes fuel operation error component func max_attempts (d, w) = None)
  ∧ ((Z.to_nat max_attempts < fuel)%nat ->
       exists prints,
         _retry_with_fixes fuel operation error component func max_attempts (d, w) =
           Some (Returned (false, failure_message component max_attempts error),
                 (if known_component component && (1 <=? max_attempts)
                  then with_ledger d else d,
                  log_all prints w))
         ∧ forallb is_print prints = true
         ∧ length prints = (3 * Z.to_nat max_attempts)%nat).
Proof.
  intros Hnone. unfold _retry_with_fixes.
  set (l0 := {| attempt := 1; last_error := error; errors_seen := ∅ |}).
  split; [by apply retry_loop_unclassified_any_operation|].
  destruct (retry_loop_unclassified operation component func max_attempts fuel l0 d w Hnone)
    as [Hshort Hlong].
  cbn [attempt l0] in Hshort, Hlong.
  replace (Z.to_nat (max_attempts - 1 + 1)) with (Z.to_nat max_attempts) in * by lia.
  split; [exact Hshort|]. intros Hfuel.
  destruct (Hlong Hfuel) as (prints & d' & Hrun & Hp & Hlen & Hd' & Hfresh).
  exists prints. rewrite Hrun. split; [|done]. do 3 f_equal.
  destruct (1 <=? max_attempts) eqn:Hmax.
  - rewrite andb_true_r. apply Hfresh; [apply not_elem_of_empty | lia].
  - rewrite andb_false_r.
    assert (prints = []) as -> by (destruct prints; [done | cbn in Hlen; lia]).
    (* no iteration ran: the loop returned at once *)
    destruct fuel as [|fuel]; [lia|]. cbn [retry_loop attempt l0] in Hrun.
    assert ((1 <=? max_attempts) = false) as Hm by done. rewrite Hm in Hrun.
    injection Hrun. intros. by subst.
Qed.

Lemma unclassified_error_uses_up_attempts_witness :
  first_match (signature_table "backend") "Backend failed to start within timeout" = None
  ∧ _retry_with_fixes 6 "Backend startup" "Backend failed to start within timeout"
      "backend" _start_backend 5 (fresh healthy_env) =
    _retry_with_fixes 6 "Backend startup" "Backend failed to start within timeout"
      "backend" _start_frontend 5 (fresh healthy_env)
  ∧ _retry_with_fixes 5 "Backend startup" "Backend failed to start within timeout"
      "backend" _start_backend 5 (fresh healthy_env) = None
  ∧ exists prints,
      _retry_with_fixes 6 "Backend startup" "Backend failed to start within timeout"
        "backend" _start_backend 5 (fresh healthy_env) =
        Some (Returned (false, failure_message "backend" 5
                                 "Backend failed to start within timeout"),
              (with_ledger (init "/srv/app"), log_all prints (world_of healthy_env)))
      ∧ forallb is_print prints = true
      ∧ length prints = 15%nat.
Proof.
  assert (H : first_match (signature_table "backend")
                "Backend failed to start within timeout" = None) by reflexivity.
  split; [exact H|].
  pose proof (unclassified_error_uses_up_attempts_without_retrying
                "Backend startup" "backend" "Backend failed to start within timeout"
                _start_backend _start_frontend 5 6 (init "/srv/app") (world_of healthy_env) H)
    as (Hindep & _ & Hlong).
  pose proof (unclassified_error_uses_up_attempts_without_retrying
                "Backend startup" "backend" "Backend failed to start within timeout"
                _start_backend _start_frontend 5 5 (init "/srv/app") (world_of healthy_env) H)
    as (_ & Hshort & _).
  split; [exact Hindep|]. split; [apply Hshort; cbn; lia|].
  apply Hlong. cbn. lia.
Defined.

(** ** The ledger and the reach of a fix attempt *)

(** X2. The fix ledger is append-only. A fix attempt for one of the three
    components leaves [_fix_attempts] as it was (created empty when the
    attribute did not exist), with the description it returns appended to the
    list of its component exactly when it reports success; for any other
    component the state is untouched. *)
Theorem fix_ledger_grows_by_the_applied_fix (error component : string) (s : State) :
  exists fixed msg s',
    _analyze_and_fix_error error component s = (Returned (fixed, msg), s')
    ∧ if known_component component
      then _fix_attempts (fst s') =
             Some (let fa := default empty_fix_attempts (_fix_attempts (fst s)) in
                   if fixed then append_fix component msg fa else fa)
      else s' = s.
Proof.
  destruct s as [d w].
  destruct (analyze_effects error component d w) as [[Hk H] | [Hk Hrun]]; rewrite Hk.
  - destruct H as (fixed & msg & evs & d' & w' & -> & _ & _ & _ & _ & _ & _ & Hledger & _).
    by exists fixed, msg, (d', w').
  - rewrite Hrun. by eexists _, _, _.
Qed.

(** X3. A fix attempt never starts, probes or stops anything: its only
    external calls are installer runs and the creation of the manifest, it
    leaves both process handles, the project directory and the environment
    oracle as they are, and it keeps each advertised url in step with its
    port. *)
Theorem fix_attempt_only_runs_installers (error component : string) (s : State) :
  let s' := snd (_analyze_and_fix_error error component s) in
  forallb is_fix_event (added s s') = true
  ∧ backend_process (fst s') = backend_process (fst s)
  ∧ frontend_process (fst s') = frontend_process (fst s)
  ∧ project_dir (fst s') = project_dir (fst s)
  ∧ env (snd s') = env (snd s)
  ∧ (url_consistent (fst s) -> url_consistent (fst s')).
Proof.
  destruct s as [d w]. cbn zeta.
  destruct (analyze_effects error component d w) as [[Hk H] | [Hk Hrun]].
  - destruct H as (fixed & msg & evs & d' & w' & -> & Htr & Hev & He & Hp & Hb & Hf & _ & Hu).
    cbn [fst snd]. by rewrite (added_of_trace _ _ _ _ _ Htr).
  - rewrite Hrun. cbn [fst snd]. by rewrite (added_of_trace d w d w []).
Qed.

(** ** What a session reports *)

(** X4. A retry session reports nothing of its own making. It returns success
    only with the message of a call of the operation that succeeded (the
    last thing it did but for one printed line); the error in its failure
    message is the one it was started with or one a failed call of the
    operation returned; and an exception leaves it only when the operation
    raised it. *)
Theorem retry_reports_only_what_the_operation_returned
    (operation component error : string) (func : M (bool * string))
    (max_attempts : Z) (fuel : nat) (s : State) (res : outcome (bool * string) * State) :
  _retry_with_fixes fuel operation error component func max_attempts s = Some res ->
  reports_the_operation operation component error func max_attempts res.
Proof.
  unfold _retry_with_fixes.
  apply (retry_loop_ind operation component func max_attempts
           (fun l _ => last_error l = error
                       ∨ exists s1 s2, func s1 = (Returned (false, last_error l), s2))).
  - intros l s0 HI _. rewrite retry_body_cases. unfold retry_body_by_cases.
    destruct (bool_decide (last_error l ∈ errors_seen l)); [exact HI|].
    destruct (_analyze_and_fix_error _ _ _) as [[[[] fm]|e] s1] eqn:Ha.
    + destruct (func _) as [[[[] m]|e] s2] eqn:Hf.
      * cbn. by eexists _, _.
      * cbn. right. by eexists _, _.
      * cbn. by eexists.
    + exact HI.
    + destruct s0 as [d0 w0].
      destruct (analyze_dispatch (last_error l) component
                  (printed ("Error: " +:+ last_error l)
                     (printed (attempt_banner component max_attempts l) (d0, w0))))
        as [(f & m & evs & Hres & _) | [_ Hrun]].
      * rewrite Ha in Hres. discriminate Hres.
      * rewrite Ha in Hrun. discriminate Hrun.
  - intros l s0 HI _. cbn. by exists (last_error l).
  - by left.
Qed.

Lemma retry_reports_the_operation_witness :
  exists res,
    _retry_with_fixes 1 "Frontend startup" eaddrinuse "frontend" _start_frontend 5
      (fresh port_3001_env) = Some res
    ∧ fst res = Returned (true, "Frontend started successfully")
    ∧ reports_the_operation "Frontend startup" "frontend" eaddrinuse _start_frontend 5 res.
Proof.
  assert (H : exists res,
    _retry_with_fixes 1 "Frontend startup" eaddrinuse "frontend" _start_frontend 5
      (fresh port_3001_env) = Some res
    ∧ fst res = Returned (true, "Frontend started successfully")).
  { eexists. split; [vm_compute; reflexivity | reflexivity]. }
  destruct H as (res & Hrun & Hres). exists res. split; [exact Hrun|]. split; [exact Hres|].
  exact (retry_reports_only_what_the_operation_returned _ _ _ _ _ _ _ _ Hrun).
Defined.

(** ** Sessions that do end *)

Lemma analyze_keeps_env error component s :
  exists r, fst (_analyze_and_fix_error error component s) = Returned r
  ∧ env (snd (snd (_analyze_and_fix_error error component s))) = env (snd s).
Proof.
  destruct s as [d w].
  destruct (analyze_effects error component d w) as [[_ H] | [_ ->]].
  - destruct H as (fixed & msg & evs & d' & w' & -> & _ & _ & He & _). by eexists.
  - by eexists.
Qed.

Lemma size_difference_grows_seen (E S : gset string) x :
  x ∈ E -> x ∉ S -> (size (E ∖ ({[x]} ∪ S)) < size (E ∖ S))%nat.
Proof. intros HE HS. apply subset_size. set_solver. Qed.

Lemma size_difference_mono (E S : gset string) x :
  (size (E ∖ ({[x]} ∪ S)) <= size (E ∖ S))%nat.
Proof. apply subseteq_size. set_solver. Qed.

Lemma retry_loop_terminates operation component (func : M (bool * string)) max_attempts
    (e : Environment) (E : gset string) :
  (forall s1, env (snd s1) = e ->
     env (snd (snd (func s1))) = e
     ∧ forall m, fst (func s1) = Returned (false, m) -> m ∈ E) ->
  forall fuel l s,
    env (snd s) = e -> last_error l ∈ E ->
    (Z.to_nat (max_attempts - attempt l + 1) + size (E ∖ errors_seen l) < fuel)%nat ->
    exists res, retry_loop fuel operation component func max_attempts l s = Some res.
Proof.
  intros Hfunc. induction fuel as [|fuel IH]; intros l s Henv Hlast Hfuel; [lia|].
  cbn [retry_loop]. destruct (attempt l <=? max_attempts) eqn:Hle; [|by eexists].
  rewrite retry_body_cases. unfold retry_body_by_cases.
  destruct (bool_decide (last_error l ∈ errors_seen l)) eqn:Hdup.
  { apply IH; cbn [bump attempt last_error errors_seen printed fst snd log env];
      [done | done | lia]. }
  apply bool_decide_eq_false in Hdup.
  set (s0 := printed ("Error: " +:+ last_error l)
               (printed (attempt_banner component max_attempts l) s)).
  assert (Hs0 : env (snd s0) = e) by done.
  destruct (analyze_keeps_env (last_error l) component s0) as (r & Hr & He).
  destruct (_analyze_and_fix_error (last_error l) component s0) as [o s1].
  cbn [fst snd] in Hr, He. subst o. rewrite Hs0 in He. destruct r as [[] fm].
  - set (s1' := printed ("Fix applied: " +:+ fm) s1).
    destruct (Hfunc s1' He) as [He2 Hmsg].
    destruct (func s1') as [[[[] m]|ex] s2]; [by eexists | | by eexists].
    apply IH; cbn [remember_error attempt last_error errors_seen fst snd] in *.
    + exact He2.
    + by apply Hmsg.
    + pose proof (size_difference_grows_seen E (errors_seen l) (last_error l) Hlast Hdup). lia.
  - apply IH; cbn [remember_error attempt last_error errors_seen printed fst snd log env].
    + exact He.
    + exact Hlast.
    + pose proof (size_difference_mono E (errors_seen l) (last_error l)). lia.
Qed.

(** X5. A retry session ends whenever the operation has only finitely many
    failure messages. If, in the environment of the session, every failed
    call of the operation returns a message of the finite set [E], and the
    session starts from an error of [E], then it returns within
    [max_attempts + size E] iterations: each iteration that does not return
    either increments [attempt] or adds an error of [E] to [errors_seen]. *)
Theorem retry_terminates_when_failures_are_finitely_many
    (operation component error : string) (func : M (bool * string))
    (max_attempts : Z) (E : gset string) (fuel : nat) (s : State) :
  error ∈ E ->
  (forall s1, env (snd s1) = env (snd s) ->
     env (snd (snd (func s1))) = env (snd s)
     ∧ forall m, fst (func s1) = Returned (false, m) -> m ∈ E) ->
  (Z.to_nat max_attempts + size E < fuel)%nat ->
  exists res,
    _retry_with_fixes fuel operation error component func max_attempts s = Some res.
Proof.
  intros Herr Hfunc Hfuel. unfold _retry_with_fixes.
  apply (retry_loop_terminates operation component func max_attempts (env (snd s)) E Hfunc);
    cbn [attempt last_error errors_seen]; [done | done |].
  assert (Hsz : (size (E ∖ (∅ : gset string)) <= size E)%nat)
    by (apply subseteq_size; set_solver).
  lia.
Qed.

(** ** Installing the dependencies *)

Lemma install_dependencies_cases s : _install_dependencies s = install_by_cases s.
Proof.
  destruct s as [d w].
  unfold _install_dependencies, install_by_cases, install_outcome, try_except, only, bind,
    self, world, path_exists, subprocess_run, ret.
  cbn -[os_path_join].
  repeat match goal with
         | |- context [os_path_exists ?a ?b ?c] =>
             destruct (os_path_exists a b c) eqn:?; cbn -[os_path_join]
         | |- context [subprocess_run_reply ?a ?b ?c ?d] =>
             destruct (subprocess_run_reply a b c d) eqn:?; cbn -[os_path_join]
         | |- context [bool_decide ?P] => destruct (bool_decide P)
         end; first [reflexivity | congruence].
Qed.

Lemma install_failures_in_broken_npm_env s1 :
  env (snd s1) = broken_npm_env ->
  env (snd (snd (_install_dependencies s1))) = broken_npm_env
  ∧ forall m, fst (_install_dependencies s1) = Returned (false, m) ->
      m ∈ ({[ install_failure 1 ]} : gset string).
Proof.
  destruct s1 as [d [e oe t]]. cbn [snd env]. intros ->.
  rewrite install_dependencies_cases. unfold install_by_cases.
  cbn -[os_path_join npm_exit_status].
  repeat match goal with
         | |- context [String.eqb ?a ?b] => destruct (String.eqb a b)
         end;
    unfold install_outcome; cbn -[os_path_join npm_exit_status].
  all: split; [reflexivity|].
  all: intros m Hm.
  all: try rewrite bool_decide_eq_true_2 in Hm by reflexivity.
  all: simplify_eq.
  all: apply elem_of_singleton; reflexivity.
Qed.

Lemma retry_terminates_witness :
  (install_failure 1 ∈ ({[ install_failure 1 ]} : gset string)
   ∧ (forall s1, env (snd s1) = env (snd (fresh broken_npm_env)) ->
        env (snd (snd (_install_dependencies s1))) = env (snd (fresh broken_npm_env))
        ∧ forall m, fst (_install_dependencies s1) = Returned (false, m) ->
            m ∈ ({[ install_failure 1 ]} : gset string))
   ∧ (Z.to_nat 5 + size ({[ install_failure 1 ]} : gset string) < 7)%nat)
  ∧ exists res,
      _retry_with_fixes 7 "Dependency installation" (install_failure 1) "dependencies"
        _install_dependencies 5 (fresh broken_npm_env) = Some res.
Proof.
  assert (H1 : install_failure 1 ∈ ({[ install_failure 1 ]} : gset string))
    by (by apply elem_of_singleton).
  assert (H2 : forall s1, env (snd s1) = env (snd (fresh broken_npm_env)) ->
            env (snd (snd (_install_dependencies s1))) = env (snd (fresh broken_npm_env))
            ∧ forall m, fst (_install_dependencies s1) = Returned (false, m) ->
                m ∈ ({[ install_failure 1 ]} : gset string))
    by exact install_failures_in_broken_npm_env.
  assert (H3 : (Z.to_nat 5 + size ({[ install_failure 1 ]} : gset string) < 7)%nat).
  { rewrite size_singleton. lia. }
  split; [exact (conj H1 (conj H2 H3))|].
  exact (retry_terminates_when_failures_are_finitely_many
           "Dependency installation" "dependencies" (install_failure 1)
           _install_dependencies 5 {[ install_failure 1 ]} 7 (fresh broken_npm_env) H1 H2 H3).
Defined.


Ltac added_by_trace :=
  match goal with
  | |- context [added (?d, ?w) (?d', ?w')] =>
      let t := eval cbn [trace log set_environ] in (trace w') in
      let l := events_over t (trace w) (@nil event) in
      rewrite (added_of_trace d w d' w' l) by reflexivity
  end.

(** X6. [_install_dependencies] stops at the first installer that fails. It
    never changes the instance. Either no installer run raised and it returns
    [(True, "Dependencies installed successfully")], or the last external call
    it made is the installer run that raised, nothing before it raised, and
    the result is the failure tuple with the text of a [CalledProcessError],
    or the exception itself when it is of any other class. *)
Theorem install_stops_at_first_failed_installer (s : State) :
  let res := _install_dependencies s in
  let evs := added s (snd res) in
  fst (snd res) = fst s
  ∧ ((fst res = Returned (true, "Dependencies installed successfully")
      ∧ Forall (fun ev => raised_by ev = None) evs)
     ∨ (exists before ev e,
          evs = before ++ [ev]
          ∧ raised_by ev = Some e
          ∧ Forall (fun ev' => raised_by ev' = None) before
          ∧ fst res = install_outcome e)).
Proof.
  destruct s as [d w]. cbn zeta. rewrite install_dependencies_cases.
  unfold install_by_cases. cbn [fst snd].
  repeat match goal with
         | |- context [os_path_exists ?a ?b ?c] =>
             destruct (os_path_exists a b c) eqn:?
         | |- context [subprocess_run_reply ?a ?b ?c ?d] =>
             destruct (subprocess_run_reply a b c d) eqn:?
         end;
    cbn [fst snd]; try congruence; (split; [reflexivity|]); added_by_trace.
  all: first
    [ left; split; [reflexivity | by repeat constructor]
    | right; eexists [_], _, _;
      split; [reflexivity|]; split; [reflexivity|];
      split; [by repeat constructor | reflexivity]
    | right; eexists [_; _], _, _;
      split; [reflexivity|]; split; [reflexivity|];
      split; [by repeat constructor | reflexivity]
    | right; eexists [_; _; _], _, _;
      split; [reflexivity|]; split; [reflexivity|];
      split; [by repeat constructor | reflexivity] ].
Qed.

(** ** The module name of a [ModuleNotFoundError] *)

Lemma py_split_no_sep sep s : has_char sep s = false -> py_split sep s = [s].
Proof.
  induction s as [|c t IH]; cbn; [done|].
  intros [Hc Ht]%orb_false_iff. rewrite Hc, (IH Ht). done.
Qed.

Lemma py_split_nonempty sep s : py_split sep s <> [].
Proof.
  destruct s as [|c t]; cbn; [done|].
  destruct (Ascii.eqb c sep); [done|]. by destruct (py_split sep t).
Qed.

Lemma py_split_sep sep a t :
  has_char sep a = false ->
  py_split sep (a +:+ String sep t) = a :: py_split sep t.
Proof.
  induction a as [|c a IH].
  - intros _. change (py_split sep (String sep t) = "" :: py_split sep t).
    cbn. by rewrite Ascii.eqb_refl.
  - cbn [has_char]. intros [Hc Ha]%orb_false_iff.
    change (String c a +:+ String sep t) with (String c (a +:+ String sep t)).
    cbn [py_split]. rewrite Hc, (IH Ha). done.
Qed.

Lemma py_split_second sep a m tail :
  has_char sep a = false -> has_char sep m = false ->
  tail = "" ∨ (exists rest, tail = String sep rest) ->
  py_split sep (a +:+ String sep (m +:+ tail)) !! 1%nat = Some m.
Proof.
  intros Ha Hm Htail. rewrite (py_split_sep _ _ _ Ha). cbn [lookup list_lookup].
  destruct Htail as [->|[rest ->]].
  - assert (m +:+ "" = m) as -> by (clear; induction m as [|c m IH]; [done|];
      change (String c m +:+ "") with (String c (m +:+ "")); by rewrite IH).
    by rewrite (py_split_no_sep _ _ Hm).
  - by rewrite (py_split_sep _ _ _ Hm).
Qed.

(** X7. The module installed for a [ModuleNotFoundError] is the text between
    the first two single quotes of the error (up to the end of the error when
    there is one quote only): on such an error [_fix_backend_error] makes
    exactly one external call, [pip install] of that text in the backend
    directory, and reports the fix as applied iff that call did not raise. *)
Theorem module_not_found_installs_the_quoted_name
    (a m tail : string) (d : AppDemonstrator) (w : World) :
  has_char "'" a = false -> has_char "'" m = false ->
  tail = "" ∨ (exists rest, tail = String "'" rest) ->
  let error := a +:+ String "'" (m +:+ tail) in
  py_in "ModuleNotFoundError" error = true ->
  let cmd := [sys_executable (env w); "-m"; "pip"; "install"; m] in
  let cwd := Some (os_path_join (project_dir d) "backend") in
  let reply := subprocess_run_reply (env w) (trace w) cmd cwd in
  let res := _fix_backend_error error (d, w) in
  added (d, w) (snd res) = [EvRun cmd cwd reply]
  ∧ fst res = Returned (match reply with
                        | None => (true, "Installed missing module: " +:+ m)
                        | Some e => (false, "Backend fix failed: " +:+ exc_str e)
                        end).
Proof.
  intros Ha Hm Htail error Hin cmd cwd reply res.
  pose proof (py_split_second _ _ _ _ Ha Hm Htail) as Hsplit. fold error in Hsplit.
  subst res reply cwd cmd.
  unfold _fix_backend_error, ensure_fix_attempts, conclude_fix, record_fix,
    try_except, bind, self, world, update_self, subprocess_run, list_index, ret, raise.
  cbn -[py_in py_split os_path_join]. rewrite Hin.
  cbn -[py_in py_split os_path_join]. rewrite Hsplit.
  cbn -[py_in py_split os_path_join].
  match goal with
  | |- context [subprocess_run_reply ?e ?t ?c ?cw] =>
      destruct (subprocess_run_reply e t c cw) as [ex|]
  end; cbn -[os_path_join]; (split; [by apply added_of_trace|reflexivity]).
Qed.

Lemma module_not_found_installs_the_quoted_name_witness :
  let error := "ModuleNotFoundError: No module named 'flask_cors'" in
  fst (_fix_backend_error error (fresh quiet_env)) =
    Returned (true, "Installed missing module: flask_cors")
  ∧ added (fresh quiet_env)
      (snd (_fix_backend_error error (fresh quiet_env))) =
      [EvRun ["/usr/bin/python3"; "-m"; "pip"; "install"; "flask_cors"]
             (Some "/srv/app/backend") None].
Proof.
  cbn zeta.
  pose proof (module_not_found_installs_the_quoted_name
                "ModuleNotFoundError: No module named " "flask_cors" "'"
                (init "/srv/app") (world_of quiet_env) eq_refl eq_refl
                (or_intror (ex_intro _ "" eq_refl)) eq_refl) as [Hadded Hres].
  split; [exact Hres | exact Hadded].
Defined.

(** X8. A [ModuleNotFoundError] message without a single quote is not fixed:
    [error.split("'")[1]] raises [IndexError], which the fixer reports as a
    failed fix; no command is run and only the empty fix ledger is created. *)
Theorem module_not_found_without_quote_is_a_failed_fix
    (error : string) (d : AppDemonstrator) (w : World) :
  has_char "'" error = false ->
  py_in "ModuleNotFoundError" error = true ->
  _fix_backend_error error (d, w) =
    (Returned (false, "Backend fix failed: list index out of range"), (with_ledger d, w)).
Proof.
  intros Hq Hin.
  unfold _fix_backend_error, ensure_fix_attempts, conclude_fix, record_fix,
    try_except, bind, self, world, update_self, subprocess_run, list_index, ret, raise.
  cbn -[py_in py_split]. rewrite Hin. cbn -[py_in py_split].
  rewrite (py_split_no_sep _ _ Hq). cbn. unfold with_ledger.
  by destruct (_fix_attempts d).
Qed.

Lemma module_not_found_without_quote_witness :
  _fix_backend_error "ModuleNotFoundError: flask" (fresh quiet_env) =
    (Returned (false, "Backend fix failed: list index out of range"),
     (with_ledger (init "/srv/app"), world_of quiet_env)).
Proof.
  apply (module_not_found_without_quote_is_a_failed_fix
           "ModuleNotFoundError: flask" (init "/srv/app") (world_of quiet_env));
    reflexivity.
Defined.

(** ** Relations kept by a whole run *)

Lemma analyze_returns error component s :
  exists fixed msg, fst (_analyze_and_fix_error error component s) = Returned (fixed, msg).
Proof.
  destruct s as [d w].
  destruct (analyze_effects error component d w) as [[_ H] | [_ ->]].
  - destruct H as (fixed & msg & evs & d' & w' & -> & _). by eexists _, _.
  - by eexists _, _.
Qed.

Section StageRelation.

Variable R : State -> State -> Prop.
Hypothesis R_refl : forall s, R s s.
Hypothesis R_trans : forall s1 s2 s3, R s1 s2 -> R s2 s3 -> R s1 s3.
Hypothesis R_print : forall text s, R s (printed text s).
Hypothesis R_fix :
  forall error component s, R s (snd (_analyze_and_fix_error error component s)).

Variable func : M (bool * string).
Hypothesis R_func : forall s, R s (snd (func s)).

Lemma retry_loop_rel fuel operation component max_attempts l s res :
  retry_loop fuel operation component func max_attempts l s = Some res ->
  R s (snd res) ∧ succeeded_call R operation func s res.
Proof.
  apply (retry_loop_ind operation component func max_attempts
           (fun _ s1 => R s s1)
           (fun res => R s (snd res) ∧ succeeded_call R operation func s res)).
  - intros l0 s0 HI _. rewrite retry_body_cases. unfold retry_body_by_cases.
    set (s0' := printed _ (printed _ s0)).
    assert (R s s0') as H0.
    { eapply R_trans; [exact HI|]. eapply R_trans; apply R_print. }
    destruct (bool_decide (last_error l0 ∈ errors_seen l0)).
    { eapply R_trans; [exact H0 | apply R_print]. }
    pose proof (R_fix (last_error l0) component s0') as Hfix.
    destruct (analyze_returns (last_error l0) component s0') as (fixed & fm & Hret).
    destruct (_analyze_and_fix_error _ _ _) as [o s1]. cbn [fst snd] in Hfix, Hret.
    subst o. assert (R s s1) as H1 by (eapply R_trans; eassumption).
    destruct fixed.
    + set (s1' := printed _ s1).
      assert (R s s1') as H1' by (eapply R_trans; [exact H1 | apply R_print]).
      pose proof (R_func s1') as Hf.
      destruct (func s1') as [[[[] m]|e] s2] eqn:Hcall; cbn [fst snd] in Hf |- *.
      * split.
        -- eapply R_trans; [|apply R_print]. eapply R_trans; eassumption.
        -- eexists s1', s2. split; [exact H1'|]. split; [exact Hcall|]. by right.
      * eapply R_trans; eassumption.
      * split; [eapply R_trans; eassumption | exact I].
    + eapply R_trans; [exact H1 | apply R_print].
  - intros l0 s0 HI _. split; [exact HI | exact I].
  - apply R_refl.
Qed.

Lemma stage_rel fuel operation component s res :
  stage fuel operation component func s = Some res ->
  R s (snd res) ∧ succeeded_call R operation func s res.
Proof.
  unfold stage, bindf, lift, retf. pose proof (R_func s) as Hf.
  destruct (func s) as [[[[] m]|e] s1] eqn:Hcall; cbn [fst snd] in Hf |- *.
  - intros [= <-]. split; [exact Hf|]. eexists s, s1.
    split; [apply R_refl|]. split; [exact Hcall|]. by left.
  - intros Hloop. apply retry_loop_rel in Hloop as [HR Hs]. split.
    + eapply R_trans; eassumption.
    + destruct res as [[[[] m']|e'] s']; try exact I.
      destruct Hs as (sa & sb & Ha & Hb & Hc). exists sa, sb.
      split; [eapply R_trans; eassumption|]. by split.
  - intros [= <-]. split; [exact Hf | exact I].
Qed.

End StageRelation.

(** The [try] block of [demonstrate], stage by stage. *)
Lemma demonstrate_try_stages fuel s res :
  demonstrate_try fuel s = Some res ->
  exists r1,
    stage fuel "Dependency installation" "dependencies" _install_dependencies
      (printed (nl +:+ "[1/4] Installing dependencies...")
         (printed (nl +:+ "Starting Web Application Demonstration...") s)) = Some r1
    ∧ after_stage r1 res (fun s1 =>
        exists r2,
          stage fuel "Backend startup" "backend" _start_backend
            (printed (nl +:+ "[2/4] Starting backend server...") s1) = Some r2
          ∧ after_stage r2 res (fun s2 =>
              exists r3,
                stage fuel "Frontend startup" "frontend" _start_frontend
                  (printed (nl +:+ "[3/4] Starting frontend server...") s2) = Some r3
                ∧ after_stage r3 res (fun s3 => verification_onwards s3 = Some res))).
Proof.
  unfold demonstrate_try, backend_onwards, frontend_onwards.
  unfold bindf at 1 2 3. unfold lift at 1 2. unfold print at 1 2.
  unfold update_world. cbn [fst snd].
  change (fst s, log (EvPrint ?a) (log (EvPrint ?b) (snd s)))
    with (printed a (printed b s)).
  destruct (stage fuel "Dependency installation" _ _ _) as [[[[[] m1]|e1] s1]|] eqn:H1;
    [| | |discriminate]; cbn [negb fst snd]; unfold retf;
    [|intros [= <-]; by eexists|intros [= <-]; by eexists].
  intros H. eexists. split; [reflexivity|]. cbn [after_stage].
  revert H. unfold bindf at 1 2. unfold lift at 1. unfold print at 1.
  unfold update_world. cbn [fst snd].
  change (fst s1, log (EvPrint ?a) (snd s1)) with (printed a s1).
  destruct (stage fuel "Backend startup" _ _ _) as [[[[[] m2]|e2] s2]|] eqn:H2;
    [| | |discriminate]; cbn [negb fst snd];
    [|intros [= <-]; by eexists|intros [= <-]; by eexists].
  intros H. eexists. split; [reflexivity|]. cbn [after_stage].
  revert H. unfold bindf at 1 2. unfold lift at 1. unfold print at 1.
  unfold update_world. cbn [fst snd].
  change (fst s2, log (EvPrint ?a) (snd s2)) with (printed a s2).
  destruct (stage fuel "Frontend startup" _ _ _) as [[[[[] m3]|e3] s3]|] eqn:H3;
    [| | |discriminate]; cbn [negb fst snd];
    [|intros [= <-]; by eexists|intros [= <-]; by eexists].
  intros H. eexists. split; [reflexivity|]. exact H.
Qed.
(** ** The events of each part of a run *)

Lemma start_backend_events d w :
  let cmd := [sys_executable (env w); "-m"; "flask"; "run"] in
  let cwd := os_path_join (project_dir d) "backend" in
  let penv := <["FLASK_ENV" := "development"]> (<["FLASK_APP" := "app"]> (os_environ w)) in
  let reply := subprocess_Popen_reply (env w) (trace w) cmd cwd penv in
  exists r replies,
    _start_backend (d, w) =
      (r, (match reply with
           | inr pid => set_backend_process (Some pid) d
           | inl _ => d
           end,
           log_all (concat (map (probe_events (backend_url d +:+ "/health")) replies))
             (log (EvPopen cmd cwd penv reply) w)))
    ∧ start_spec 30 "Backend started successfully"
        "Backend failed to start within timeout" "Failed to start backend: " replies r
    ∧ (forall e, reply = inl e ->
         r = Returned (false, "Failed to start backend: " +:+ exc_str e) ∧ replies = []).
Proof.
  cbn zeta. unfold _start_backend.
  remember (for_range 30 backend_probe _) as loop eqn:Hloop.
  unfold try_except, bind, self, world, subprocess_Popen, update_self.
  cbn -[os_path_join].
  match goal with |- context [subprocess_Popen_reply ?e ?t ?c ?cw ?pv] =>
    set (cmd := c); set (cwd := cw); set (penv := pv) end.
  destruct (subprocess_Popen_reply (env w) (trace w) cmd cwd penv) as [e0|pid] eqn:Hp.
  - eexists _, []. cbn -[os_path_join].
    split; [reflexivity|]. split; [left; by exists e0|].
    by intros e [= <-].
  - destruct (for_range_probe backend_probe (true, "Backend started successfully")
                (fun d => backend_url d +:+ "/health") backend_probe_spec 30
                (ret (false, "Backend failed to start within timeout"))
                (set_backend_process (Some pid) d)
                (log (EvPopen cmd cwd penv (inr pid)) w)) as [replies Hr].
    cbn zeta in Hr. rewrite <- Hloop in Hr.
    cbn [fst snd]. destruct Hr as [[Hrun Hpre] | [Hrun [Hlen Hall]]]; rewrite Hrun;
      cbn -[os_path_join].
    + eexists _, replies. split; [reflexivity|]. split; [right; left; done | done].
    + eexists _, replies. split; [reflexivity|]. split; [right; right; done | done].
Qed.

Lemma start_frontend_events d w :
  let cmd := ["npm"; "start"] in
  let cwd := os_path_join (project_dir d) "frontend" in
  let penv := os_environ w ∪ {["PORT" := py_str (frontend_port d)]} in
  let reply := subprocess_Popen_reply (env w) (trace w) cmd cwd penv in
  exists r replies,
    _start_frontend (d, w) =
      (r, (match reply with
           | inr pid => set_frontend_process (Some pid) d
           | inl _ => d
           end,
           log_all (concat (map (probe_events (frontend_url d)) replies))
             (log (EvPopen cmd cwd penv reply) w)))
    ∧ start_spec 60 "Frontend started successfully"
        "Frontend failed to start within timeout" "Failed to start frontend: " replies r
    ∧ (forall e, reply = inl e ->
         r = Returned (false, "Failed to start frontend: " +:+ exc_str e) ∧ replies = []).
Proof.
  cbn zeta. unfold _start_frontend.
  remember (for_range 60 frontend_probe _) as loop eqn:Hloop.
  unfold try_except, bind, self, world, subprocess_Popen, update_self.
  cbn -[os_path_join].
  match goal with |- context [subprocess_Popen_reply ?e ?t ?c ?cw ?pv] =>
    set (cmd := c); set (cwd := cw); set (penv := pv) end.
  destruct (subprocess_Popen_reply (env w) (trace w) cmd cwd penv) as [e0|pid] eqn:Hp.
  - eexists _, []. cbn -[os_path_join].
    split; [reflexivity|]. split; [left; by exists e0|].
    by intros e [= <-].
  - destruct (for_range_probe frontend_probe (true, "Frontend started successfully")
                frontend_url frontend_probe_spec 60
                (ret (false, "Frontend failed to start within timeout"))
                (set_frontend_process (Some pid) d)
                (log (EvPopen cmd cwd penv (inr pid)) w)) as [replies Hr].
    cbn zeta in Hr. rewrite <- Hloop in Hr.
    cbn [fst snd]. destruct Hr as [[Hrun Hpre] | [Hrun [Hlen Hall]]]; rewrite Hrun;
      cbn -[os_path_join].
    + eexists _, replies. split; [reflexivity|]. split; [right; left; done | done].
    + eexists _, replies. split; [reflexivity|]. split; [right; right; done | done].
Qed.

Lemma verification_onwards_spec d w :
  exists results replies,
    let report := _generate_demo_report d results in
    let content := report +:+ fix_summary d in
    exists written,
      verification_onwards (d, w) =
        Some (match written with
              | None => Returned (true, "Demonstration completed successfully", Some report)
              | Some e => Raised e
              end,
              (d, log_all (verification_events d replies content written) w))
      ∧ length replies = length endpoints.
Proof.
  unfold verification_onwards. rewrite bindf_print.
  unfold _verify_api_endpoints.
  destruct (verify_loop_spec endpoints [] d
              (snd (printed (nl +:+ "[4/4] Verifying API endpoints...") (d, w))))
    as (xs & replies & Hrun & Hlen & _).
  exists xs, replies. cbn zeta.
  unfold bindf at 1. unfold lift at 1. unfold printed in Hrun |- *.
  cbn [fst snd] in Hrun |- *. rewrite Hrun. cbn [app].
  unfold bindf, lift, self, write_file, webbrowser_open, update_world, retf.
  cbn [fst snd].
  match goal with |- context [write_file_reply ?e ?t ?p ?c] =>
    exists (write_file_reply e t p c); destruct (write_file_reply e t p c) as [ex|] end.
  - split; [|exact Hlen]. unfold verification_events.
    rewrite log_all_cons, log_all_app. reflexivity.
  - split; [|exact Hlen]. unfold verification_events.
    rewrite log_all_cons, log_all_app. reflexivity.
Qed.

Lemma for_each_terminate_handles pids d w :
  exists o evs,
    for_each pids psutil_terminate (d, w) = (o, (d, log_all evs w))
    ∧ forallb (cleanup_event_of d) evs = true.
Proof.
  revert w. induction pids as [|pid pids IH]; intros w.
  - by exists (Returned tt), [].
  - cbn [for_each]. unfold bind, psutil_terminate at 1. cbn [fst snd].
    destruct (psutil_terminate_reply (env w) (trace w) pid) as [e|] eqn:E.
    + by exists (Raised e), [EvPsTerminate pid (Some e)].
    + destruct (IH (log (EvPsTerminate pid None) w)) as (o & evs & Hrun & Hall).
      exists o, (EvPsTerminate pid None :: evs). by rewrite Hrun.
Qed.

Lemma terminate_tree_handles pid d w :
  backend_process d = Some pid ∨ frontend_process d = Some pid ->
  exists o evs,
    terminate_tree pid (d, w) = (o, (d, log_all evs w))
    ∧ forallb (cleanup_event_of d) evs = true.
Proof.
  intros Hpid. apply (bool_decide_eq_true_2 _) in Hpid.
  unfold terminate_tree, bind, psutil_children. cbn [fst snd].
  destruct (psutil_children_reply (env w) (trace w) pid) as [e|children] eqn:E.
  - exists (Raised e), [EvChildren pid (inl e)]. cbn. by rewrite Hpid.
  - destruct (for_each_terminate_handles children d (log (EvChildren pid (inr children)) w))
      as (o & evs & Hrun & Hall).
    rewrite Hrun. destruct o as [[]|e].
    + exists (Returned tt), (EvChildren pid (inr children) :: evs ++ [EvPopenTerminate pid]).
      split.
      * unfold popen_terminate, update_world. cbn [fst snd].
        by rewrite log_all_cons, log_all_app.
      * cbn. rewrite forallb_app, Hall. cbn. by rewrite Hpid.
    + exists (Raised e), (EvChildren pid (inr children) :: evs). cbn. by rewrite Hpid, Hall.
Qed.

Lemma cleanup_handles d w :
  exists evs,
    _cleanup (d, w) = (Returned tt, (d, log_all evs w))
    ∧ forallb (cleanup_event_of d) evs = true.
Proof.
  assert (Hopt : forall p w0, p = backend_process d ∨ p = frontend_process d -> exists o evs,
    match p with Some pid => terminate_tree pid | None => ret tt end (d, w0) =
      (o, (d, log_all evs w0)) ∧ forallb (cleanup_event_of d) evs = true).
  { intros [pid|] w0 Hp; [|by exists (Returned tt), []].
    apply terminate_tree_handles. destruct Hp as [Hp|Hp]; [left|right]; by rewrite <- Hp. }
  unfold _cleanup, try_except, bind, self. cbn [fst snd].
  destruct (Hopt (backend_process d) w (or_introl eq_refl)) as (o1 & evs1 & -> & Hall1).
  destruct o1 as [[]|e1].
  - destruct (Hopt (frontend_process d) (log_all evs1 w) (or_intror eq_refl))
      as (o2 & evs2 & -> & Hall2).
    destruct o2 as [[]|e2].
    + exists (evs1 ++ evs2). rewrite log_all_app, forallb_app, Hall1, Hall2. done.
    + exists (evs1 ++ evs2 ++ [EvLogError ("Error during cleanup: " +:+ exc_str e2)]).
      rewrite !log_all_app, !forallb_app, Hall1, Hall2. done.
  - exists (evs1 ++ [EvLogError ("Error during cleanup: " +:+ exc_str e1)]).
    rewrite !log_all_app, !forallb_app, Hall1. done.
Qed.

(** *** Traces that grow by events of one kind *)

Lemma extends_by_refl P s : extends_by P s s.
Proof. by exists []. Qed.

Lemma extends_by_trans P s1 s2 s3 :
  extends_by P s1 s2 -> extends_by P s2 s3 -> extends_by P s1 s3.
Proof.
  intros (evs1 & H1 & Hall1) (evs2 & H2 & Hall2). exists (evs1 ++ evs2). split.
  - by rewrite H2, H1, rev_app_distr, app_assoc.
  - by rewrite forallb_app, Hall1, Hall2.
Qed.

Lemma extends_by_mono (P Q : event -> bool) s s' :
  (forall e, P e = true -> Q e = true) -> extends_by P s s' -> extends_by Q s s'.
Proof.
  intros HPQ (evs & H & Hall). exists evs. split; [done|].
  apply forallb_forall. intros e He. apply HPQ.
  rewrite forallb_forall in Hall. by apply Hall.
Qed.

Lemma extends_by_log_all P d d' w evs :
  forallb P evs = true -> extends_by P (d, w) (d', log_all evs w).
Proof. intros Hall. exists evs. split; [apply trace_log_all | done]. Qed.

Lemma extends_by_print P text s :
  P (EvPrint text) = true -> extends_by P s (printed text s).
Proof. intros HP. exists [EvPrint text]. split; [done|]. cbn. by rewrite HP. Qed.

Lemma extends_by_added P s s' :
  extends_by P s s' -> forallb P (added s s') = true.
Proof.
  destruct s as [d w], s' as [d' w']. intros (evs & H & Hall).
  by rewrite (added_of_trace _ _ _ _ _ H).
Qed.

Lemma extends_by_added_app P Q s1 s2 s3 :
  extends_by P s1 s2 -> extends_by Q s2 s3 -> added s1 s3 = added s1 s2 ++ added s2 s3.
Proof.
  destruct s1 as [d1 w1], s2 as [d2 w2], s3 as [d3 w3].
  intros (evs1 & H1 & _) (evs2 & H2 & _). cbn [snd] in H1, H2.
  rewrite (added_of_trace _ _ _ _ _ H1), (added_of_trace _ _ _ _ _ H2).
  apply added_of_trace. by rewrite H2, H1, rev_app_distr, app_assoc.
Qed.

Lemma extends_by_fix P error component s :
  (forall e, is_fix_event e = true -> P e = true) ->
  extends_by P s (snd (_analyze_and_fix_error error component s)).
Proof.
  intros HP. destruct s as [d w].
  destruct (analyze_effects error component d w) as [[_ H] | [_ ->]].
  - destruct H as (fixed & msg & evs & d' & w' & -> & Htr & Hev & _).
    exists evs. split; [exact Htr|].
    apply forallb_forall. intros e He. apply HP.
    rewrite forallb_forall in Hev. by apply Hev.
  - apply extends_by_refl.
Qed.

Lemma probes_are (P : event -> bool) url replies :
  (forall u t r, P (EvGet u t r) = true) -> (forall n, P (EvSleep n) = true) ->
  forallb P (concat (map (probe_events url) replies)) = true.
Proof.
  intros Hget Hsleep. induction replies as [|[c|m] replies IH]; [done| |]; cbn.
  - by rewrite Hget, IH.
  - by rewrite Hget, Hsleep, IH.
Qed.

Lemma install_extends s :
  extends_by before_frontend s (snd (_install_dependencies s)).
Proof.
  destruct s as [d w]. rewrite install_dependencies_cases.
  unfold install_by_cases. cbn [fst snd].
  repeat match goal with
         | |- context [os_path_exists ?a ?b ?c] => destruct (os_path_exists a b c) eqn:?
         | |- context [subprocess_run_reply ?a ?b ?c ?d] =>
             destruct (subprocess_run_reply a b c d) eqn:?
         end;
    cbn [fst snd]; try congruence;
    match goal with
    | |- extends_by _ (_, ?w0) (_, ?w') =>
        let t := eval cbn [trace log] in (trace w') in
        let l := events_over t (trace w0) (@nil event) in
        exists l; split; reflexivity
    end.
Qed.

Lemma start_backend_extends s :
  extends_by before_frontend s (snd (_start_backend s)).
Proof.
  destruct s as [d w].
  destruct (start_backend_events d w) as (r & replies & -> & _). cbn [snd].
  rewrite <- log_all_cons. apply extends_by_log_all.
  cbn [forallb]. apply andb_true_iff. split.
  { unfold before_frontend. cbn. by rewrite bool_decide_eq_false_2. }
  by apply probes_are.
Qed.

Lemma start_frontend_extends s :
  extends_by is_stage_event s (snd (_start_frontend s)).
Proof.
  destruct s as [d w].
  destruct (start_frontend_events d w) as (r & replies & -> & _). cbn [snd].
  rewrite <- log_all_cons. apply extends_by_log_all.
  cbn [forallb]. apply andb_true_iff. split; [done|].
  by apply probes_are.
Qed.

Lemma before_frontend_stage e : before_frontend e = true -> is_stage_event e = true.
Proof. unfold before_frontend. by intros [? _]%andb_true_iff. Qed.

Lemma fix_event_before_frontend e : is_fix_event e = true -> before_frontend e = true.
Proof. by destruct e. Qed.

(** Each stage logs stage events only. *)
Lemma stage_extends P fuel operation component func s res :
  (forall text, P (EvPrint text) = true) ->
  (forall e, is_fix_event e = true -> P e = true) ->
  (forall s0, extends_by P s0 (snd (func s0))) ->
  stage fuel operation component func s = Some res ->
  extends_by P s (snd res) ∧ succeeded_call (extends_by P) operation func s res.
Proof.
  intros Hprint Hfix Hfunc.
  apply (stage_rel (extends_by P)).
  - apply extends_by_refl.
  - apply extends_by_trans.
  - intros text s0. by apply extends_by_print.
  - intros error comp s0. by apply extends_by_fix.
  - exact Hfunc.
Qed.

(** The events of the [try] block: stage events, followed by those of stage 4
    when the three stages succeeded. *)
Lemma demonstrate_try_phases fuel s res s' :
  demonstrate_try fuel s = Some (res, s') ->
  (extends_by is_stage_event s s' ∧ stopped_early res)
  ∨ (exists s3 results replies written,
       let report := _generate_demo_report (fst s3) results in
       let content := report +:+ fix_summary (fst s3) in
       extends_by is_stage_event s s3
       ∧ s' = (fst s3, log_all (verification_events (fst s3) replies content written) (snd s3))
       ∧ length replies = length endpoints
       ∧ res = match written with
               | None => Returned (true, "Demonstration completed successfully", Some report)
               | Some e => Raised e
               end).
Proof.
  intros Hrun. apply demonstrate_try_stages in Hrun as (r1 & H1 & Hrun).
  assert (Hp : forall text, is_stage_event (EvPrint text) = true) by done.
  assert (Hf : forall e, is_fix_event e = true -> is_stage_event e = true) by (by intros []).
  set (s0 := printed _ (printed _ s)) in H1.
  assert (extends_by is_stage_event s s0) as E0.
  { eapply extends_by_trans; by apply extends_by_print. }
  apply (stage_extends is_stage_event) in H1 as [E1 _]; [|done|done|].
  2:{ intros sx. eapply extends_by_mono; [apply before_frontend_stage | apply install_extends]. }
  destruct r1 as [[[[] m1]|e1] s1]; cbn [after_stage snd] in Hrun, E1;
    [|left; injection Hrun as -> ->; split; [by eapply extends_by_trans | left; by eexists]
     |left; injection Hrun as -> ->; split; [by eapply extends_by_trans | right; by eexists]].
  assert (extends_by is_stage_event s s1) as E01 by (by eapply extends_by_trans).
  destruct Hrun as (r2 & H2 & Hrun).
  set (s1' := printed _ s1) in H2.
  assert (extends_by is_stage_event s s1') as E1'.
  { eapply extends_by_trans; [exact E01 | by apply extends_by_print]. }
  apply (stage_extends is_stage_event) in H2 as [E2 _]; [|done|done|].
  2:{ intros sx. eapply extends_by_mono; [apply before_frontend_stage | apply start_backend_extends]. }
  destruct r2 as [[[[] m2]|e2] s2]; cbn [after_stage snd] in Hrun, E2;
    [|left; injection Hrun as -> ->; split; [by eapply extends_by_trans | left; by eexists]
     |left; injection Hrun as -> ->; split; [by eapply extends_by_trans | right; by eexists]].
  assert (extends_by is_stage_event s s2) as E02 by (by eapply extends_by_trans).
  destruct Hrun as (r3 & H3 & Hrun).
  set (s2' := printed _ s2) in H3.
  assert (extends_by is_stage_event s s2') as E2'.
  { eapply extends_by_trans; [exact E02 | by apply extends_by_print]. }
  apply (stage_extends is_stage_event) in H3 as [E3 _]; [|done|done|].
  2:{ intros sx. apply start_frontend_extends. }
  destruct r3 as [[[[] m3]|e3] s3]; cbn [after_stage snd] in Hrun, E3;
    [|left; injection Hrun as -> ->; split; [by eapply extends_by_trans | left; by eexists]
     |left; injection Hrun as -> ->; split; [by eapply extends_by_trans | right; by eexists]].
  assert (extends_by is_stage_event s s3) as E03 by (by eapply extends_by_trans).
  right. destruct s3 as [d3 w3].
  destruct (verification_onwards_spec d3 w3) as (results & replies & written & Hv & Hlen).
  cbn zeta in Hv. rewrite Hv in Hrun. injection Hrun as <- <-.
  by exists (d3, w3), results, replies, written.
Qed.

Lemma forallb_elem_of (P : event -> bool) evs e :
  forallb P evs = true -> e ∈ evs -> P e = true.
Proof.
  intros Hall He. rewrite forallb_forall in Hall. apply Hall.
  by apply list_elem_of_In.
Qed.

Lemma forallb_impl (P Q : event -> bool) evs :
  (forall e, P e = true -> Q e = true) -> forallb P evs = true -> forallb Q evs = true.
Proof.
  intros HPQ Hall. apply forallb_forall. intros e He. apply HPQ.
  rewrite forallb_forall in Hall. by apply Hall.
Qed.

Lemma requests_are (P : event -> bool) base eps replies :
  (forall u t r, P (EvGet u t r) = true) -> (forall u t r, P (EvPost u t r) = true) ->
  forallb P (zip_with (request_event base) eps replies) = true.
Proof.
  intros Hget Hpost. revert replies.
  induction eps as [|ep eps IH]; intros [|r replies]; try done.
  cbn. rewrite IH. unfold request_event.
  destruct (String.eqb (snd ep) "GET"); by rewrite ?Hget, ?Hpost.
Qed.

(** A whole run: the [try] block, then the events of [_cleanup] on the
    instance as the block left it; an exception of the block becomes the
    result [(False, "Demonstration failed: ...", None)]. *)
Lemma demonstrate_phases fuel s res s' :
  demonstrate fuel s = Some (res, s') ->
  exists res_try s_try cleanup_evs,
    demonstrate_try fuel s = Some (res_try, s_try)
    ∧ s' = (fst s_try, log_all cleanup_evs (snd s_try))
    ∧ forallb (cleanup_event_of (fst s_try)) cleanup_evs = true
    ∧ res = Returned match res_try with
                     | Returned r => r
                     | Raised e => (false, "Demonstration failed: " +:+ exc_str e, None)
                     end.
Proof.
  unfold demonstrate, try_finally_cleanup.
  destruct (demonstrate_try fuel s) as [[res_try [d1 w1]]|]; [|discriminate].
  destruct (cleanup_handles d1 w1) as (evs & -> & Hall).
  intros [= <- <-]. by exists res_try, (d1, w1), evs.
Qed.

Lemma cleanup_event_of_cleanup d e : cleanup_event_of d e = true -> is_cleanup_event e = true.
Proof. by destruct e. Qed.

(** X9. [demonstrate] never raises, and it returns a report exactly when it
    reports success: then the message is the fixed success message, the
    report is the one generated from the final instance, the report followed
    by the fix summary was written to [demo_report.md] in the project
    directory, and the browser was opened at the frontend url of the final
    instance. When it reports failure the report is [None] and no browser was
    opened. *)
Theorem demonstrate_returns_a_report_iff_it_succeeded
    (fuel : nat) (s : State) (res : outcome report_t) (s' : State) :
  demonstrate fuel s = Some (res, s') ->
  exists success message report,
    res = Returned (success, message, report)
    ∧ if success
      then message = "Demonstration completed successfully"
           ∧ exists results,
               report = Some (_generate_demo_report (fst s') results)
               ∧ EvWriteFile (os_path_join (project_dir (fst s')) "demo_report.md")
                   (_generate_demo_report (fst s') results +:+ fix_summary (fst s')) None
                 ∈ added s s'
               ∧ EvBrowser (frontend_url (fst s')) ∈ added s s'
      else report = None ∧ forall url, EvBrowser url ∉ added s s'.
Proof.
  intros Hrun. apply demonstrate_phases in Hrun
    as (res_try & s_try & cevs & Htry & -> & Hcl & ->).
  assert (Hc : extends_by is_cleanup_event s_try (fst s_try, log_all cevs (snd s_try))).
  { destruct s_try as [d1 w1]. apply extends_by_log_all.
    eapply forallb_impl; [apply cleanup_event_of_cleanup | exact Hcl]. }
  apply demonstrate_try_phases in Htry as [[Hst Hstop] | Hfull].
  - assert (forall url, EvBrowser url ∉ added s (fst s_try, log_all cevs (snd s_try))) as Hno.
    { intros url Hin. rewrite (extends_by_added_app _ _ _ _ _ Hst Hc) in Hin.
      apply elem_of_app in Hin as [Hin|Hin].
      - by apply (forallb_elem_of _ _ _ (extends_by_added _ _ _ Hst)) in Hin.
      - by apply (forallb_elem_of _ _ _ (extends_by_added _ _ _ Hc)) in Hin. }
    destruct Hstop as [[m ->] | [e ->]]; eexists false, _, None; by split.
  - destruct Hfull as (s3 & results & replies & written & Hst & -> & Hlen & ->).
    cbn zeta in *. cbn [fst snd] in *. destruct s3 as [d3 w3]. cbn [fst snd] in *.
    set (content := _generate_demo_report d3 results +:+ fix_summary d3) in *.
    assert (Hv : extends_by is_body_event (d3, w3)
                   (d3, log_all (verification_events d3 replies content written) w3)).
    { apply extends_by_log_all. unfold verification_events. cbn [forallb].
      rewrite forallb_app, requests_are by done. by destruct written. }
    assert (Hsv : extends_by is_body_event s
                    (d3, log_all (verification_events d3 replies content written) w3)).
    { eapply extends_by_trans; [|exact Hv].
      eapply extends_by_mono; [|exact Hst]. by intros []. }
    rewrite (extends_by_added_app _ _ _ _ _ Hsv Hc).
    rewrite (extends_by_added_app _ _ _ _ _ Hst Hv).
    rewrite (added_log_all d3 d3 w3).
    destruct written as [e|].
    + eexists false, _, None. split; [reflexivity|]. split; [reflexivity|].
      intros url Hin. apply elem_of_app in Hin as [Hin|Hin].
      * apply elem_of_app in Hin as [Hin|Hin].
        -- by apply (forallb_elem_of _ _ _ (extends_by_added _ _ _ Hst)) in Hin.
        -- assert (forallb (fun e => negb (is_browser e))
                     (verification_events d3 replies content (Some e)) = true) as Hnb.
           { unfold verification_events. cbn [forallb].
             rewrite forallb_app, requests_are by done. done. }
           by apply (forallb_elem_of _ _ _ Hnb) in Hin.
      * by apply (forallb_elem_of _ _ _ (extends_by_added _ _ _ Hc)) in Hin.
    + eexists true, _, _. split; [reflexivity|]. split; [reflexivity|].
      exists results. split; [reflexivity|].
      unfold verification_events. split.
      * apply elem_of_app. left. apply elem_of_app. right.
        apply elem_of_cons. right. apply elem_of_app. right. apply elem_of_cons. by left.
      * apply elem_of_app. left. apply elem_of_app. right.
        apply elem_of_cons. right. apply elem_of_app. right.
        apply elem_of_cons. right. apply elem_of_cons. by left.
Qed.

Lemma demonstrate_returns_a_report_witness :
  exists res s',
    demonstrate 1 (fresh healthy_env) = Some (res, s')
    ∧ exists message report,
        res = Returned (true, message, Some report)
        ∧ EvBrowser "http://localhost:3000" ∈ added (fresh healthy_env) s'.
Proof.
  assert (H : exists res s', demonstrate 1 (fresh healthy_env) = Some (res, s')
                             ∧ exists r, res = Returned (true, r.1, Some r.2)
                             ∧ frontend_url (fst s') = "http://localhost:3000").
  { eexists _, _. split; [vm_compute; reflexivity|].
    eexists (_, _). split; [cbn [fst snd]; reflexivity | vm_compute; reflexivity]. }
  destruct H as (res & s' & Hrun & r & Hres & Hurl). exists res, s'. split; [exact Hrun|].
  destruct (demonstrate_returns_a_report_iff_it_succeeded 1 (fresh healthy_env) res s' Hrun)
    as (success & message & report & Hshape & Hcase).
  rewrite Hres in Hshape. injection Hshape as <- <- <-.
  destruct Hcase as (_ & results & _ & _ & Hb). rewrite Hurl in Hb.
  exists r.1, r.2. split; [exact Hres | exact Hb].
Defined.




(** ** The order of the stages *)

Lemma extends_by_any P s s' : extends_by P s s' -> extends_by any_event s s'.
Proof. apply extends_by_mono. done. Qed.

Lemma start_frontend_extends_any s : extends_by any_event s (snd (_start_frontend s)).
Proof. eapply extends_by_any, start_frontend_extends. Qed.

(** The events of a successful backend start end with the answer 200. *)
Lemma start_backend_success d w message s2 :
  _start_backend (d, w) = (Returned (true, message), s2) ->
  EvGet (backend_url d +:+ "/health") None (Response 200) ∈ added (d, w) s2.
Proof.
  destruct (start_backend_events d w) as (r & replies & Hrun & Hspec & _).
  rewrite Hrun. intros [= -> <-]. rewrite <- log_all_cons, added_log_all.
  destruct Hspec as [(e & [=] & _) | [(_ & pre & -> & _) | ([=] & _)]].
  apply elem_of_cons. right. rewrite map_app, concat_app. apply elem_of_app. right.
  cbn. apply elem_of_cons. by left.
Qed.

Lemma before_frontend_not_npm e : before_frontend e = true -> not_npm_start e = true.
Proof. unfold before_frontend. by intros [_ ?]%andb_true_iff. Qed.

(** A run either never spawns the frontend, or it has made a backend start
    that succeeded before anything of the frontend. *)
Lemma run_reaches_frontend fuel s res s' :
  demonstrate fuel s = Some (res, s') ->
  extends_by not_npm_start s s'
  ∨ (exists sa sb message,
       extends_by not_npm_start s sa
       ∧ _start_backend sa = (Returned (true, message), sb)
       ∧ extends_by any_event sb s').
Proof.
  intros Hrun. apply demonstrate_phases in Hrun
    as (res_try & s_try & cevs & Htry & -> & Hcl & ->).
  assert (Hc : extends_by not_npm_start s_try (fst s_try, log_all cevs (snd s_try))).
  { destruct s_try as [d1 w1]. apply extends_by_log_all.
    eapply forallb_impl; [|exact Hcl]. by intros []. }
  apply demonstrate_try_stages in Htry as (r1 & H1 & Hrun).
  assert (Hp : forall text, not_npm_start (EvPrint text) = true) by done.
  set (s0 := printed _ (printed _ s)) in H1.
  assert (extends_by not_npm_start s s0) as E0.
  { eapply extends_by_trans; by apply extends_by_print. }
  apply (stage_extends not_npm_start) in H1 as [E1 _];
    [|done|by intros []|intros sx; eapply extends_by_mono; [apply before_frontend_not_npm|apply install_extends]].
  destruct r1 as [[[[] m1]|e1] s1]; cbn [after_stage snd] in Hrun, E1;
    [|left; injection Hrun as -> ->;
      eapply extends_by_trans; [|exact Hc]; by eapply extends_by_trans
     |left; injection Hrun as -> ->;
      eapply extends_by_trans; [|exact Hc]; by eapply extends_by_trans].
  assert (extends_by not_npm_start s s1) as E01 by (by eapply extends_by_trans).
  destruct Hrun as (r2 & H2 & Hrun).
  set (s1' := printed _ s1) in H2.
  assert (extends_by not_npm_start s s1') as E1'.
  { eapply extends_by_trans; [exact E01 | by apply extends_by_print]. }
  apply (stage_extends not_npm_start) in H2 as [E2 Hcall];
    [|done|by intros []|intros sx; eapply extends_by_mono; [apply before_frontend_not_npm|apply start_backend_extends]].
  destruct r2 as [[[[] m2]|e2] s2]; cbn [after_stage snd] in Hrun, E2;
    [|left; injection Hrun as -> ->;
      eapply extends_by_trans; [|exact Hc]; by eapply extends_by_trans
     |left; injection Hrun as -> ->;
      eapply extends_by_trans; [|exact Hc]; by eapply extends_by_trans].
  right. destruct Hcall as (sa & sb & Ha & Hb & Hs2). exists sa, sb, m2.
  split; [by eapply extends_by_trans|]. split; [exact Hb|].
  assert (extends_by any_event sb s2) as Eb2.
  { destruct Hs2 as [->| ->]; [apply extends_by_refl | by apply extends_by_print]. }
  destruct Hrun as (r3 & H3 & Hrun).
  apply (stage_extends any_event) in H3 as [E3 _];
    [|done|done|apply start_frontend_extends_any].
  assert (extends_by any_event sb (snd r3)) as Eb3.
  { eapply extends_by_trans; [exact Eb2|].
    eapply extends_by_trans; [|exact E3]. by apply extends_by_print. }
  eapply extends_by_trans; [|eapply extends_by_any, Hc].
  destruct r3 as [[[[] m3]|e3] s3]; cbn [after_stage snd] in Hrun, Eb3;
    [|by injection Hrun as -> ->|by injection Hrun as -> ->].
  destruct s3 as [d3 w3].
  destruct (verification_onwards_spec d3 w3) as (results & replies & written & Hv & Hlen).
  cbn zeta in Hv. rewrite Hv in Hrun. injection Hrun as <- <-.
  eapply extends_by_trans; [exact Eb3|]. by apply extends_by_log_all, forallb_forall.
Qed.

(** X11. The frontend server is spawned only after the backend has answered
    200 on its health url: in every run of [demonstrate], each [npm start]
    comes after a GET of [<backend url>/health] that was answered with 200. *)
Theorem frontend_is_spawned_only_after_the_backend_answered
    (fuel : nat) (s : State) (res : outcome report_t) (s' : State)
    (pre post : list event) (e : event) :
  demonstrate fuel s = Some (res, s') ->
  added s s' = pre ++ e :: post ->
  is_npm_start e = true ->
  exists base, EvGet (base +:+ "/health") None (Response 200) ∈ pre.
Proof.
  intros Hrun Hsplit He.
  assert (Hnot : forall evs, forallb not_npm_start evs = true -> e ∉ evs).
  { intros evs Hall Hin. apply (forallb_elem_of _ _ _ Hall) in Hin.
    unfold not_npm_start in Hin. by rewrite He in Hin. }
  apply run_reaches_frontend in Hrun as [Hnone | (sa & sb & m & Ha & Hb & Hrest)].
  - exfalso. apply (Hnot _ (extends_by_added _ _ _ Hnone)).
    rewrite Hsplit. apply elem_of_app. right. apply elem_of_cons. by left.
  - assert (extends_by not_npm_start sa sb) as Hab.
    { rewrite <- (f_equal snd Hb : snd (_start_backend sa) = sb).
      eapply extends_by_mono; [apply before_frontend_not_npm | apply start_backend_extends]. }
    assert (extends_by not_npm_start s sb) as Hsb by (by eapply extends_by_trans).
    rewrite (extends_by_added_app _ _ _ _ _ Hsb Hrest) in Hsplit.
    exists (backend_url (fst sa)).
    assert (EvGet (backend_url (fst sa) +:+ "/health") None (Response 200) ∈ added s sb) as Hin.
    { rewrite (extends_by_added_app _ _ _ _ _ Ha Hab). apply elem_of_app. right.
      destruct sa as [da wa]. by eapply start_backend_success. }
    apply app_eq_inv in Hsplit as [(k & Hk & Hk') | (k & -> & _)].
    + destruct k as [|e0 k].
      * rewrite app_nil_r in Hk. by subst pre.
      * exfalso. injection Hk' as <- _.
        apply (Hnot _ (extends_by_added _ _ _ Hsb)).
        rewrite Hk. apply elem_of_app. right. apply elem_of_cons. by left.
    + apply elem_of_app. by left.
Qed.

Lemma frontend_is_spawned_only_after_the_backend_answered_witness :
  exists res s' pre e post,
    demonstrate 1 (fresh healthy_env) = Some (res, s')
    ∧ added (fresh healthy_env) s' = pre ++ e :: post
    ∧ is_npm_start e = true
    ∧ exists base, EvGet (base +:+ "/health") None (Response 200) ∈ pre.
Proof.
  assert (H : exists res s',
    demonstrate 1 (fresh healthy_env) = Some (res, s')
    ∧ exists pre e post,
        added (fresh healthy_env) s' = pre ++ e :: post ∧ is_npm_start e = true).
  { eexists _, _. split; [vm_compute; reflexivity|].
    match goal with
    | |- exists pre e post, ?l = _ ∧ _ =>
        let l' := eval vm_compute in l in
        exists (take 8 l'), (default (EvSleep 0) (l' !! 8%nat)), (drop 9 l')
    end.
    split; [vm_compute; reflexivity | vm_compute; reflexivity]. }
  destruct H as (res & s' & Hrun & pre & e & post & Hsplit & He).
  exists res, s', pre, e, post.
  split; [exact Hrun|]. split; [exact Hsplit|]. split; [exact He|].
  exact (frontend_is_spawned_only_after_the_backend_answered
           1 (fresh healthy_env) res s' pre post e Hrun Hsplit He).
Defined.


(** ** The port the frontend is told *)

Lemma os_environ_log_all evs w : os_environ (log_all evs w) = os_environ w.
Proof.
  revert w. induction evs as [|e evs IH]; intros w; [done|].
  by rewrite log_all_cons, IH.
Qed.

Lemma analyze_is_fixer error component s :
  _analyze_and_fix_error error component s =
    if String.eqb component "backend" then _fix_backend_error error s
    else if String.eqb component "frontend" then _fix_frontend_error error s
    else if String.eqb component "dependencies" then _fix_dependency_error error s
    else (Returned (false, "Unknown component: " +:+ component), s).
Proof.
  destruct s as [d w]. unfold _analyze_and_fix_error.
  destruct (String.eqb component "backend").
  { destruct (fix_backend_effects error d w) as (f & m & evs & d' & w' & Hres & _).
    by rewrite (try_except_returned _ _ _ _ (f, m)) by (by rewrite Hres). }
  destruct (String.eqb component "frontend").
  { destruct (fix_frontend_effects error d w) as (f & m & evs & d' & w' & Hres & _).
    by rewrite (try_except_returned _ _ _ _ (f, m)) by (by rewrite Hres). }
  destruct (String.eqb component "dependencies").
  { destruct (fix_dependency_effects error d w) as (f & m & evs & d' & w' & Hres & _).
    by rewrite (try_except_returned _ _ _ _ (f, m)) by (by rewrite Hres). }
  done.
Qed.

Ltac agrees_leaf H :=
  first
    [ exact H
    | split; [reflexivity|]; cbn; intros p; rewrite lookup_insert;
      by intros [= <-] ].

Lemma fix_backend_keeps_frontend error s :
  frontend_agrees s -> frontend_agrees (snd (_fix_backend_error error s)).
Proof.
  destruct s as [d w]. destruct d as [pd bp fp bport fport burl furl fa].
  unfold frontend_agrees. cbn [fst snd frontend_url frontend_port]. intros H.
  unfold _fix_backend_error, ensure_fix_attempts, conclude_fix, record_fix,
    try_except, bind, self, world, update_self, subprocess_run, list_index, ret, raise.
  cbn.
  destruct (py_in "ModuleNotFoundError" error) eqn:E1.
  { destruct (py_split "'" error !! 1%nat) as [m|] eqn:Em; cbn.
    - reply_cases; destruct fa; cbn; agrees_leaf H.
    - destruct fa; agrees_leaf H. }
  destruct (py_in "Address already in use" error) eqn:E2; [destruct fa; cbn; agrees_leaf H|].
  destruct (py_in "No module named 'flask'" error) eqn:E3.
  { reply_cases; destruct fa; cbn; agrees_leaf H. }
  destruct (py_in "SQLAlchemy" error) eqn:E4; [|destruct fa; cbn; agrees_leaf H].
  cbn. unfold bind, subprocess_run, ret. cbn.
  reply_cases; cbn; [destruct fa; agrees_leaf H|].
  reply_cases; cbn; [destruct fa; agrees_leaf H|].
  reply_cases; cbn; destruct fa; agrees_leaf H.
Qed.

Lemma fix_frontend_keeps_frontend error s :
  frontend_agrees s -> frontend_agrees (snd (_fix_frontend_error error s)).
Proof.
  destruct s as [d w]. destruct d as [pd bp fp bport fport burl furl fa].
  unfold frontend_agrees. cbn [fst snd frontend_url frontend_port]. intros H.
  unfold _fix_frontend_error, ensure_fix_attempts, conclude_fix, record_fix,
    _create_basic_package_json, try_except, bind, self, world, update_self, update_world,
    subprocess_run, ret, raise.
  cbn.
  destruct (py_in "ENOENT" error && py_in "package.json" error) eqn:E1.
  { reply_cases; destruct fa; cbn; agrees_leaf H. }
  destruct (py_in "react-scripts" error) eqn:E2.
  { reply_cases; destruct fa; cbn; agrees_leaf H. }
  destruct (py_in "EADDRINUSE" error) eqn:E3; destruct fa; cbn; agrees_leaf H.
Qed.

Lemma fix_dependency_keeps_frontend error s :
  frontend_agrees s -> frontend_agrees (snd (_fix_dependency_error error s)).
Proof.
  destruct s as [d w]. destruct d as [pd bp fp bport fport burl furl fa].
  unfold frontend_agrees. cbn [fst snd frontend_url frontend_port]. intros H.
  unfold _fix_dependency_error, ensure_fix_attempts, conclude_fix, record_fix,
    try_except, bind, self, world, update_self, subprocess_run, ret, raise.
  cbn.
  destruct (py_in "npm" (py_lower error)) eqn:E1.
  { destruct (String.eqb (sys_platform (env w)) "win32");
      reply_cases; destruct fa; cbn; agrees_leaf H. }
  destruct (py_in "python" (py_lower error) || py_in "pip" (py_lower error)) eqn:E2.
  { reply_cases; destruct fa; cbn; agrees_leaf H. }
  destruct fa; cbn; agrees_leaf H.
Qed.

Lemma analyze_keeps_frontend error component s :
  frontend_agrees s -> frontend_agrees (snd (_analyze_and_fix_error error component s)).
Proof.
  intros H. rewrite analyze_is_fixer.
  destruct (String.eqb component "backend"); [by apply fix_backend_keeps_frontend|].
  destruct (String.eqb component "frontend"); [by apply fix_frontend_keeps_frontend|].
  destruct (String.eqb component "dependencies"); [by apply fix_dependency_keeps_frontend|].
  exact H.
Qed.

Lemma keeps_frontend_refl s : keeps_frontend s s.
Proof. split; [done | apply extends_by_refl]. Qed.

Lemma keeps_frontend_trans s1 s2 s3 :
  keeps_frontend s1 s2 -> keeps_frontend s2 s3 -> keeps_frontend s1 s3.
Proof. intros [H1 E1] [H2 E2]. split; [auto | by eapply extends_by_trans]. Qed.

Lemma keeps_frontend_print text s : keeps_frontend s (printed text s).
Proof. split; [done | by apply extends_by_print]. Qed.

Lemma keeps_frontend_fix error component s :
  keeps_frontend s (snd (_analyze_and_fix_error error component s)).
Proof. split; [apply analyze_keeps_frontend | by apply extends_by_fix]. Qed.

Lemma keeps_frontend_install s : keeps_frontend s (snd (_install_dependencies s)).
Proof.
  split; [|eapply extends_by_any, install_extends].
  destruct s as [d w]. rewrite install_dependencies_cases.
  unfold install_by_cases. cbn [fst snd].
  repeat match goal with
         | |- context [os_path_exists ?a ?b ?c] => destruct (os_path_exists a b c) eqn:?
         | |- context [subprocess_run_reply ?a ?b ?c ?d] =>
             destruct (subprocess_run_reply a b c d) eqn:?
         end;
    cbn [fst snd]; try congruence; exact (fun H => H).
Qed.

Lemma keeps_frontend_start_backend s : keeps_frontend s (snd (_start_backend s)).
Proof.
  split; [|eapply extends_by_any, start_backend_extends].
  destruct s as [d w]. destruct (start_backend_events d w) as (r & replies & -> & _).
  unfold frontend_agrees. cbn [fst snd]. rewrite os_environ_log_all.
  by destruct (subprocess_Popen_reply _ _ _ _ _).
Qed.

Lemma keeps_frontend_start_frontend s : keeps_frontend s (snd (_start_frontend s)).
Proof.
  split; [|apply start_frontend_extends_any].
  destruct s as [d w]. destruct (start_frontend_events d w) as (r & replies & -> & _).
  unfold frontend_agrees. cbn [fst snd]. rewrite os_environ_log_all.
  by destruct (subprocess_Popen_reply _ _ _ _ _).
Qed.

Lemma stage_keeps_frontend fuel operation component func s res :
  (forall s0, keeps_frontend s0 (snd (func s0))) ->
  stage fuel operation component func s = Some res ->
  keeps_frontend s (snd res) ∧ succeeded_call keeps_frontend operation func s res.
Proof.
  intros Hfunc. apply (stage_rel keeps_frontend).
  - apply keeps_frontend_refl.
  - apply keeps_frontend_trans.
  - apply keeps_frontend_print.
  - apply keeps_frontend_fix.
  - exact Hfunc.
Qed.

Lemma elem_of_added_between P Q R s sa sb s' e :
  extends_by P s sa -> extends_by Q sa sb -> extends_by R sb s' ->
  e ∈ added sa sb -> e ∈ added s s'.
Proof.
  intros Ha Hb Hc Hin.
  assert (extends_by any_event s sb) as Hsb.
  { eapply extends_by_trans; eapply extends_by_any; eassumption. }
  rewrite (extends_by_added_app _ _ _ _ _ Hsb Hc).
  rewrite (extends_by_added_app _ _ _ _ _ Ha Hb).
  apply elem_of_app. left. apply elem_of_app. by right.
Qed.

(** X12. When [demonstrate] succeeds from a state in which the frontend url
    is the one built from the frontend port and [PORT] is not set in
    [os.environ] to anything else, then the frontend it leaves running and
    advertises is one server: the [npm start] whose handle the instance
    holds was given the final frontend port in [PORT], the final frontend
    url is the one built from that port, and a GET of that url was answered
    with 200. *)
Theorem on_success_the_frontend_was_told_the_advertised_port
    (fuel : nat) (s : State) (message : string) (report : option string) (s' : State) :
  demonstrate fuel s = Some (Returned (true, message, report), s') ->
  frontend_agrees s ->
  exists cwd penv pid,
    EvPopen ["npm"; "start"] cwd penv (inr pid) ∈ added s s'
    ∧ penv !! "PORT" = Some (py_str (frontend_port (fst s')))
    ∧ frontend_process (fst s') = Some pid
    ∧ frontend_url (fst s') = "http://localhost:" +:+ py_str (frontend_port (fst s'))
    ∧ EvGet (frontend_url (fst s')) None (Response 200) ∈ added s s'.
Proof.
  intros Hrun Hs. apply demonstrate_phases in Hrun
    as (res_try & s_try & cevs & Htry & -> & Hcl & Hres).
  assert (Hc : extends_by any_event s_try (fst s_try, log_all cevs (snd s_try))).
  { destruct s_try as [d1 w1]. by apply extends_by_log_all, forallb_forall. }
  destruct res_try as [r|e]; [|discriminate Hres]. injection Hres as <-.
  apply demonstrate_try_stages in Htry as (r1 & H1 & Hrun).
  apply (stage_keeps_frontend _ _ _ _ _ _ keeps_frontend_install) in H1 as [K1 _].
  destruct r1 as [[[[] m1]|e1] s1]; cbn [after_stage snd] in Hrun, K1; [|discriminate..].
  destruct Hrun as (r2 & H2 & Hrun).
  apply (stage_keeps_frontend _ _ _ _ _ _ keeps_frontend_start_backend) in H2 as [K2 _].
  destruct r2 as [[[[] m2]|e2] s2]; cbn [after_stage snd] in Hrun, K2; [|discriminate..].
  destruct Hrun as (r3 & H3 & Hrun).
  apply (stage_keeps_frontend _ _ _ _ _ _ keeps_frontend_start_frontend) in H3 as [K3 Hcall].
  destruct r3 as [[[[] m3]|e3] s3]; cbn [after_stage snd] in Hrun, K3; [|discriminate..].
  destruct Hcall as (sa & sb & Ka & Hb & Hs3).
  assert (keeps_frontend s sa) as [Hagree Ea].
  { eapply keeps_frontend_trans; [apply keeps_frontend_print|].
    eapply keeps_frontend_trans; [apply keeps_frontend_print|].
    eapply keeps_frontend_trans; [exact K1|].
    eapply keeps_frontend_trans; [apply keeps_frontend_print|].
    eapply keeps_frontend_trans; [exact K2|].
    eapply keeps_frontend_trans; [apply keeps_frontend_print | exact Ka]. }
  specialize (Hagree Hs). destruct Hagree as [Hurl Hport].
  destruct sa as [da wa]. cbn [fst snd] in Hurl, Hport.
  destruct (start_frontend_events da wa) as (r & replies & Hev & Hspec & Hfail).
  cbn zeta in Hev, Hfail. rewrite Hb in Hev. injection Hev as <- Hsb.
  destruct (subprocess_Popen_reply _ _ _ _ _) as [e0|pid] eqn:Hp.
  { by destruct (Hfail e0 eq_refl) as [[=] _]. }
  destruct Hspec as [(e & [=] & _) | [(_ & pre & -> & _) | ([=] & _)]].
  assert (fst sb = set_frontend_process (Some pid) da) as Hd by (by rewrite Hsb).
  assert (extends_by any_event (da, wa) sb) as Eab.
  { rewrite Hsb, <- log_all_cons. by apply extends_by_log_all, forallb_forall. }
  assert (extends_by any_event sb (fst s_try, log_all cevs (snd s_try))
          ∧ fst s_try = fst sb) as [Eb Hfst].
  { assert (extends_by any_event sb s3 ∧ fst s3 = fst sb) as [E3 Hf3].
    { destruct Hs3 as [->| ->]; split; [apply extends_by_refl|done| |done].
      by apply extends_by_print. }
    destruct s3 as [d3 w3].
    destruct (verification_onwards_spec d3 w3) as (results & replies & written & Hv & Hlen).
    cbn zeta in Hv. rewrite Hv in Hrun. injection Hrun as _ <-. cbn [fst snd] in *.
    split; [|exact Hf3].
    eapply extends_by_trans; [exact E3|].
    eapply extends_by_trans; [|exact Hc].
    by apply extends_by_log_all, forallb_forall. }
  cbn [fst]. rewrite Hfst, Hd. cbn [frontend_port frontend_process frontend_url
    set_frontend_process].
  eexists _, _, pid.
  split; [|split; [|split; [reflexivity|split; [exact Hurl|]]]].
  - eapply (elem_of_added_between _ _ _ _ _ _ _ _ Ea Eab Eb).
    rewrite Hsb, <- log_all_cons, added_log_all. apply elem_of_cons. by left.
  - destruct (os_environ wa !! "PORT") as [p|] eqn:Hlook.
    + rewrite (lookup_union_Some_l _ _ _ _ Hlook). f_equal. by apply Hport.
    + rewrite lookup_union_r by exact Hlook. apply lookup_singleton_eq.
  - eapply (elem_of_added_between _ _ _ _ _ _ _ _ Ea Eab Eb).
    rewrite Hsb, <- log_all_cons, added_log_all. apply elem_of_cons. right.
    rewrite map_app, concat_app. apply elem_of_app. right.
    cbn. apply elem_of_cons. by left.
Qed.

Lemma on_success_the_frontend_was_told_witness :
  exists message report s' cwd penv pid,
    demonstrate 1 (fresh healthy_env) = Some (Returned (true, message, report), s')
    ∧ EvPopen ["npm"; "start"] cwd penv (inr pid) ∈ added (fresh healthy_env) s'
    ∧ penv !! "PORT" = Some (py_str (frontend_port (fst s'))).
Proof.
  assert (H : exists message report s',
    demonstrate 1 (fresh healthy_env) = Some (Returned (true, message, report), s')).
  { eexists _, _, _. vm_compute. reflexivity. }
  destruct H as (message & report & s' & Hrun).
  assert (Hs : frontend_agrees (fresh healthy_env)).
  { split; [reflexivity|]. intros p Hp. cbn in Hp. by rewrite lookup_empty in Hp. }
  destruct (on_success_the_frontend_was_told_the_advertised_port
              1 (fresh healthy_env) message report s' Hrun Hs)
    as (cwd & penv & pid & Hin & Hport & _).
  exists message, report, s', cwd, penv, pid.
  split; [exact Hrun|]. split; [exact Hin | exact Hport].
Defined.


(** ** What the written report holds *)

Lemma append_assoc_string (a b c : string) : (a +:+ b) +:+ c = a +:+ b +:+ c.
Proof.
  induction a as [|x a IH]; [done|].
  change ((String x a +:+ b) +:+ c) with (String x ((a +:+ b) +:+ c)).
  by rewrite IH.
Qed.

Lemma py_in_fix_lines fix_text (attempts : list string) :
  fix_text ∈ attempts ->
  py_in ("- " +:+ fix_text +:+ nl)
    (foldr (fun a rest => "- " +:+ a +:+ nl +:+ rest) "" attempts) = true.
Proof.
  induction attempts as [|a attempts IH]; intros Hin; [by apply elem_of_nil in Hin|].
  cbn [foldr]. apply elem_of_cons in Hin as [->|Hin].
  - rewrite <- (append_assoc_string a nl), <- (append_assoc_string "- " (a +:+ nl)).
    apply py_in_self.
  - rewrite <- (append_assoc_string a nl), <- (append_assoc_string "- " (a +:+ nl)).
    apply py_in_app_r. by apply IH.
Qed.

Lemma py_in_fix_section component fix_text attempts :
  fix_text ∈ attempts ->
  py_in ("- " +:+ fix_text +:+ nl) (fix_section component attempts) = true.
Proof.
  intros Hin. unfold fix_section.
  do 5 apply py_in_app_r. by apply py_in_fix_lines.
Qed.

(** X13. The text written to [demo_report.md] (the report followed by the fix
    summary) holds the table row of every result it was given, the two urls
    of the instance, and one line ["- <description>"] for every fix recorded
    in the ledger; without a ledger it says that no fixes were needed. *)
Theorem written_report_lists_results_urls_and_fixes
    (d : AppDemonstrator) (api_results : list api_result) :
  let content := _generate_demo_report d api_results +:+ fix_summary d in
  (forall r, r ∈ api_results -> py_in (report_row r) content = true)
  ∧ py_in ("- Frontend: " +:+ frontend_url d) content = true
  ∧ py_in ("- Backend API: " +:+ backend_url d) content = true
  ∧ match _fix_attempts d with
    | Some fa =>
        forall fix_text, fix_text ∈ all_fixes fa ->
          py_in ("- " +:+ fix_text +:+ nl) content = true
    | None =>
        py_in ("No fixes were needed during demonstration." +:+ nl) content = true
    end.
Proof.
  cbn zeta. split; [|split; [|split]].
  - intros r Hr. apply py_in_app_l. unfold _generate_demo_report. apply py_in_join.
    apply elem_of_app. right. apply elem_of_app. left.
    by apply (list_elem_of_fmap_2 report_row).
  - apply py_in_app_l, report_shows_frontend_url.
  - apply py_in_app_l. unfold _generate_demo_report. apply py_in_join.
    apply elem_of_app. right. apply elem_of_app. right.
    apply elem_of_cons. right. apply elem_of_cons. right. apply elem_of_cons. by left.
  - unfold fix_summary. destruct (_fix_attempts d) as [fa|].
    + intros fix_text Hin. apply py_in_app_r. do 4 apply py_in_app_r.
      unfold all_fixes in Hin.
      apply elem_of_app in Hin as [Hin|Hin]; [|apply elem_of_app in Hin as [Hin|Hin]].
      * apply py_in_app_l. by apply py_in_fix_section.
      * apply py_in_app_r, py_in_app_l. by apply py_in_fix_section.
      * do 2 apply py_in_app_r. by apply py_in_fix_section.
    + apply py_in_app_r. do 4 apply py_in_app_r. apply py_in_refl.
Qed.


(** ** What the final cleanup reaches *)

Lemma same_env_install s : same_env s (snd (_install_dependencies s)).
Proof.
  destruct s as [d w]. rewrite install_dependencies_cases.
  unfold install_by_cases, same_env. cbn [fst snd].
  repeat match goal with
         | |- context [os_path_exists ?a ?b ?c] => destruct (os_path_exists a b c) eqn:?
         | |- context [subprocess_run_reply ?a ?b ?c ?d] =>
             destruct (subprocess_run_reply a b c d) eqn:?
         end;
    cbn [fst snd]; try congruence; reflexivity.
Qed.

Lemma same_env_start_backend s : same_env s (snd (_start_backend s)).
Proof.
  destruct s as [d w]. destruct (start_backend_events d w) as (r & replies & -> & _).
  unfold same_env. cbn [snd]. by rewrite env_log_all.
Qed.

Lemma same_env_start_frontend s : same_env s (snd (_start_frontend s)).
Proof.
  destruct s as [d w]. destruct (start_frontend_events d w) as (r & replies & -> & _).
  unfold same_env. cbn [snd]. by rewrite env_log_all.
Qed.

Lemma stage_same_env fuel operation component func s res :
  (forall s0, same_env s0 (snd (func s0))) ->
  stage fuel operation component func s = Some res -> same_env s (snd res).
Proof.
  intros Hfunc Hrun. apply (stage_rel same_env) in Hrun as [H _]; try done.
  - intros s1 s2 s3 H1 H2. unfold same_env in *. congruence.
  - intros error comp s0.
    by destruct (analyze_keeps_env error comp s0) as (r & _ & He).
Qed.

Lemma demonstrate_try_same_env fuel s res s' :
  demonstrate_try fuel s = Some (res, s') -> env (snd s') = env (snd s).
Proof.
  intros Hrun. apply demonstrate_try_stages in Hrun as (r1 & H1 & Hrun).
  apply (stage_same_env _ _ _ _ _ _ same_env_install) in H1. unfold same_env in H1.
  cbn [printed fst snd env log] in H1.
  destruct r1 as [[[[] m1]|e1] s1]; cbn [after_stage snd] in Hrun, H1;
    [|by injection Hrun as _ <-..].
  destruct Hrun as (r2 & H2 & Hrun).
  apply (stage_same_env _ _ _ _ _ _ same_env_start_backend) in H2. unfold same_env in H2.
  cbn [printed fst snd env log] in H2.
  destruct r2 as [[[[] m2]|e2] s2]; cbn [after_stage snd] in Hrun, H2;
    [|injection Hrun as _ <-; congruence..].
  destruct Hrun as (r3 & H3 & Hrun).
  apply (stage_same_env _ _ _ _ _ _ same_env_start_frontend) in H3. unfold same_env in H3.
  cbn [printed fst snd env log] in H3.
  destruct r3 as [[[[] m3]|e3] s3]; cbn [after_stage snd] in Hrun, H3;
    [|injection Hrun as _ <-; congruence..].
  destruct s3 as [d3 w3].
  destruct (verification_onwards_spec d3 w3) as (results & replies & written & Hv & Hlen).
  cbn zeta in Hv. rewrite Hv in Hrun. injection Hrun as _ <-. cbn [snd] in *.
  rewrite env_log_all. congruence.
Qed.

(** X14. Where psutil does not raise, a run ends with its servers stopped:
    if listing the children of a process and terminating a child never raise
    in the environment of the run, then for each process handle the instance
    holds when [demonstrate] returns, the children of that process were
    listed, each of them was terminated, and the process itself was
    terminated. *)
Theorem final_handles_are_terminated_when_psutil_does_not_raise
    (fuel : nat) (s : State) (res : outcome report_t) (s' : State) (pid : Z) :
  demonstrate fuel s = Some (res, s') ->
  (forall t p, exists l, psutil_children_reply (env (snd s)) t p = inr l) ->
  (forall t p, psutil_terminate_reply (env (snd s)) t p = None) ->
  backend_process (fst s') = Some pid ∨ frontend_process (fst s') = Some pid ->
  exists children,
    EvChildren pid (inr children) ∈ added s s'
    ∧ pid ∈ terminated (added s s')
    ∧ forall c, c ∈ children -> c ∈ terminated (added s s').
Proof.
  intros Hrun Hchildren Hterminate Hpid.
  unfold demonstrate, try_finally_cleanup in Hrun.
  destruct (demonstrate_try fuel s) as [[res_try [d1 w1]]|] eqn:Htry; [|discriminate].
  pose proof (demonstrate_try_same_env _ _ _ _ Htry) as Henv. cbn [snd] in Henv.
  rewrite <- Henv in Hchildren, Hterminate.
  destruct (cleanup_terminates_handles d1 w1 Hchildren Hterminate) as (evs & Hcl & Hall).
  rewrite Hcl in Hrun. injection Hrun as _ <-. cbn [fst] in Hpid.
  destruct (Hall pid Hpid) as (children & Hlist & Hp & Hcs).
  assert (extends_by any_event s (d1, w1)) as Hbody.
  { apply demonstrate_try_phases in Htry as [[Hst _] | Hfull].
    - by eapply extends_by_any.
    - destruct Hfull as (s3 & results & replies & written & Hst & Heq & _).
      cbn zeta in Heq. rewrite Heq. destruct s3 as [d3 w3]. cbn [fst snd].
      eapply extends_by_trans; [by eapply extends_by_any|].
      by apply extends_by_log_all, forallb_forall. }
  assert (extends_by any_event (d1, w1) (d1, log_all evs w1)) as Hc.
  { by apply extends_by_log_all, forallb_forall. }
  rewrite (extends_by_added_app _ _ _ _ _ Hbody Hc), added_log_all, terminated_app.
  exists children. split; [apply elem_of_app; by right|].
  split; [apply elem_of_app; by right|].
  intros c Hc'. apply elem_of_app. right. by apply Hcs.
Qed.

Lemma final_handles_are_terminated_witness :
  exists res s' children,
    demonstrate 1 (fresh healthy_env) = Some (res, s')
    ∧ backend_process (fst s') = Some 100
    ∧ EvChildren 100 (inr children) ∈ added (fresh healthy_env) s'
    ∧ 100 ∈ terminated (added (fresh healthy_env) s').
Proof.
  assert (H : exists res s',
    demonstrate 1 (fresh healthy_env) = Some (res, s')
    ∧ backend_process (fst s') = Some 100).
  { eexists _, _. split; [vm_compute; reflexivity | vm_compute; reflexivity]. }
  destruct H as (res & s' & Hrun & Hb).
  destruct (final_handles_are_terminated_when_psutil_does_not_raise
              1 (fresh healthy_env) res s' 100 Hrun
              (fun t p => ex_intro _ [] eq_refl) (fun t p => eq_refl) (or_introl Hb))
    as (children & Hlist & Hp & _).
  exists res, s', children.
  split; [exact Hrun|]. split; [exact Hb|]. split; [exact Hlist | exact Hp].
Defined.
